(** * LiveRoom: the per-session telemetry relay of [src/index.ts]

    A shallow embedding of the Durable Object [LiveRoom] (window buffer,
    socket set, ingest and subscribe handlers, request dispatch) together
    with the properties of its ingest / replay / live-update protocol.

    Conventions of the embedding:
    - JSON payloads are values of [json]; a JavaScript value that may be
      [undefined] is an [option json] ([None] is [undefined]).
    - Payload numbers are IEEE doubles ([spec_float]); they are only copied
      and tested for truthiness, never computed with.
    - Time values (results of [Date.parse], [latest], [cutoff], [t_ms]) are
      of type [number]: NaN, the two infinities, or an integer.  A time
      value has magnitude at most 8.64e15 and the program only subtracts
      30000 from one, so every intermediate result is an integer below 2^53
      and the integer arithmetic is the double arithmetic.
    - Object literals of fixed shape built by the program (the two wire
      messages, the success body) are records and constructors.
    - [Date.parse] is a built-in of the platform whose behaviour outside the
      ECMAScript date-time format is implementation defined: what it returns
      is a parameter of the development.  The conversion of its argument to
      a string comes first and is modelled: it throws on an object that has
      an own [toString] property.
    - A [string] is the UTF-8 text of the JavaScript string.  Equality,
      prefixes, splitting at a slash and the escaping of the five markup
      characters act on it as they do on the UTF-16 original; iterating or
      spreading a string value is modelled per byte, which is exact on
      ASCII.  The engine's limits on frame size and argument count are
      outside the model.
    - [src/index.ts] holds an earlier stub of [LiveRoom] followed by the
      relay itself and the viewer page; the embedding is of the relay. *)

From Stdlib Require Import ZArith List String Ascii Bool Lia PeanoNat.
From Stdlib Require Import DecimalString.
From Stdlib Require Import Floats.SpecFloat.
From Stdlib Require Import Sorting.Sorted Sorting.Permutation.
Import ListNotations.

#[local] Set Warnings "-register-all".
Local Open Scope string_scope.
Local Open Scope list_scope.

(** ** JavaScript values and the built-ins the room uses *)

Module JS.

Inductive json : Type :=
| JNull
| JBool (b : bool)
| JNum (f : spec_float)
| JStr (s : string)
| JArr (elems : list json)
| JObj (props : list (string * json)).

(** A value that may be [undefined]. *)
Definition value : Type := option json.
Definition undefined : value := None.

Inductive exn : Type :=
| TypeError (what : string)
| SendError.

Inductive result (A : Type) : Type :=
| Ok (a : A)
| Thrown (e : exn).
Arguments Ok {A} a.
Arguments Thrown {A} e.

(** Own property lookup in property order. *)
Fixpoint lookup (k : string) (props : list (string * json)) : value :=
  match props with
  | [] => None
  | (k', v) :: rest => if String.eqb k k' then Some v else lookup k rest
  end.

(** [o.k] for the data keys the program reads ([samples], [t_gps_utc],
    [session_id], [device_id]): none of them is a property of a built-in
    prototype, so only plain objects can answer.  Reading a property of
    [null] throws. *)
Definition get (o : json) (k : string) : result value :=
  match o with
  | JNull => Thrown (TypeError "Cannot read properties of null")
  | JObj props => Ok (lookup k props)
  | _ => Ok None
  end.

(** [o?.k] on a possibly undefined receiver. *)
Definition get_opt (o : value) (k : string) : value :=
  match o with
  | None | Some JNull => None
  | Some (JObj props) => lookup k props
  | Some _ => None
  end.

(** ToBoolean. *)
Definition truthy (v : value) : bool :=
  match v with
  | None | Some JNull => false
  | Some (JBool b) => b
  | Some (JNum (S754_zero _)) | Some (JNum S754_nan) => false
  | Some (JNum _) => true
  | Some (JStr s) => negb (String.eqb s "")
  | Some (JArr _) | Some (JObj _) => true
  end.

(** ToBoolean of [v?.length]: arrays and strings own a [length], a plain
    object answers with its own property of that name, anything else has
    none. *)
Definition length_truthy (v : value) : bool :=
  match v with
  | Some (JArr elems) => negb (Nat.eqb (List.length elems) 0)
  | Some (JStr s) => negb (Nat.eqb (String.length s) 0)
  | Some (JObj props) => truthy (lookup "length" props)
  | _ => false
  end.

Definition chars (s : string) : list json :=
  map (fun c => JStr (String c EmptyString)) (list_ascii_of_string s).

(** The values a [for ... of] visits; plain objects, numbers, booleans
    and [null] are not iterable. *)
Definition iterate (v : value) : result (list json) :=
  match v with
  | Some (JArr elems) => Ok elems
  | Some (JStr s) => Ok (chars s)
  | _ => Thrown (TypeError "not iterable")
  end.

Definition index_key (i : nat) : string :=
  NilEmpty.string_of_uint (Nat.to_uint i).

Fixpoint indexed (i : nat) (l : list json) : list (string * json) :=
  match l with
  | [] => []
  | x :: rest => (index_key i, x) :: indexed (S i) rest
  end.

(** Own enumerable properties, as an object spread copies them. *)
Definition own_props (s : json) : list (string * json) :=
  match s with
  | JObj props => props
  | JArr elems => indexed 0 elems
  | JStr str => indexed 0 (chars str)
  | _ => []
  end.

Definition remove_key (k : string) (props : list (string * json))
  : list (string * json) :=
  filter (fun p => negb (String.eqb k (fst p))) props.

(** Numbers of the time arithmetic. *)
Inductive number : Type :=
| NaN
| NegInfinity
| PosInfinity
| Int (z : Z).

Definition Number_isFinite (n : number) : bool :=
  match n with Int _ => true | _ => false end.

Definition Math_max (a b : number) : number :=
  match a, b with
  | NaN, _ | _, NaN => NaN
  | PosInfinity, _ | _, PosInfinity => PosInfinity
  | NegInfinity, x | x, NegInfinity => x
  | Int x, Int y => Int (Z.max x y)
  end.

(** [a - k] for a finite [k]. *)
Definition minus (a : number) (k : Z) : number :=
  match a with
  | Int x => Int (x - k)
  | other => other
  end.

(** [a >= b]. *)
Definition geb (a b : number) : bool :=
  match a, b with
  | NaN, _ | _, NaN => false
  | _, NegInfinity => true
  | PosInfinity, _ => true
  | NegInfinity, _ => false
  | Int _, PosInfinity => false
  | Int x, Int y => Z.geb x y
  end.

Definition is_upper (c : ascii) : bool :=
  let n := nat_of_ascii c in (65 <=? n)%nat && (n <=? 90)%nat.

Definition lower_char (c : ascii) : ascii :=
  if is_upper c then ascii_of_nat (nat_of_ascii c + 32) else c.

(** The three bytes of U+212A, the Kelvin sign. *)
Definition kelvin_1 : ascii := ascii_of_nat 226.
Definition kelvin_2 : ascii := ascii_of_nat 132.
Definition kelvin_3 : ascii := ascii_of_nat 170.

(** [String.prototype.toLowerCase], as far as a comparison of the result
    with an ASCII word can tell.  The code points whose lower case is made
    of ASCII letters alone are A-Z and the Kelvin sign U+212A, which becomes
    [k]; every other code point outside ASCII lowers to text outside ASCII
    and is copied here. *)
Fixpoint toLowerCase (s : string) : string :=
  match s with
  | EmptyString => EmptyString
  | String c rest =>
      match rest with
      | String c2 (String c3 after) =>
          if Ascii.eqb c kelvin_1 && Ascii.eqb c2 kelvin_2 && Ascii.eqb c3 kelvin_3
          then String "k" (toLowerCase after)
          else String (lower_char c) (toLowerCase rest)
      | _ => String (lower_char c) (toLowerCase rest)
      end
  end.

(** Whether converting a value to a string throws.  No JSON value is
    callable, so an object with an own [toString] property has no usable
    conversion ([valueOf] returns the object) and ToPrimitive throws; any
    other object answers through [Object.prototype.toString].  An array
    joins the conversions of its elements, [null] counting as empty. *)
Fixpoint ToString_throws (j : json) : bool :=
  match j with
  | JObj props => existsb (fun p => String.eqb (fst p) "toString") props
  | JArr elems => existsb ToString_throws elems
  | _ => false
  end.

End JS.
Import JS.

(** ** The room, the sockets it talks to, and the handler monad *)

Definition WebSocket : Type := nat.

Inductive ReadyState : Type := OPEN | CLOSED.

(** One end of a [WebSocketPair] as the runtime knows it: whether a send
    still goes through, and whether the room attached its listeners. *)
Record Endpoint : Type := mkEndpoint {
  ready : ReadyState;
  listened : bool
}.

(** [TelemetryBatch["samples"][number] & { t_ms: number }]: the properties
    copied from the received sample, and the parsed time. *)
Record BufferedSample : Type := mkBuffered {
  rest : list (string * json);
  t_ms : number
}.

(** The two object literals handed to [JSON.stringify] for the viewers; the
    constructor is the [type] field.  A frame on the wire is the
    serialisation of one of them. *)
Inductive message : Type :=
| Replay (window_ms : Z) (samples : list json)
| Samples (session_id device_id : value) (samples : list json).

(** The fields of the [LiveRoom] instance. *)
Record LiveRoom : Type := mkRoom {
  buffer : list BufferedSample;
  sockets : list WebSocket          (* a [Set], in insertion order *)
}.

(** What lies outside the instance: every socket end allocated so far (a
    [WebSocket] is its index) and the frames delivered, oldest first. *)
Record Runtime : Type := mkRuntime {
  endpoints : list Endpoint;
  wire : list (WebSocket * message)
}.

Record Sys : Type := mkSys {
  room : LiveRoom;
  net : Runtime
}.

Definition cold_start : Sys :=
  mkSys (mkRoom [] []) (mkRuntime [] []).

Inductive Body : Type :=
| NoBody
| Text (s : string)
| Received (received : nat).      (* [{ ok: true, received }] *)

Record Response : Type := mkResponse {
  body : Body;
  status : Z;
  content_type : option string;
  webSocket : option WebSocket
}.

Definition text_response (s : string) (code : Z) : Response :=
  mkResponse (Text s) code None None.

(** What a handler reads of a [Request].  [json_body] is the outcome of
    [request.json()]: [None] when the promise rejects. *)
Record Request : Type := mkRequest {
  method : string;
  pathname : string;
  header_Upgrade : option string;
  json_body : option json
}.

(** Handlers run against the whole system and either return or throw; the
    state reached when an exception escapes is kept. *)
Definition M (A : Type) : Type := Sys -> result A * Sys.

Definition ret {A : Type} (a : A) : M A := fun st => (Ok a, st).

Definition bind {A B : Type} (c : M A) (k : A -> M B) : M B :=
  fun st =>
    match c st with
    | (Ok a, st') => k a st'
    | (Thrown e, st') => (Thrown e, st')
    end.

(** [try { c } catch { }]. *)
Definition try_ignore (c : M unit) : M unit :=
  fun st =>
    match c st with
    | (Ok _, st') => (Ok tt, st')
    | (Thrown _, st') => (Ok tt, st')
    end.

Definition lift {A : Type} (r : result A) : M A := fun st => (r, st).

Definition gets {A : Type} (f : Sys -> A) : M A := fun st => (Ok (f st), st).

Definition modify_room (f : LiveRoom -> LiveRoom) : M unit :=
  fun st => (Ok tt, mkSys (f (room st)) (net st)).

Definition modify_net (f : Runtime -> Runtime) : M unit :=
  fun st => (Ok tt, mkSys (room st) (f (net st))).

Declare Scope room_scope.
Delimit Scope room_scope with room.
Notation "x <- c ;; k" := (bind c (fun x => k))
  (at level 61, c at next level, right associativity) : room_scope.
Notation "c ;; k" := (bind c (fun _ => k))
  (at level 61, right associativity) : room_scope.
Local Open Scope room_scope.

Fixpoint for_each {A : Type} (l : list A) (body : A -> M unit) : M unit :=
  match l with
  | [] => ret tt
  | x :: more => body x ;; for_each more body
  end.

(** *** Sockets *)

Definition ready_of (ws : WebSocket) (rt : Runtime) : option ReadyState :=
  option_map ready (nth_error (endpoints rt) ws).

Fixpoint update_at {A : Type} (i : nat) (f : A -> A) (l : list A) : list A :=
  match l, i with
  | [], _ => []
  | x :: more, O => f x :: more
  | x :: more, S j => x :: update_at j f more
  end.

(** [ws.send(msg)]: delivered on an open socket, an exception otherwise. *)
Definition ws_send (ws : WebSocket) (msg : message) : M unit :=
  fun st =>
    match ready_of ws (net st) with
    | Some OPEN =>
        (Ok tt, mkSys (room st)
                  (mkRuntime (endpoints (net st)) (wire (net st) ++ [(ws, msg)])))
    | _ => (Thrown SendError, st)
    end.

(** [ws.close()]: closes an open socket, an exception otherwise. *)
Definition ws_close (ws : WebSocket) : M unit :=
  fun st =>
    match ready_of ws (net st) with
    | Some OPEN =>
        (Ok tt, mkSys (room st)
                  (mkRuntime
                     (update_at ws (fun e => mkEndpoint CLOSED (listened e))
                        (endpoints (net st)))
                     (wire (net st))))
    | _ => (Thrown SendError, st)
    end.

(** [new WebSocketPair()]: two fresh open ends, [pair[0]] and [pair[1]]. *)
Definition new_WebSocketPair : M (WebSocket * WebSocket) :=
  fun st =>
    let n := List.length (endpoints (net st)) in
    (Ok (n, S n),
     mkSys (room st)
       (mkRuntime
          (endpoints (net st) ++ [mkEndpoint OPEN false; mkEndpoint OPEN false])
          (wire (net st)))).

(** The three [addEventListener] calls of [acceptViewerWebSocket]. *)
Definition add_listeners (ws : WebSocket) : M unit :=
  modify_net (fun rt =>
    mkRuntime (update_at ws (fun e => mkEndpoint (ready e) true) (endpoints rt))
              (wire rt)).

Definition set_has (ws : WebSocket) (s : list WebSocket) : bool :=
  existsb (Nat.eqb ws) s.

Definition set_add (ws : WebSocket) (s : list WebSocket) : list WebSocket :=
  if set_has ws s then s else s ++ [ws].

Definition set_delete (ws : WebSocket) (s : list WebSocket) : list WebSocket :=
  filter (fun x => negb (Nat.eqb ws x)) s.

Definition sockets_add (ws : WebSocket) : M unit :=
  modify_room (fun r => mkRoom (buffer r) (set_add ws (sockets r))).

Definition sockets_delete (ws : WebSocket) : M unit :=
  modify_room (fun r => mkRoom (buffer r) (set_delete ws (sockets r))).

(** *** The methods of [LiveRoom] *)

Definition WINDOW_MS : Z := 30000.

(** [{ ...s, t_ms }] *)
Definition spread (s : json) (t : number) : BufferedSample :=
  mkBuffered (remove_key "t_ms" (own_props s)) t.

(** [({ t_ms, ...rest }) => rest] *)
Definition strip (b : BufferedSample) : json := JObj (rest b).

Definition pruneBuffer (latestTsMs : number) : M unit :=
  let cutoff := minus latestTsMs WINDOW_MS in
  modify_room (fun r =>
    mkRoom (filter (fun s => geb (t_ms s) cutoff) (buffer r)) (sockets r)).

(** [msg] is [JSON.stringify(obj)]; the wire records the value that is
    serialised. *)
Definition broadcast (obj : message) : M unit :=
  let msg := obj in
  socks <- gets (fun st => sockets (room st)) ;;
  for_each socks (fun ws => try_ignore (ws_send ws msg)).

(** [server.accept()]: the end is already open in this model. *)
Definition ws_accept (ws : WebSocket) : M unit := ret tt.

Definition acceptViewerWebSocket : M Response :=
  pair <- new_WebSocketPair ;;
  let client := fst pair in
  let server := snd pair in
  ws_accept server ;;
  sockets_add server ;;
  buf <- gets (fun st => buffer (room st)) ;;
  ws_send server (Replay WINDOW_MS (map strip buf)) ;;
  add_listeners server ;;
  ret (mkResponse NoBody 101 None (Some client)).

Section Handlers.

(** What [Date.parse] returns for an argument it can convert to a
    string. *)
Variable Date_parse : value -> number.

(** [Date.parse(v)]: the argument is converted to a string first, which
    throws on some objects and arrays. *)
Definition call_Date_parse (v : value) : result number :=
  match v with
  | Some j =>
      if ToString_throws j
      then Thrown (TypeError "Cannot convert object to primitive value")
      else Ok (Date_parse v)
  | None => Ok (Date_parse v)
  end.

(** The body of the [for (const s of batch.samples)] loop, with its two
    accumulators. *)
Fixpoint parse_loop (samples : list json) (latest : number)
    (newBuffered : list BufferedSample)
  : result (number * list BufferedSample) :=
  match samples with
  | [] => Ok (latest, newBuffered)
  | s :: more =>
      match get s "t_gps_utc" with
      | Thrown e => Thrown e
      | Ok t_gps_utc =>
          match call_Date_parse t_gps_utc with
          | Thrown e => Thrown e
          | Ok t =>
              if negb (Number_isFinite t) then parse_loop more latest newBuffered
              else parse_loop more (Math_max latest t) (newBuffered ++ [spread s t])
          end
      end
  end.

Definition buffer_push (items : list BufferedSample) : M unit :=
  modify_room (fun r => mkRoom (buffer r ++ items) (sockets r)).

Definition handleIngest (request : Request) : M Response :=
  if negb (String.eqb (method request) "POST") then
    ret (text_response "Method Not Allowed" 405)
  else
    match json_body request with
    | None => ret (text_response "Bad JSON" 400)
    | Some batch =>
        let samples := get_opt (Some batch) "samples" in
        if negb (length_truthy samples) then
          ret (text_response "Missing samples" 400)
        else
          items <- lift (iterate samples) ;;
          parsed <- lift (parse_loop items NegInfinity []) ;;
          let latest := fst parsed in
          let newBuffered := snd parsed in
          if Nat.eqb (List.length newBuffered) 0 then
            ret (text_response "No valid timestamps" 400)
          else
            buffer_push newBuffered ;;
            pruneBuffer latest ;;
            broadcast (Samples (get_opt (Some batch) "session_id")
                               (get_opt (Some batch) "device_id")
                               (map strip newBuffered)) ;;
            ret (mkResponse (Received (List.length newBuffered)) 200
                   (Some "application/json") None)
    end.

(** [upgrade && upgrade.toLowerCase() === "websocket"] *)
Definition wants_websocket (upgrade : option string) : bool :=
  match upgrade with
  | None => false
  | Some u => negb (String.eqb u "") && String.eqb (toLowerCase u) "websocket"
  end.

Definition fetch (request : Request) : M Response :=
  let upgrade := header_Upgrade request in
  if wants_websocket upgrade then acceptViewerWebSocket
  else if String.eqb (pathname request) "/ingest" then handleIngest request
  else ret (text_response "Not Found" 404).

(** *** Events delivered to the instance *)

Inductive event : Type :=
| Fetch (request : Request)
| CloseEvent (ws : WebSocket)
| ErrorEvent (ws : WebSocket)
| MessageEvent (ws : WebSocket) (data : string)
| TransportLoss (ws : WebSocket).

Definition has_listeners (ws : WebSocket) (rt : Runtime) : bool :=
  match nth_error (endpoints rt) ws with
  | Some e => listened e
  | None => false
  end.

(** Run a listener only on a socket it was attached to. *)
Definition when_listened (ws : WebSocket) (c : M unit) : M unit :=
  l <- gets (fun st => has_listeners ws (net st)) ;;
  if l then c else ret tt.

Definition mark_closed (ws : WebSocket) : M unit :=
  modify_net (fun rt =>
    mkRuntime (update_at ws (fun e => mkEndpoint CLOSED (listened e)) (endpoints rt))
              (wire rt)).

Definition on_close (server : WebSocket) : M unit :=
  sockets_delete server.

Definition on_error (server : WebSocket) : M unit :=
  sockets_delete server ;;
  try_ignore (ws_close server).

Definition on_message (server : WebSocket) (data : string) : M unit :=
  ret tt.

(** One turn of the instance: the runtime delivers a request or a socket
    signal.  A transport loss is not a signal: it only makes later sends on
    that socket throw. *)
Definition dispatch (ev : event) : M (option Response) :=
  match ev with
  | Fetch request => r <- fetch request ;; ret (Some r)
  | CloseEvent ws =>
      mark_closed ws ;; when_listened ws (on_close ws) ;; ret None
  | ErrorEvent ws => when_listened ws (on_error ws) ;; ret None
  | MessageEvent ws data => when_listened ws (on_message ws data) ;; ret None
  | TransportLoss ws => mark_closed ws ;; ret None
  end.

(** The state after a sequence of turns; a turn that throws keeps the state
    it reached. *)
Fixpoint run (evs : list event) (st : Sys) : Sys :=
  match evs with
  | [] => st
  | ev :: more => run more (snd (dispatch ev st))
  end.

End Handlers.

(** ** A reference [Date.parse]

    The ECMAScript date-time string format in its full UTC form,
    [YYYY-MM-DDTHH:mm:ss.sssZ]; every other argument yields NaN.  Engines
    agree with it on such strings, and differ elsewhere. *)

Module IsoDate.

Definition digit (c : ascii) : option Z :=
  let n := Z.of_nat (nat_of_ascii c) in
  if (48 <=? n)%Z && (n <=? 57)%Z then Some (n - 48)%Z else None.

Fixpoint digits (cs : list ascii) (acc : Z) : option Z :=
  match cs with
  | [] => Some acc
  | c :: more =>
      match digit c with
      | Some d => digits more (10 * acc + d)%Z
      | None => None
      end
  end.

Definition is_leap (y : Z) : bool :=
  ((y mod 4 =? 0) && negb (y mod 100 =? 0) || (y mod 400 =? 0))%Z.

Definition days_in_month (y m : Z) : Z :=
  if (m =? 2)%Z then (if is_leap y then 29 else 28)%Z
  else if ((m =? 4) || (m =? 6) || (m =? 9) || (m =? 11))%Z then 30%Z
  else 31%Z.

(** Days between 1970-01-01 and the given civil date. *)
Definition days_from_civil (y m d : Z) : Z :=
  let y' := (if m <=? 2 then y - 1 else y)%Z in
  let era := (y' / 400)%Z in
  let yoe := (y' - era * 400)%Z in
  let mp := ((m + 9) mod 12)%Z in
  let doy := ((153 * mp + 2) / 5 + d - 1)%Z in
  let doe := (yoe * 365 + yoe / 4 - yoe / 100 + doy)%Z in
  (era * 146097 + doe - 719468)%Z.

Definition in_range (lo x hi : Z) : bool := ((lo <=? x) && (x <=? hi))%Z.

Definition parse_chars (cs : list ascii) : number :=
  match cs with
  | [y1; y2; y3; y4; p1; m1; m2; p2; d1; d2; p3; h1; h2; p4; n1; n2; p5;
     s1; s2; p6; f1; f2; f3; p7] =>
      if Ascii.eqb p1 "-" && Ascii.eqb p2 "-" && Ascii.eqb p3 "T"
         && Ascii.eqb p4 ":" && Ascii.eqb p5 ":" && Ascii.eqb p6 "."
         && Ascii.eqb p7 "Z"
      then
        match digits [y1; y2; y3; y4] 0, digits [m1; m2] 0, digits [d1; d2] 0,
              digits [h1; h2] 0, digits [n1; n2] 0, digits [s1; s2] 0,
              digits [f1; f2; f3] 0 with
        | Some y, Some m, Some d, Some h, Some n, Some sec, Some ms =>
            if in_range 1 m 12 && in_range 1 d (days_in_month y m)
               && in_range 0 h 23 && in_range 0 n 59 && in_range 0 sec 59
            then Int ((((days_from_civil y m d * 24 + h) * 60 + n) * 60 + sec)
                        * 1000 + ms)%Z
            else NaN
        | _, _, _, _, _, _, _ => NaN
        end
      else NaN
  | _ => NaN
  end.

Definition parse (v : value) : number :=
  match v with
  | Some (JStr s) => parse_chars (list_ascii_of_string s)
  | _ => NaN
  end.

End IsoDate.

(** ** Vocabulary of the properties *)

(** The wire types declared at the top of the source: a sample carries the
    four declared properties and nothing else, a batch the two identifiers
    and an array of samples. *)
Definition is_string (v : value) : bool :=
  match v with Some (JStr _) => true | _ => false end.

Definition is_number (v : value) : bool :=
  match v with Some (JNum _) => true | _ => false end.

Definition is_vec3 (v : value) : bool :=
  match v with
  | Some (JObj p) =>
      is_number (lookup "x" p) && is_number (lookup "y" p)
      && is_number (lookup "z" p)
  | _ => false
  end.

Definition sample_keys : list string :=
  ["t_gps_utc"; "seq"; "accel_mps2"; "gyro_rads"].

Definition is_sample (s : json) : bool :=
  match s with
  | JObj p =>
      forallb (fun kv => existsb (String.eqb (fst kv)) sample_keys) p
      && is_string (lookup "t_gps_utc" p) && is_number (lookup "seq" p)
      && is_vec3 (lookup "accel_mps2" p) && is_vec3 (lookup "gyro_rads" p)
  | _ => false
  end.

Definition is_TelemetryBatch (j : json) : bool :=
  match j with
  | JObj p =>
      is_string (lookup "session_id" p) && is_string (lookup "device_id" p)
      && match lookup "samples" p with
         | Some (JArr ss) => forallb is_sample ss
         | _ => false
         end
  | _ => false
  end.

(** The success response of an ingest. *)
Definition ok_response (received : nat) : Response :=
  mkResponse (Received received) 200 (Some "application/json") None.

(** No buffered sample lists [t_ms] among the properties copied from the
    wire. *)
Definition no_internal_field (st : Sys) : Prop :=
  Forall (fun b => lookup "t_ms" (rest b) = None) (buffer (room st)).

(** A send on [ws] goes through. *)
Definition deliverable (rt : Runtime) (ws : WebSocket) : bool :=
  match ready_of ws rt with
  | Some OPEN => true
  | _ => false
  end.

(** What a broadcast of [msg] adds to the wire. *)
Definition deliveries (st : Sys) (msg : message) : list (WebSocket * message) :=
  map (fun ws => (ws, msg)) (filter (deliverable (net st)) (sockets (room st))).

(** Equality of header values up to the case of ASCII letters. *)
Inductive same_letter : ascii -> ascii -> Prop :=
| same_exact : forall c, same_letter c c
| same_upper_lower : forall c,
    is_upper c = true -> same_letter c (ascii_of_nat (nat_of_ascii c + 32))
| same_lower_upper : forall c,
    is_upper c = true -> same_letter (ascii_of_nat (nat_of_ascii c + 32)) c.

Inductive eq_ignoring_case : string -> string -> Prop :=
| eic_empty : eq_ignoring_case EmptyString EmptyString
| eic_char : forall a b s t,
    same_letter a b -> eq_ignoring_case s t ->
    eq_ignoring_case (String a s) (String b t).

(** Equality up to the case that [toLowerCase] knows: besides the ASCII
    letters, the Kelvin sign U+212A counts as an upper-case [k]. *)
Inductive eq_ignoring_js_case : string -> string -> Prop :=
| ejc_empty : eq_ignoring_js_case EmptyString EmptyString
| ejc_char : forall a b s t,
    same_letter a b -> eq_ignoring_js_case s t ->
    eq_ignoring_js_case (String a s) (String b t)
| ejc_kelvin : forall b s t,
    b = "k"%char \/ b = "K"%char -> eq_ignoring_js_case s t ->
    eq_ignoring_js_case (String kelvin_1 (String kelvin_2 (String kelvin_3 s)))
      (String b t).

(** WEBSOC, the Kelvin sign U+212A, ET. *)
Definition websocket_in_kelvin : string :=
  String.append "WEBSOC"
    (String kelvin_1 (String kelvin_2 (String kelvin_3 "ET"))).

(** A producer transmission as the gateway forwards it. *)
Definition batch_json (session_id device_id : json) (samples : list json) : json :=
  JObj [("session_id", session_id); ("device_id", device_id);
        ("samples", JArr samples)].

Definition ingest_request (batch : json) : Request :=
  mkRequest "POST" "/ingest" None (Some batch).

(** The double [m * 2^e]. *)
Definition double (m e : Z) : spec_float := binary_normalize 53 1024 m e false.

Definition vec3 (x y z : spec_float) : json :=
  JObj [("x", JNum x); ("y", JNum y); ("z", JNum z)].

Definition sample_at (t_gps_utc : string) (seq : Z) : json :=
  JObj [("t_gps_utc", JStr t_gps_utc); ("seq", JNum (double seq 0));
        ("accel_mps2", vec3 (double 0 0) (double 0 0) (double 39 (-2)));
        ("gyro_rads", vec3 (double 0 0) (double 0 0) (double 0 0))].

(** The capture time of a sample can be read and handed to [Date.parse]
    without an exception: the sample is not [null] and its [t_gps_utc]
    converts to a string. *)
Definition readable (s : json) : bool :=
  match get s "t_gps_utc" with
  | Ok (Some j) => negb (ToString_throws j)
  | Ok None => true
  | Thrown _ => false
  end.

Section Vocabulary.

Variable Date_parse : value -> number.

(** The parsed capture time of a received sample; NaN when reading or
    parsing it throws. *)
Definition parsed_time (s : json) : number :=
  match get s "t_gps_utc" with
  | Ok v =>
      match call_Date_parse Date_parse v with
      | Ok t => t
      | Thrown _ => NaN
      end
  | Thrown _ => NaN
  end.

Definition parses_to (s : json) (t : Z) : Prop := parsed_time s = Int t.

(** The samples of a batch whose capture time parses to a finite value, in
    batch order. *)
Definition valid_samples (items : list json) : list json :=
  filter (fun s => Number_isFinite (parsed_time s)) items.

Definition time_of (n : number) : list Z :=
  match n with Int z => [z] | _ => [] end.

(** Their timestamps. *)
Definition valid_times (items : list json) : list Z :=
  flat_map (fun s => time_of (parsed_time s)) items.

(** [L] is the maximum valid timestamp of the batch. *)
Definition latest_of (items : list json) (L : Z) : Prop :=
  In L (valid_times items) /\ forall t, In t (valid_times items) -> (t <= L)%Z.

(** What the ingest appends. *)
Definition newly_buffered (items : list json) : list BufferedSample :=
  map (fun s => spread s (parsed_time s)) (valid_samples items).

(** A request reaches the mutating part of [handleIngest]: it is a POST, its
    body is JSON whose [samples] can be iterated and read without an
    exception, and at least one timestamp is valid. *)
Definition accepted (request : Request) (batch : json) (items : list json) : Prop :=
  method request = "POST"
  /\ json_body request = Some batch
  /\ length_truthy (get_opt (Some batch) "samples") = true
  /\ iterate (get_opt (Some batch) "samples") = Ok items
  /\ Forall (fun s => readable s = true) items
  /\ valid_samples items <> [].

(** The state a successful ingest of [items] leaves. *)
Definition ingested (batch : json) (items : list json) (L : Z) (st : Sys) : Sys :=
  let kept :=
    filter (fun s => geb (t_ms s) (Int (L - WINDOW_MS)))
      (buffer (room st) ++ newly_buffered items) in
  let msg :=
    Samples (get_opt (Some batch) "session_id") (get_opt (Some batch) "device_id")
      (map strip (newly_buffered items)) in
  mkSys (mkRoom kept (sockets (room st)))
        (mkRuntime (endpoints (net st)) (wire (net st) ++ deliveries st msg)).

End Vocabulary.

(** ** Sample data of the scenarios *)

Definition s1000 : json := sample_at "1970-01-01T00:00:01.000Z" 1.
Definition s2000 : json := sample_at "1970-01-01T00:00:02.000Z" 2.
Definition s3000 : json := sample_at "1970-01-01T00:00:03.000Z" 3.
Definition s3500 : json := sample_at "1970-01-01T00:00:03.500Z" 4.
Definition s5000 : json := sample_at "1970-01-01T00:00:05.000Z" 5.
Definition s40000 : json := sample_at "1970-01-01T00:00:40.000Z" 6.
Definition s_unparsable : json := sample_at "a minute ago" 7.

Definition run42 (samples : list json) : json :=
  batch_json (JStr "run-42") (JStr "imu-7") samples.

(** A room in mid-session: one buffered sample, two viewers, the first of
    which lost its transport without a close signal so far. *)
Definition busy : Sys :=
  mkSys
    (mkRoom [spread s5000 (Int 5000)] [1; 3]%nat)
    (mkRuntime
       [mkEndpoint OPEN false; mkEndpoint CLOSED true;
        mkEndpoint OPEN false; mkEndpoint OPEN true]
       [(1%nat, Replay WINDOW_MS []); (3%nat, Replay WINDOW_MS [])]).

(** Valid JSON that is not a batch: no identifiers, and a sample with a
    capture time only. *)
Definition shapeless_body : json :=
  JObj [("samples", JArr [JObj [("t_gps_utc", JStr "1970-01-01T00:00:01.000Z")]])].

(** The reading of "an undecodable body is answered MalformedInput" in which
    decoding checks the shape of a batch. *)
Definition shape_checked_decode : Prop :=
  forall (Date_parse : value -> number) (request : Request) (st : Sys),
    method request = "POST" ->
    (forall batch, json_body request = Some batch -> is_TelemetryBatch batch = false) ->
    handleIngest Date_parse request st = (Ok (text_response "Bad JSON" 400), st).

(** A sample whose capture time is an object that cannot be converted to
    a string: [Date.parse] throws on it. *)
Definition s_unconvertible : json :=
  JObj [("t_gps_utc", JObj [("toString", JNum (double 1 0))])].

(** "A batch that has samples, none of them with a finite capture time, is
    answered NoValidTimestamps and nothing is mutated." *)
Definition unparsable_means_rejected : Prop :=
  forall (Date_parse : value -> number) (request : Request) (batch : json)
         (items : list json) (st : Sys),
    method request = "POST" ->
    json_body request = Some batch ->
    get_opt (Some batch) "samples" = Some (JArr items) ->
    items <> [] ->
    Forall (fun s => Number_isFinite (parsed_time Date_parse s) = false) items ->
    handleIngest Date_parse request st
    = (Ok (text_response "No valid timestamps" 400), st).

(** "Some delayed batch evicts a resident sample newer than all of its
    own." *)
Definition stale_batch_evicts_newer : Prop :=
  exists (Date_parse : value -> number) (request : Request) (st st' : Sys)
         (resp : Response) (batch : json) (items : list json) (L : Z)
         (b : BufferedSample) (t : Z),
    handleIngest Date_parse request st = (Ok resp, st')
    /\ status resp = 200%Z
    /\ json_body request = Some batch
    /\ iterate (get_opt (Some batch) "samples") = Ok items
    /\ latest_of Date_parse items L
    /\ (exists r u, In r (buffer (room st)) /\ t_ms r = Int u /\ (L < u)%Z)
    /\ In b (buffer (room st))
    /\ t_ms b = Int t
    /\ (forall u, In u (valid_times Date_parse items) -> (u < t)%Z)
    /\ ~ In b (buffer (room st')).

(** ** The viewer page helper [escapeHtmlTS] *)

Definition dquote : ascii := ascii_of_nat 34.

(** The character class of the regular expression. *)
Definition needs_escape (m : ascii) : bool :=
  Ascii.eqb m "&" || Ascii.eqb m "<" || Ascii.eqb m ">"
  || Ascii.eqb m dquote || Ascii.eqb m "'".

(** The [switch] of the replacer. *)
Definition entity (m : ascii) : string :=
  if Ascii.eqb m "&" then "&amp;"
  else if Ascii.eqb m "<" then "&lt;"
  else if Ascii.eqb m ">" then "&gt;"
  else if Ascii.eqb m dquote then "&quot;"
  else if Ascii.eqb m "'" then "&#39;"
  else String m EmptyString.

(** [str.replace(/[&<>...]/g, replacer)]: every match is replaced, the
    other characters are copied.  The five characters are ASCII, so working
    on bytes or on UTF-16 units is the same. *)
Fixpoint escapeHtmlTS (str : string) : string :=
  match str with
  | EmptyString => EmptyString
  | String c more =>
      String.append (if needs_escape c then entity c else String c EmptyString)
        (escapeHtmlTS more)
  end.

(** The characters that open or close markup and attribute values. *)
Definition markup_char (c : ascii) : Prop :=
  c = "<"%char \/ c = ">"%char \/ c = dquote \/ c = "'"%char.

(** ** The Worker in front of the rooms *)

(** The request the Worker receives: what the room reads of it, and the
    Authorization header. *)
Record WorkerRequest : Type := mkWorkerRequest {
  inner : Request;
  header_Authorization : option string
}.

(** [request.headers.get("Authorization") || ""] compared with the
    template [Bearer <token>]. *)
Definition bearerOk (request : WorkerRequest) (token : string) : bool :=
  let auth :=
    match header_Authorization request with
    | Some a => if String.eqb a "" then "" else a
    | None => ""
    end in
  String.eqb auth (String.append "Bearer " token).

(** [s.split(sep)] for a one-character separator. *)
Fixpoint split (sep : ascii) (s : string) : list string :=
  match s with
  | EmptyString => [EmptyString]
  | String c more =>
      match split sep more with
      | [] => [EmptyString]
      | piece :: pieces =>
          if Ascii.eqb c sep then EmptyString :: piece :: pieces
          else String c piece :: pieces
      end
  end.

(** [url.pathname.split("/")[2] || "demo-session"] *)
Definition session_of (pathname : string) : string :=
  match nth_error (split "/" pathname) 2 with
  | Some piece => if String.eqb piece "" then "demo-session" else piece
  | None => "demo-session"
  end.

(** The namespace [LIVE_ROOMS]: one instance per name, cold until first
    used. *)
Definition Rooms : Type := string -> Sys.

Definition no_rooms : Rooms := fun _ => cold_start.

Definition set_room (name : string) (st : Sys) (rooms : Rooms) : Rooms :=
  fun n => if String.eqb n name then st else rooms n.

(** What the Worker answers: the answer of a room (or its exception), an
    answer of its own, or the template page rendered from the database,
    whose content is outside this file. *)
Inductive WorkerResponse : Type :=
| FromRoom (r : result Response)
| Own (r : Response)
| TemplatePage.

Section Worker.

Variable Date_parse : value -> number.
Variable TELEMETRY_BEARER_TOKEN : string.

(** [env.LIVE_ROOMS.getByName(sessionId).fetch(request)] *)
Definition stub_fetch (sessionId : string) (request : Request) (rooms : Rooms)
  : WorkerResponse * Rooms :=
  let r := fetch Date_parse request (rooms sessionId) in
  (FromRoom (fst r), set_room sessionId (snd r) rooms).

(** The [fetch] of the default export. *)
Definition worker_fetch (request : WorkerRequest) (rooms : Rooms)
  : WorkerResponse * Rooms :=
  let path := pathname (inner request) in
  if String.prefix "/__do_test/" path then
    stub_fetch (session_of path) (mkRequest "GET" "/" None None) rooms
  else if String.prefix "/live/" path then
    stub_fetch (session_of path) (inner request) rooms
  else if String.prefix "/telemetry/" path then
    if negb (bearerOk request TELEMETRY_BEARER_TOKEN) then
      (Own (text_response "Unauthorized" 401), rooms)
    else
      let forward := mkRequest "POST" "/ingest" None (json_body (inner request)) in
      stub_fetch (session_of path) forward rooms
  else (TemplatePage, rooms).

Fixpoint worker_run (requests : list WorkerRequest) (rooms : Rooms) : Rooms :=
  match requests with
  | [] => rooms
  | r :: more => worker_run more (snd (worker_fetch r rooms))
  end.

End Worker.

(** ** Well-formed rooms *)

(** What holds of a room however it was driven: no socket is registered
    twice, every registered socket is an end the room attached its listeners
    to, and every buffered sample has a finite time. *)
Definition well_formed (st : Sys) : Prop :=
  NoDup (sockets (room st))
  /\ (forall ws, In ws (sockets (room st)) -> has_listeners ws (net st) = true)
  /\ (forall b, In b (buffer (room st)) -> exists t, t_ms b = Int t).

(** The frames of a list addressed to one socket. *)
Definition frames_for (ws : WebSocket) (frames : list (WebSocket * message))
  : list message :=
  map snd (filter (fun f => Nat.eqb (fst f) ws) frames).

(** ** The script of the viewer page

    The script inside [renderViewerHtml]: its buffer, [parseAndAppendSamples]
    and the [onmessage] handler.  Connection management, timers and the
    canvas drawing are not modelled. *)

(** An element of the script's [buffer].  Only samples that passed
    [Number.isFinite] are pushed, so the time is an integer. *)
Record ViewerSample : Type := mkViewerSample {
  v_rest : list (string * json);
  v_t_ms : Z
}.

(** The text of the two status elements: the dash of the page, or the
    value the script last formatted into it. *)
Inductive TimeText : Type :=
| NoTime
| IsoStringOf (ms : number).     (* [new Date(ms).toISOString()] *)

Inductive SeqText : Type :=
| NoSeq
| StringOf (seq : json).         (* [String(latestSeq)] *)

Record Viewer : Type := mkViewer {
  v_buffer : list ViewerSample;
  latestReceivedMs : number;
  latestSeq : option json;       (* [null], or the last numeric [seq] *)
  latestTimeEl : TimeText;
  latestSeqEl : SeqText
}.

Definition viewer_start : Viewer := mkViewer [] NegInfinity None NoTime NoSeq.

(** [t_ms > latestReceivedMs] for a finite [t_ms]. *)
Definition newer (t : Z) (latest : number) : bool :=
  match latest with
  | NaN | PosInfinity => false
  | NegInfinity => true
  | Int l => Z.gtb t l
  end.

Definition bump (latest : number) (t : Z) : number :=
  if newer t latest then Int t else latest.

(** [buffer.sort((a, b) => a.t_ms - b.t_ms)]: the sort is stable, so the
    result is the one ascending arrangement that keeps equal times in their
    order; insertion from the right computes it. *)
Fixpoint insert_sample (x : ViewerSample) (l : list ViewerSample)
  : list ViewerSample :=
  match l with
  | [] => [x]
  | y :: more =>
      if (v_t_ms x <=? v_t_ms y)%Z then x :: y :: more
      else y :: insert_sample x more
  end.

Definition sort_by_time (l : list ViewerSample) : list ViewerSample :=
  fold_right insert_sample [] l.

Definition Array_isArray (v : value) : bool :=
  match v with Some (JArr _) => true | _ => false end.

Definition elements (v : value) : list json :=
  match v with Some (JArr l) => l | _ => [] end.

(** [v === s] for a string literal [s]. *)
Definition is_the_string (v : value) (s : string) : bool :=
  match v with Some (JStr x) => String.eqb x s | _ => false end.

Section ViewerScript.

(** What the [Date.parse] of the browser returns for an argument it can
    convert to a string. *)
Variable Date_parse : value -> number.

(** The loop of [parseAndAppendSamples]; an exception keeps what the
    iterations before it did. *)
Fixpoint append_loop (samples : list json) (v : Viewer) : result unit * Viewer :=
  match samples with
  | [] => (Ok tt, v)
  | s :: more =>
      match get s "t_gps_utc" with
      | Thrown e => (Thrown e, v)
      | Ok t_gps_utc =>
          match call_Date_parse Date_parse t_gps_utc with
          | Thrown e => (Thrown e, v)
          | Ok (Int t) =>
              let pushed := v_buffer v ++ [mkViewerSample (remove_key "t_ms" (own_props s)) t] in
              let latest := bump (latestReceivedMs v) t in
              let seq :=
                match get_opt (Some s) "seq" with
                | Some (JNum f) => Some (JNum f)
                | _ => latestSeq v
                end in
              append_loop more
                (mkViewer pushed latest seq (latestTimeEl v) (latestSeqEl v))
          | Ok _ => append_loop more v
          end
      end
  end.

Definition parseAndAppendSamples (samples : list json) (v : Viewer)
  : result unit * Viewer :=
  match append_loop samples v with
  | (Thrown e, v1) => (Thrown e, v1)
  | (Ok _, v1) =>
      let sorted := sort_by_time (v_buffer v1) in
      let cutoff := minus (latestReceivedMs v1) 30000 in
      let kept := filter (fun s => geb (Int (v_t_ms s)) cutoff) sorted in
      let timeEl :=
        if Number_isFinite (latestReceivedMs v1)
        then IsoStringOf (latestReceivedMs v1) else latestTimeEl v1 in
      let seqEl :=
        match latestSeq v1 with
        | Some q => StringOf q
        | None => latestSeqEl v1
        end in
      (Ok tt, mkViewer kept (latestReceivedMs v1) (latestSeq v1) timeEl seqEl)
  end.

(** [ws.onmessage]; [data] is the outcome of [JSON.parse(evt.data)], [None]
    when it throws. *)
Definition onmessage (data : option json) (v : Viewer) : result unit * Viewer :=
  match data with
  | None => (Ok tt, v)
  | Some msg =>
      match get msg "type" with
      | Thrown e => (Thrown e, v)
      | Ok type =>
          let samples := get_opt (Some msg) "samples" in
          let first :=
            if is_the_string type "replay" && Array_isArray samples
            then parseAndAppendSamples (elements samples) v
            else (Ok tt, v) in
          match first with
          | (Thrown e, v1) => (Thrown e, v1)
          | (Ok _, v1) =>
              if is_the_string type "samples" && Array_isArray samples
              then parseAndAppendSamples (elements samples) v1
              else (Ok tt, v1)
          end
      end
  end.

(** The samples a frame adds to the buffer. *)
Definition viewer_new (samples : list json) : list ViewerSample :=
  flat_map
    (fun s =>
       match parsed_time Date_parse s with
       | Int t => [mkViewerSample (remove_key "t_ms" (own_props s)) t]
       | _ => []
       end)
    samples.

End ViewerScript.

(** What [JSON.parse] makes of the [JSON.stringify] of a value: NaN and the
    infinities come back as [null], a negative zero as zero. *)
Fixpoint reparse (j : json) : json :=
  match j with
  | JNum (S754_infinity _) | JNum S754_nan => JNull
  | JNum (S754_zero _) => JNum (S754_zero false)
  | JArr elems => JArr (map reparse elems)
  | JObj props => JObj (map (fun p => (fst p, reparse (snd p))) props)
  | other => other
  end.

Definition field (k : string) (v : value) : list (string * json) :=
  match v with
  | Some j => [(k, reparse j)]
  | None => []
  end.

(** The value a viewer parses out of the frame of a message: an
    [undefined] property is left out by [JSON.stringify]. *)
Definition frame_json (m : message) : json :=
  match m with
  | Replay window_ms samples =>
      JObj [("type", JStr "replay"); ("window_ms", JNum (double window_ms 0));
            ("samples", JArr (map reparse samples))]
  | Samples session_id device_id samples =>
      JObj ([("type", JStr "samples")] ++ field "session_id" session_id
            ++ field "device_id" device_id
            ++ [("samples", JArr (map reparse samples))])
  end.

Definition samples_of (m : message) : list json :=
  match m with
  | Replay _ samples => samples
  | Samples _ _ samples => samples
  end.

Definition is_object (j : json) : bool :=
  match j with JObj _ => true | _ => false end.

(** A message whose samples the loop of the script can read: each is an
    object whose capture time, if there is one, can be converted to a
    string. *)
Definition viewer_can_read (m : message) : Prop :=
  Forall (fun s => is_object s = true /\ readable s = true) (samples_of m).

(** The room holds and has sent nothing but such samples. *)
Definition sends_readable_frames (st : Sys) : Prop :=
  Forall (fun b => readable (JObj (rest b)) = true) (buffer (room st))
  /\ Forall (fun f => viewer_can_read (snd f)) (wire (net st)).

(** The script's variables are in step: nothing seen yet, or a finite
    latest time that no buffered sample exceeds. *)
Definition in_step (v : Viewer) : Prop :=
  (latestReceivedMs v = NegInfinity /\ v_buffer v = [])
  \/ exists L, latestReceivedMs v = Int L
               /\ forall s, In s (v_buffer v) -> (v_t_ms s <= L)%Z.

Definition time_le (a b : ViewerSample) : Prop := (v_t_ms a <= v_t_ms b)%Z.

(** ** Properties *)

Example iso_parse_epoch_second :
  IsoDate.parse (Some (JStr "1970-01-01T00:00:01.000Z")) = Int 1000.
Proof. reflexivity. Qed.

Example iso_parse_2026 :
  IsoDate.parse (Some (JStr "2026-02-11T12:34:56.123Z")) = Int 1770813296123.
Proof. reflexivity. Qed.

Example iso_parse_garbage :
  IsoDate.parse (Some (JStr "yesterday")) = NaN
  /\ IsoDate.parse None = NaN
  /\ IsoDate.parse (Some (JStr "2026-02-30T00:00:00.000Z")) = NaN.
Proof. repeat split; reflexivity. Qed.

(** *** The monad and the socket layer *)

Lemma ready_of_endpoints (ws : WebSocket) (rt rt' : Runtime) :
  endpoints rt' = endpoints rt -> ready_of ws rt' = ready_of ws rt.
Proof. unfold ready_of. intros ->. reflexivity. Qed.

Lemma try_send_step (msg : message) (ws : WebSocket) (st : Sys) :
  try_ignore (ws_send ws msg) st
  = (Ok tt,
     mkSys (room st)
       (mkRuntime (endpoints (net st))
          (wire (net st)
           ++ (if deliverable (net st) ws then [(ws, msg)] else [])))).
Proof.
  unfold try_ignore, ws_send, deliverable.
  destruct st as [r [eps w]]; cbn.
  destruct (ready_of ws (mkRuntime eps w)) as [[|]|];
    cbn; rewrite ?app_nil_r; reflexivity.
Qed.

Lemma for_each_send (msg : message) (l : list WebSocket) :
  forall st : Sys,
    for_each l (fun ws => try_ignore (ws_send ws msg)) st
    = (Ok tt,
       mkSys (room st)
         (mkRuntime (endpoints (net st))
            (wire (net st)
             ++ map (fun ws => (ws, msg)) (filter (deliverable (net st)) l)))).
Proof.
  induction l as [|ws l IH]; intros st; cbn [for_each].
  - unfold ret. destruct st as [r [eps w]]. cbn. now rewrite app_nil_r.
  - unfold bind. rewrite try_send_step, IH. cbn [room net endpoints wire].
    replace (deliverable
               (mkRuntime (endpoints (net st))
                  (wire (net st)
                   ++ (if deliverable (net st) ws then [(ws, msg)] else []))))
      with (deliverable (net st)) by reflexivity.
    cbn [filter]. destruct (deliverable (net st) ws); cbn [map app];
      rewrite <- ?app_assoc, ?app_nil_r; reflexivity.
Qed.

Lemma broadcast_spec (msg : message) (st : Sys) :
  broadcast msg st
  = (Ok tt,
     mkSys (room st)
       (mkRuntime (endpoints (net st)) (wire (net st) ++ deliveries st msg))).
Proof.
  unfold broadcast, bind, gets. now rewrite for_each_send.
Qed.

Lemma nth_error_past_end {A : Type} (l : list A) (a b : A) :
  nth_error (l ++ [a; b]) (S (List.length l)) = Some b.
Proof. induction l; cbn; auto. Qed.

Lemma update_at_past_end {A : Type} (f : A -> A) (l : list A) (a b : A) :
  update_at (S (List.length l)) f (l ++ [a; b]) = l ++ [a; f b].
Proof.
  induction l as [|x l IH]; [reflexivity|].
  cbn [List.length app update_at]. cbn [List.length app] in IH.
  destruct l; cbn in *; congruence.
Qed.

Lemma set_add_In (ws : WebSocket) (s : list WebSocket) : In ws (set_add ws s).
Proof.
  unfold set_add, set_has. destruct (existsb (Nat.eqb ws) s) eqn:E.
  - apply existsb_exists in E as (x & Hx & Heq).
    apply Nat.eqb_eq in Heq. now subst.
  - apply in_or_app. right. now left.
Qed.

Lemma set_delete_keeps (ws x : WebSocket) (s : list WebSocket) :
  In x s -> x <> ws -> In x (set_delete ws s).
Proof.
  intros Hin Hne. unfold set_delete. apply filter_In. split; [assumption|].
  apply negb_true_iff, Nat.eqb_neq. congruence.
Qed.

Lemma set_add_keeps (ws x : WebSocket) (s : list WebSocket) :
  In x s -> In x (set_add ws s).
Proof.
  unfold set_add. destruct (set_has ws s); auto using in_or_app.
Qed.

(** *** The parsing loop *)

Section LoopFacts.

Variable Date_parse : value -> number.

Lemma readable_get (s : json) :
  readable s = true ->
  exists v,
    get s "t_gps_utc" = Ok v
    /\ call_Date_parse Date_parse v = Ok (parsed_time Date_parse s).
Proof.
  unfold readable, parsed_time, call_Date_parse.
  destruct (get s "t_gps_utc") as [[j|]|e]; [| |discriminate].
  - intros H. apply negb_true_iff in H. exists (Some j). now rewrite H.
  - intros _. exists None. auto.
Qed.

Lemma unreadable_get (s : json) :
  readable s = false ->
  parsed_time Date_parse s = NaN
  /\ exists what,
       (get s "t_gps_utc" = Thrown (TypeError what)
        /\ (s = JNull -> what = "Cannot read properties of null"))
       \/ exists v, get s "t_gps_utc" = Ok v
                    /\ call_Date_parse Date_parse v = Thrown (TypeError what)
                    /\ s <> JNull.
Proof.
  unfold readable, parsed_time, call_Date_parse.
  destruct s as [| | | | |p]; cbn; try discriminate.
  - intros _. split; [reflexivity|]. eexists. left. split; reflexivity.
  - destruct (lookup "t_gps_utc" p) as [j|]; [|discriminate].
    intros H. apply negb_false_iff in H. rewrite H.
    split; [reflexivity|]. eexists. right. exists (Some j).
    split; [reflexivity|]. split; [now rewrite H|discriminate].
Qed.

Lemma readable_not_null (s : json) : readable s = true -> s <> JNull.
Proof. intros H ->. discriminate H. Qed.

Lemma finite_is_readable (s : json) (t : Z) :
  parsed_time Date_parse s = Int t -> readable s = true.
Proof.
  intros H. destruct (readable s) eqn:E; [reflexivity|].
  destruct (unreadable_get s E) as [Hn _]. rewrite Hn in H. discriminate H.
Qed.

Lemma parse_loop_spec (items : list json) :
  Forall (fun s => readable s = true) items ->
  forall latest acc,
    parse_loop Date_parse items latest acc
    = Ok (fold_left Math_max
            (map (parsed_time Date_parse) (valid_samples Date_parse items)) latest,
          acc ++ newly_buffered Date_parse items).
Proof.
  unfold newly_buffered, valid_samples.
  induction 1 as [|s items Hs _ IH]; intros latest acc; cbn [parse_loop].
  - cbn. now rewrite app_nil_r.
  - destruct (readable_get s Hs) as (v & Hget & Hv).
    rewrite Hget, Hv. cbn [filter].
    destruct (Number_isFinite (parsed_time Date_parse s)) eqn:Hfin; cbn [negb].
    + rewrite IH. cbn [map fold_left]. rewrite <- app_assoc. reflexivity.
    + apply IH.
Qed.

Lemma parse_loop_readable (items : list json) :
  forall latest acc r,
    parse_loop Date_parse items latest acc = Ok r ->
    Forall (fun s => readable s = true) items.
Proof.
  induction items as [|s items IH]; intros latest acc r H; [constructor|].
  cbn [parse_loop] in H.
  destruct (readable s) eqn:Hs.
  - constructor; [exact Hs|].
    destruct (readable_get s Hs) as (v & Hget & Hv). rewrite Hget, Hv in H.
    destruct (negb (Number_isFinite (parsed_time Date_parse s)));
      eapply IH; eassumption.
  - destruct (unreadable_get s Hs) as [_ (what & [[Hget _]|(v & Hget & Hcall & _)])];
      rewrite Hget in H; [discriminate H|].
    rewrite Hcall in H. discriminate H.
Qed.

(** The loop throws at the first sample that cannot be read. *)
Lemma parse_loop_unreadable (items : list json) :
  Exists (fun s => readable s = false) items ->
  forall latest acc,
    exists what, parse_loop Date_parse items latest acc = Thrown (TypeError what).
Proof.
  induction items as [|s items IH]; intros Hex latest acc;
    [now apply Exists_nil in Hex|].
  cbn [parse_loop]. destruct (readable s) eqn:Hs.
  - destruct (readable_get s Hs) as (v & Hget & Hv). rewrite Hget, Hv.
    apply Exists_cons in Hex as [Hex|Hex]; [congruence|].
    destruct (negb (Number_isFinite (parsed_time Date_parse s))); now apply IH.
  - destruct (unreadable_get s Hs) as [_ (what & [[Hget _]|(v & Hget & Hcall & _)])];
      exists what; rewrite Hget; [reflexivity|]. now rewrite Hcall.
Qed.

Lemma valid_times_cons (s : json) (items : list json) :
  valid_times Date_parse (s :: items)
  = time_of (parsed_time Date_parse s) ++ valid_times Date_parse items.
Proof. reflexivity. Qed.

(** Folding [Math.max] from a finite start stays finite and computes the
    maximum. *)
Lemma fold_max_from_int (items : list json) :
  forall a : Z,
    exists L : Z,
      fold_left Math_max
        (map (parsed_time Date_parse) (valid_samples Date_parse items)) (Int a)
      = Int L
      /\ (L = a \/ In L (valid_times Date_parse items))
      /\ (a <= L)%Z
      /\ (forall t, In t (valid_times Date_parse items) -> (t <= L)%Z).
Proof.
  induction items as [|s items IH]; intros a.
  - exists a. cbn. repeat split; auto; try lia; intros t [].
  - unfold valid_samples. cbn [filter]. rewrite valid_times_cons.
    destruct (parsed_time Date_parse s) as [| | |z] eqn:Hs; cbn [Number_isFinite time_of app];
      try apply IH.
    cbn [map fold_left]. rewrite Hs. cbn [Math_max].
    destruct (IH (Z.max a z)) as (L & HL & Hin & Hge & Hmax).
    exists L. split; [exact HL|]. repeat split.
    + destruct Hin as [->|Hin].
      * destruct (Z.max_spec a z) as [[_ ->]|[_ ->]]; [right; now left|now left].
      * right. now right.
    + lia.
    + intros t [<-|Ht]; [lia|auto].
Qed.

Lemma latest_is_max (items : list json) :
  valid_samples Date_parse items <> [] ->
  exists L : Z,
    fold_left Math_max
      (map (parsed_time Date_parse) (valid_samples Date_parse items)) NegInfinity
    = Int L
    /\ latest_of Date_parse items L.
Proof.
  induction items as [|s items IH]; intros Hne; [now elim Hne|].
  unfold valid_samples in *. cbn [filter] in *. unfold latest_of.
  rewrite valid_times_cons.
  destruct (parsed_time Date_parse s) as [| | |z] eqn:Hs;
    cbn [Number_isFinite time_of app] in *; try (apply IH; exact Hne).
  cbn [map fold_left]. rewrite Hs. cbn [Math_max].
  destruct (fold_max_from_int items z) as (L & HL & Hin & Hge & Hmax).
  exists L. split; [exact HL|]. split.
  - destruct Hin as [->|Hin]; [now left|now right].
  - intros t [<-|Ht]; [lia|auto].
Qed.

Lemma latest_of_unique (items : list json) (L L' : Z) :
  latest_of Date_parse items L -> latest_of Date_parse items L' -> L = L'.
Proof.
  intros [Hin Hmax] [Hin' Hmax'].
  apply Hmax in Hin'. apply Hmax' in Hin. lia.
Qed.

Lemma valid_times_of_valid_samples (items : list json) (t : Z) :
  In t (valid_times Date_parse items) <->
  exists s, In s (valid_samples Date_parse items)
            /\ parsed_time Date_parse s = Int t.
Proof.
  unfold valid_times, valid_samples. rewrite in_flat_map. split.
  - intros (s & Hs & Ht). exists s.
    destruct (parsed_time Date_parse s) eqn:E; cbn in Ht; try contradiction.
    destruct Ht as [<-|[]]. split; [|reflexivity].
    apply filter_In. split; [assumption|]. now rewrite E.
  - intros (s & Hs & Ht). apply filter_In in Hs as [Hs _].
    exists s. split; [assumption|]. rewrite Ht. now left.
Qed.

End LoopFacts.

(** *** What [handleIngest] does, case by case *)

Section IngestFacts.

Variable Date_parse : value -> number.

Lemma newly_buffered_length (items : list json) :
  List.length (newly_buffered Date_parse items)
  = List.length (valid_samples Date_parse items).
Proof. unfold newly_buffered. apply length_map. Qed.

(** The handler with the monad unfolded: every early return and every
    exception leaves the state as it was. *)
Lemma handleIngest_unfold (request : Request) (st : Sys) :
  handleIngest Date_parse request st
  = if negb (String.eqb (method request) "POST") then
      (Ok (text_response "Method Not Allowed" 405), st)
    else
      match json_body request with
      | None => (Ok (text_response "Bad JSON" 400), st)
      | Some batch =>
          if negb (length_truthy (get_opt (Some batch) "samples")) then
            (Ok (text_response "Missing samples" 400), st)
          else
            match iterate (get_opt (Some batch) "samples") with
            | Thrown e => (Thrown e, st)
            | Ok items =>
                match parse_loop Date_parse items NegInfinity [] with
                | Thrown e => (Thrown e, st)
                | Ok (latest, newBuffered) =>
                    if Nat.eqb (List.length newBuffered) 0 then
                      (Ok (text_response "No valid timestamps" 400), st)
                    else
                      (Ok (ok_response (List.length newBuffered)),
                       mkSys
                         (mkRoom
                            (filter
                               (fun s => geb (t_ms s) (minus latest WINDOW_MS))
                               (buffer (room st) ++ newBuffered))
                            (sockets (room st)))
                         (mkRuntime (endpoints (net st))
                            (wire (net st)
                             ++ deliveries st
                                  (Samples (get_opt (Some batch) "session_id")
                                     (get_opt (Some batch) "device_id")
                                     (map strip newBuffered)))))
                end
            end
      end.
Proof.
  unfold handleIngest.
  destruct (negb (String.eqb (method request) "POST")); [reflexivity|].
  destruct (json_body request) as [batch|]; [|reflexivity].
  destruct (negb (length_truthy (get_opt (Some batch) "samples"))); [reflexivity|].
  unfold bind at 1. unfold lift at 1.
  destruct (iterate (get_opt (Some batch) "samples")) as [items|e]; [|reflexivity].
  unfold bind at 1. unfold lift at 1.
  destruct (parse_loop Date_parse items NegInfinity []) as [[latest nb]|e];
    [|reflexivity].
  cbn [fst snd].
  destruct (Nat.eqb (List.length nb) 0); [reflexivity|].
  unfold bind, buffer_push, pruneBuffer, modify_room. rewrite broadcast_spec.
  reflexivity.
Qed.

Lemma handleIngest_accepted (request : Request) (batch : json)
    (items : list json) (st : Sys) :
  accepted Date_parse request batch items ->
  exists L : Z,
    latest_of Date_parse items L
    /\ handleIngest Date_parse request st
       = (Ok (ok_response (List.length (valid_samples Date_parse items))),
          ingested Date_parse batch items L st).
Proof.
  intros (Hm & Hb & Hlen & Hit & Hnn & Hv).
  destruct (latest_is_max Date_parse items Hv) as (L & HL & Hlatest).
  exists L. split; [exact Hlatest|].
  rewrite handleIngest_unfold, Hm, String.eqb_refl, Hb, Hlen, Hit.
  cbn [negb]. rewrite (parse_loop_spec Date_parse items Hnn), HL.
  cbn [app]. rewrite newly_buffered_length.
  destruct (valid_samples Date_parse items) as [|s0 more] eqn:Hvs; [now elim Hv|].
  reflexivity.
Qed.

(** A request that is not accepted changes nothing, whether it is answered
    or makes the handler throw. *)
Lemma handleIngest_rejects_or_accepts (request : Request) (st : Sys) :
  (exists batch items, accepted Date_parse request batch items)
  \/ (snd (handleIngest Date_parse request st) = st
      /\ forall resp, fst (handleIngest Date_parse request st) = Ok resp ->
           In resp [text_response "Method Not Allowed" 405;
                    text_response "Bad JSON" 400;
                    text_response "Missing samples" 400;
                    text_response "No valid timestamps" 400]).
Proof.
  rewrite handleIngest_unfold.
  destruct (String.eqb (method request) "POST") eqn:Hm; cbn [negb].
  2:{ right. split; [reflexivity|]. intros resp [= <-]. cbn; auto. }
  apply String.eqb_eq in Hm.
  destruct (json_body request) as [batch|] eqn:Hb.
  2:{ right. split; [reflexivity|]. intros resp [= <-]. cbn; auto. }
  destruct (length_truthy (get_opt (Some batch) "samples")) eqn:Hlen; cbn [negb].
  2:{ right. split; [reflexivity|]. intros resp [= <-]. cbn; auto. }
  destruct (iterate (get_opt (Some batch) "samples")) as [items|e] eqn:Hit.
  2:{ right. split; [reflexivity|]. intros resp [=]. }
  destruct (parse_loop Date_parse items NegInfinity []) as [[latest nb]|e] eqn:Hloop.
  2:{ right. split; [reflexivity|]. intros resp [=]. }
  pose proof (parse_loop_readable _ _ _ _ _ Hloop) as Hnn.
  rewrite (parse_loop_spec Date_parse items Hnn) in Hloop.
  injection Hloop as _ <-. cbn [app].
  rewrite newly_buffered_length.
  destruct (valid_samples Date_parse items) as [|s0 more] eqn:Hvs.
  - right. split; [reflexivity|]. intros resp [= <-]. cbn; auto.
  - left. exists batch, items. repeat split; try assumption.
    rewrite Hvs. discriminate.
Qed.

Lemma handleIngest_success_inv (request : Request) (st st' : Sys) (resp : Response) :
  handleIngest Date_parse request st = (Ok resp, st') ->
  status resp = 200%Z ->
  exists batch items L,
    accepted Date_parse request batch items
    /\ latest_of Date_parse items L
    /\ resp = ok_response (List.length (valid_samples Date_parse items))
    /\ st' = ingested Date_parse batch items L st.
Proof.
  intros Hrun Hstatus.
  destruct (handleIngest_rejects_or_accepts request st)
    as [(batch & items & Hacc)|[_ Hresp]].
  - destruct (handleIngest_accepted request batch items st Hacc) as (L & HL & Heq).
    rewrite Heq in Hrun. injection Hrun as <- <-.
    exists batch, items, L. auto.
  - rewrite Hrun in Hresp. specialize (Hresp resp eq_refl).
    cbn in Hresp.
    destruct Hresp as [<-|[<-|[<-|[<-|[]]]]]; discriminate.
Qed.

End IngestFacts.

(** *** Subscription and socket signals *)

Lemma acceptViewerWebSocket_spec (st : Sys) :
  acceptViewerWebSocket st
  = (Ok (mkResponse NoBody 101 None (Some (List.length (endpoints (net st))))),
     mkSys
       (mkRoom (buffer (room st))
          (set_add (S (List.length (endpoints (net st)))) (sockets (room st))))
       (mkRuntime
          (endpoints (net st) ++ [mkEndpoint OPEN false; mkEndpoint OPEN true])
          (wire (net st)
           ++ [(S (List.length (endpoints (net st))),
                Replay WINDOW_MS (map strip (buffer (room st))))]))).
Proof.
  destruct st as [[buf socks] [eps w]].
  unfold acceptViewerWebSocket, bind, new_WebSocketPair, ws_accept, sockets_add,
    modify_room, gets, ws_send, add_listeners, modify_net, ret, ready_of.
  cbn [room net endpoints wire buffer sockets fst snd].
  rewrite nth_error_past_end. cbn [option_map ready].
  cbn [room net endpoints wire buffer sockets fst snd].
  rewrite update_at_past_end. reflexivity.
Qed.

Section DispatchFacts.

Variable Date_parse : value -> number.

Lemma fetch_unfold (request : Request) (st : Sys) :
  fetch Date_parse request st
  = if wants_websocket (header_Upgrade request) then acceptViewerWebSocket st
    else if String.eqb (pathname request) "/ingest"
         then handleIngest Date_parse request st
         else (Ok (text_response "Not Found" 404), st).
Proof.
  unfold fetch.
  destruct (wants_websocket (header_Upgrade request)); [reflexivity|].
  destruct (String.eqb (pathname request) "/ingest"); reflexivity.
Qed.

Lemma dispatch_fetch (request : Request) (st : Sys) :
  snd (dispatch Date_parse (Fetch request) st) = snd (fetch Date_parse request st).
Proof.
  cbn [dispatch]. unfold bind.
  destruct (fetch Date_parse request st) as [[r|e] st']; reflexivity.
Qed.

(** A socket signal never touches the buffer, and removes at most the
    socket it is about. *)
Lemma dispatch_close_room (ws : WebSocket) (st : Sys) :
  buffer (room (snd (dispatch Date_parse (CloseEvent ws) st))) = buffer (room st)
  /\ (sockets (room (snd (dispatch Date_parse (CloseEvent ws) st)))
       = sockets (room st)
      \/ sockets (room (snd (dispatch Date_parse (CloseEvent ws) st)))
         = set_delete ws (sockets (room st))).
Proof.
  cbv beta iota delta [dispatch bind mark_closed modify_net when_listened gets
    on_close sockets_delete modify_room ret].
  cbn [room net].
  match goal with |- context [has_listeners ?w ?rt] =>
    destruct (has_listeners w rt) end; cbn; auto.
Qed.

Lemma dispatch_error_room (ws : WebSocket) (st : Sys) :
  buffer (room (snd (dispatch Date_parse (ErrorEvent ws) st))) = buffer (room st)
  /\ (sockets (room (snd (dispatch Date_parse (ErrorEvent ws) st)))
       = sockets (room st)
      \/ sockets (room (snd (dispatch Date_parse (ErrorEvent ws) st)))
         = set_delete ws (sockets (room st))).
Proof.
  cbv beta iota delta [dispatch bind when_listened gets on_error sockets_delete
    modify_room try_ignore ws_close ret].
  destruct (has_listeners ws (net st)); [|cbn; auto].
  cbn [room net].
  destruct (ready_of ws (net st)) as [[|]|]; cbn; auto.
Qed.

Lemma dispatch_quiet_room (ev : event) (st : Sys) :
  (exists ws data, ev = MessageEvent ws data) \/ (exists ws, ev = TransportLoss ws) ->
  room (snd (dispatch Date_parse ev st)) = room st.
Proof.
  intros [(ws & data & ->)|(ws & ->)]; cbn [dispatch].
  - cbv beta iota delta [bind when_listened gets on_message ret].
    destruct (has_listeners ws (net st)); reflexivity.
  - reflexivity.
Qed.

Lemma fetch_room (request : Request) (st : Sys) :
  room (snd (fetch Date_parse request st)) = room st
  \/ (exists server,
        room (snd (fetch Date_parse request st))
        = mkRoom (buffer (room st)) (set_add server (sockets (room st))))
  \/ (exists batch items L,
        accepted Date_parse request batch items
        /\ latest_of Date_parse items L
        /\ snd (fetch Date_parse request st) = ingested Date_parse batch items L st).
Proof.
  rewrite fetch_unfold.
  destruct (wants_websocket (header_Upgrade request)).
  - right; left. rewrite acceptViewerWebSocket_spec. eexists. reflexivity.
  - destruct (String.eqb (pathname request) "/ingest"); [|now left].
    destruct (handleIngest_rejects_or_accepts Date_parse request st)
      as [(batch & items & Hacc)|[Hst _]].
    + right; right.
      destruct (handleIngest_accepted Date_parse request batch items st Hacc)
        as (L & HL & Heq).
      exists batch, items, L. rewrite Heq. auto.
    + left. now rewrite Hst.
Qed.

(** No turn drops a socket other than the one whose close or error signal
    it delivers. *)
Lemma dispatch_keeps_socket (ev : event) (st : Sys) (x : WebSocket) :
  In x (sockets (room st)) ->
  ev <> CloseEvent x -> ev <> ErrorEvent x ->
  In x (sockets (room (snd (dispatch Date_parse ev st)))).
Proof.
  intros Hin Hc He. destruct ev as [request|ws|ws|ws data|ws].
  - rewrite dispatch_fetch.
    destruct (fetch_room request st)
      as [->|[(server & ->)|(batch & items & L & _ & _ & ->)]]; cbn.
    + assumption.
    + now apply set_add_keeps.
    + assumption.
  - destruct (dispatch_close_room ws st) as [_ [->| ->]]; [assumption|].
    apply set_delete_keeps; [assumption|]. congruence.
  - destruct (dispatch_error_room ws st) as [_ [->| ->]]; [assumption|].
    apply set_delete_keeps; [assumption|]. congruence.
  - rewrite dispatch_quiet_room; [assumption|]. left. eauto.
  - rewrite dispatch_quiet_room; [assumption|]. right. eauto.
Qed.

(** Samples built by the spread carry no [t_ms] among the copied
    properties, and this holds of every buffer the instance can reach. *)
Lemma lookup_remove_key (k : string) (props : list (string * json)) :
  lookup k (remove_key k props) = None.
Proof.
  induction props as [|[k' v] props IH]; [reflexivity|].
  unfold remove_key in *. cbn [filter fst].
  destruct (String.eqb k k') eqn:E; cbn [negb]; [exact IH|].
  cbn [lookup]. now rewrite E.
Qed.

Lemma dispatch_no_internal_field (ev : event) (st : Sys) :
  no_internal_field st -> no_internal_field (snd (dispatch Date_parse ev st)).
Proof.
  unfold no_internal_field. intros Hinv.
  destruct ev as [request|ws|ws|ws data|ws].
  - rewrite dispatch_fetch.
    destruct (fetch_room request st)
      as [->|[(server & ->)|(batch & items & L & _ & _ & ->)]]; cbn;
      try assumption.
    apply Forall_forall. intros b Hb.
    apply filter_In in Hb as [Hb _]. apply in_app_or in Hb as [Hb|Hb].
    + rewrite Forall_forall in Hinv. now apply Hinv.
    + unfold newly_buffered in Hb. apply in_map_iff in Hb as (s & <- & _).
      apply lookup_remove_key.
  - destruct (dispatch_close_room ws st) as [-> _]. assumption.
  - destruct (dispatch_error_room ws st) as [-> _]. assumption.
  - rewrite dispatch_quiet_room; [assumption|]. left. eauto.
  - rewrite dispatch_quiet_room; [assumption|]. right. eauto.
Qed.

Lemma run_no_internal_field (evs : list event) :
  forall st, no_internal_field st -> no_internal_field (run Date_parse evs st).
Proof.
  induction evs as [|ev evs IH]; intros st Hinv; [exact Hinv|].
  cbn [run]. apply IH. now apply dispatch_no_internal_field.
Qed.

End DispatchFacts.

(** *** Header values up to letter case *)

Lemma is_upper_bounds (c : ascii) :
  is_upper c = true -> (65 <= nat_of_ascii c <= 90)%nat.
Proof.
  unfold is_upper. intros H. apply andb_true_iff in H as [H1 H2].
  apply Nat.leb_le in H1, H2. lia.
Qed.

Lemma lowered_is_not_upper (c : ascii) :
  is_upper c = true ->
  nat_of_ascii (ascii_of_nat (nat_of_ascii c + 32)) = (nat_of_ascii c + 32)%nat
  /\ is_upper (ascii_of_nat (nat_of_ascii c + 32)) = false.
Proof.
  intros H. apply is_upper_bounds in H.
  assert (E : nat_of_ascii (ascii_of_nat (nat_of_ascii c + 32))
              = (nat_of_ascii c + 32)%nat)
    by (apply nat_ascii_embedding; lia).
  split; [exact E|]. unfold is_upper. rewrite E.
  apply andb_false_iff. right. apply Nat.leb_gt. lia.
Qed.

Lemma lower_char_same_letter (a b : ascii) :
  same_letter a b <-> lower_char a = lower_char b.
Proof.
  split.
  - intros H. destruct H as [c|c Hc|c Hc]; [reflexivity| |];
      destruct (lowered_is_not_upper c Hc) as [_ Hlow];
      unfold lower_char; now rewrite Hc, Hlow.
  - unfold lower_char. intros H.
    destruct (is_upper a) eqn:Ha, (is_upper b) eqn:Hb.
    + apply (f_equal nat_of_ascii) in H.
      destruct (lowered_is_not_upper a Ha) as [Ea _].
      destruct (lowered_is_not_upper b Hb) as [Eb _].
      rewrite Ea, Eb in H.
      assert (E : nat_of_ascii a = nat_of_ascii b) by lia.
      apply (f_equal ascii_of_nat) in E.
      rewrite !ascii_nat_embedding in E. subst. constructor.
    + subst b. now constructor.
    + subst a. now constructor.
    + subst b. constructor.
Qed.

Lemma eq_ignoring_case_by_chars (u v : string) :
  map lower_char (list_ascii_of_string u) = map lower_char (list_ascii_of_string v) ->
  eq_ignoring_case u v.
Proof.
  revert v. induction u as [|a u IH]; intros [|b v] H; cbn in H;
    try discriminate; [constructor|].
  injection H as Hc Hs. constructor.
  - now apply lower_char_same_letter.
  - now apply IH.
Qed.

Lemma eq_ignoring_case_length (u v : string) :
  eq_ignoring_case u v -> String.length u = String.length v.
Proof. induction 1; cbn; congruence. Qed.

Lemma toLowerCase_step (c : ascii) (rest : string) :
  (exists after,
      c = kelvin_1 /\ rest = String kelvin_2 (String kelvin_3 after)
      /\ toLowerCase (String c rest) = String "k" (toLowerCase after))
  \/ toLowerCase (String c rest) = String (lower_char c) (toLowerCase rest).
Proof.
  destruct rest as [|c2 [|c3 after]]; try (right; reflexivity).
  cbn [toLowerCase].
  destruct (Ascii.eqb c kelvin_1 && Ascii.eqb c2 kelvin_2 && Ascii.eqb c3 kelvin_3)
    eqn:E; [left|right; reflexivity].
  apply andb_true_iff in E as [E E3]. apply andb_true_iff in E as [E1 E2].
  apply Ascii.eqb_eq in E1, E2, E3. subst. eauto.
Qed.

Lemma toLowerCase_plain (a : ascii) (s : string) :
  a <> kelvin_1 ->
  toLowerCase (String a s) = String (lower_char a) (toLowerCase s).
Proof.
  intros Ha. destruct (toLowerCase_step a s) as [(after & -> & _)|H];
    [now elim Ha|exact H].
Qed.

Lemma same_letter_lower (c : ascii) : same_letter c (lower_char c).
Proof.
  unfold lower_char. destruct (is_upper c) eqn:E; now constructor.
Qed.

Lemma same_letter_ascii (a b : ascii) :
  same_letter a b -> (nat_of_ascii b < 128)%nat -> a <> kelvin_1.
Proof.
  intros H Hb E. destruct H as [c|c Hc|c Hc].
  - subst c. cbn in Hb. lia.
  - subst c. discriminate Hc.
  - apply is_upper_bounds in Hc.
    apply (f_equal nat_of_ascii) in E.
    rewrite nat_ascii_embedding in E by lia. cbn in E. lia.
Qed.

(** What [toLowerCase] returns is equal to its argument up to the case
    [toLowerCase] knows. *)
Lemma lowered_ignoring_js_case (n : nat) :
  forall u, (String.length u <= n)%nat -> eq_ignoring_js_case u (toLowerCase u).
Proof.
  induction n as [|n IH]; intros [|c rest] Hlen; try constructor;
    cbn [String.length] in Hlen; [lia|].
  destruct (toLowerCase_step c rest) as [(after & -> & -> & ->) | ->].
  - apply ejc_kelvin; [now left|]. apply IH. cbn [String.length] in Hlen. lia.
  - constructor; [apply same_letter_lower|]. apply IH. lia.
Qed.

Lemma ignoring_js_case_lowers (u t : string) :
  eq_ignoring_js_case u t ->
  Forall (fun c => (nat_of_ascii c < 128)%nat) (list_ascii_of_string t) ->
  toLowerCase u = toLowerCase t.
Proof.
  induction 1 as [|a b s t Hab _ IH|b s t Hb _ IH]; intros Hascii;
    [reflexivity| |]; cbn [list_ascii_of_string] in Hascii;
    apply Forall_cons_iff in Hascii as [Hb0 Ht].
  - rewrite (toLowerCase_plain a) by now apply (same_letter_ascii a b).
    rewrite (toLowerCase_plain b) by (intros ->; cbn in Hb0; lia).
    apply lower_char_same_letter in Hab. rewrite Hab. f_equal. auto.
  - destruct (toLowerCase_step kelvin_1 (String kelvin_2 (String kelvin_3 s)))
      as [(after & _ & [= <-] & ->)|H]; [|discriminate H].
    rewrite (toLowerCase_plain b) by (destruct Hb; subst; discriminate).
    rewrite IH by assumption. destruct Hb; subst; reflexivity.
Qed.

Lemma eq_ignoring_case_js (u t : string) :
  eq_ignoring_case u t -> eq_ignoring_js_case u t.
Proof. induction 1; now constructor. Qed.

Lemma wants_websocket_iff (u : string) :
  wants_websocket (Some u) = true <-> eq_ignoring_js_case u "websocket".
Proof.
  unfold wants_websocket. rewrite andb_true_iff, String.eqb_eq, negb_true_iff.
  split.
  - intros [_ <-]. now apply (lowered_ignoring_js_case (String.length u)).
  - intros H. assert (Hlow : toLowerCase u = "websocket").
    { apply (ignoring_js_case_lowers u "websocket" H).
      repeat constructor. }
    split; [|exact Hlow]. destruct u; [discriminate Hlow|reflexivity].
Qed.

(** *** Samples of the declared wire type *)

Lemma filter_all {A : Type} (f : A -> bool) (l : list A) :
  forallb f l = true -> filter f l = l.
Proof.
  induction l as [|x l IH]; [reflexivity|]. cbn. intros H.
  apply andb_true_iff in H as [Hx Hl]. rewrite Hx, IH; auto.
Qed.

Lemma strip_spread_sample (s : json) (t : number) :
  is_sample s = true -> strip (spread s t) = s.
Proof.
  destruct s as [| | | | |p]; try discriminate. unfold is_sample.
  rewrite !andb_true_iff. intros [[[[Hkeys _] _] _] _].
  unfold strip, spread, remove_key. cbn [rest own_props]. f_equal.
  apply filter_all. rewrite forallb_forall in *. intros kv Hkv.
  specialize (Hkeys kv Hkv). apply existsb_exists in Hkeys as (k & Hk & Heq).
  apply String.eqb_eq in Heq. rewrite Heq.
  cbn in Hk. destruct Hk as [<-|[<-|[<-|[<-|[]]]]]; reflexivity.
Qed.

Lemma batch_samples_typed (batch : json) (items : list json) :
  is_TelemetryBatch batch = true ->
  iterate (get_opt (Some batch) "samples") = Ok items ->
  forallb is_sample items = true.
Proof.
  destruct batch as [| | | | |p]; try discriminate. cbn [is_TelemetryBatch get_opt].
  rewrite !andb_true_iff. intros [_ H].
  destruct (lookup "samples" p) as [[| | | |ss|]|]; try discriminate.
  cbn [iterate]. now intros [= <-].
Qed.

(** ** The ingest protocol *)

(** C9: an ingest request whose method is not POST is answered 405 Method
    Not Allowed, and the whole system state (window buffer, socket set,
    wire) is exactly what it was. *)
Theorem non_post_ingest_is_rejected
    (Date_parse : value -> number) (request : Request) (st : Sys) :
  method request <> "POST" ->
  handleIngest Date_parse request st
  = (Ok (text_response "Method Not Allowed" 405), st).
Proof.
  intros Hm. rewrite handleIngest_unfold.
  apply String.eqb_neq in Hm. now rewrite Hm.
Qed.

Lemma non_post_ingest_is_rejected_witness :
  handleIngest IsoDate.parse
    (mkRequest "GET" "/ingest" None (Some (run42 [s1000]))) busy
  = (Ok (text_response "Method Not Allowed" 405), busy).
Proof.
  apply (non_post_ingest_is_rejected IsoDate.parse
           (mkRequest "GET" "/ingest" None (Some (run42 [s1000]))) busy).
  cbn. discriminate.
Defined.

(** C4 as stated fails: a batch whose only sample is [null], or whose only
    sample has a capture time that cannot be converted to a string, has
    samples and no finite capture time, and the handler throws a TypeError
    instead of answering 400 No valid timestamps. *)
Lemma unreadable_sample_is_not_answered_400 :
  Number_isFinite (parsed_time IsoDate.parse JNull) = false
  /\ handleIngest IsoDate.parse (ingest_request (run42 [JNull])) busy
     = (Thrown (TypeError "Cannot read properties of null"), busy)
  /\ Number_isFinite (parsed_time IsoDate.parse s_unconvertible) = false
  /\ handleIngest IsoDate.parse (ingest_request (run42 [s_unconvertible])) busy
     = (Thrown (TypeError "Cannot convert object to primitive value"), busy)
  /\ ~ unparsable_means_rejected.
Proof.
  assert (H : handleIngest IsoDate.parse (ingest_request (run42 [JNull])) busy
              = (Thrown (TypeError "Cannot read properties of null"), busy))
    by reflexivity.
  repeat split; try reflexivity.
  intros Hclaim.
  rewrite (Hclaim IsoDate.parse (ingest_request (run42 [JNull])) (run42 [JNull])
             [JNull] busy) in H.
  - discriminate H.
  - reflexivity.
  - reflexivity.
  - reflexivity.
  - discriminate.
  - repeat constructor.
Qed.

(** C4, amended: a POST whose batch has a non-empty array of samples, none
    of which has a capture time that parses to a finite value, leaves the
    window buffer, the socket set and the wire exactly as they were; it is
    answered 400 No valid timestamps when every sample can be read, and
    makes the handler throw a TypeError when some sample is [null] or has a
    capture time that cannot be converted to a string. *)
Theorem unparsable_batch_is_rejected
    (Date_parse : value -> number) (request : Request) (batch : json)
    (items : list json) (st : Sys) :
  method request = "POST" ->
  json_body request = Some batch ->
  get_opt (Some batch) "samples" = Some (JArr items) ->
  items <> [] ->
  Forall (fun s => Number_isFinite (parsed_time Date_parse s) = false) items ->
  snd (handleIngest Date_parse request st) = st
  /\ (Forall (fun s => readable s = true) items ->
      fst (handleIngest Date_parse request st)
      = Ok (text_response "No valid timestamps" 400))
  /\ (Exists (fun s => readable s = false) items ->
      exists what,
        fst (handleIngest Date_parse request st) = Thrown (TypeError what)).
Proof.
  intros Hm Hb Hs Hne Hbad.
  rewrite handleIngest_unfold, Hm, String.eqb_refl, Hb, Hs.
  cbn [negb length_truthy iterate].
  destruct items as [|s0 more] eqn:Hitems; [now elim Hne|].
  cbn [List.length Nat.eqb negb]. rewrite <- Hitems in *.
  assert (Hnone : valid_samples Date_parse items = []).
  { unfold valid_samples. clear - Hbad.
    induction Hbad as [|s l Hs _ IH]; [reflexivity|].
    cbn [filter]. now rewrite Hs. }
  split; [|split].
  - destruct (parse_loop Date_parse items NegInfinity []) as [[latest nb]|e] eqn:Hloop;
      [|reflexivity].
    pose proof (parse_loop_readable _ _ _ _ _ Hloop) as Hr.
    rewrite (parse_loop_spec Date_parse items Hr) in Hloop.
    injection Hloop as _ <-. unfold newly_buffered. rewrite Hnone. reflexivity.
  - intros Hr. rewrite (parse_loop_spec Date_parse items Hr).
    unfold newly_buffered. rewrite Hnone. reflexivity.
  - intros Hex.
    destruct (parse_loop_unreadable Date_parse items Hex NegInfinity [])
      as (what & ->).
    exists what. reflexivity.
Qed.

Lemma unparsable_batch_is_rejected_witness :
  handleIngest IsoDate.parse
    (ingest_request (run42 [s_unparsable; sample_at "" 8])) busy
  = (Ok (text_response "No valid timestamps" 400), busy)
  /\ snd (handleIngest IsoDate.parse
            (ingest_request (run42 [s_unparsable; s_unconvertible])) busy)
     = busy
  /\ exists what,
       fst (handleIngest IsoDate.parse
              (ingest_request (run42 [s_unparsable; s_unconvertible])) busy)
       = Thrown (TypeError what).
Proof.
  split; [|split].
  - destruct (unparsable_batch_is_rejected IsoDate.parse
                (ingest_request (run42 [s_unparsable; sample_at "" 8]))
                (run42 [s_unparsable; sample_at "" 8])
                [s_unparsable; sample_at "" 8] busy)
      as (Hst & Hresp & _).
    + reflexivity.
    + reflexivity.
    + reflexivity.
    + discriminate.
    + repeat constructor.
    + apply injective_projections; [apply Hresp; repeat constructor|exact Hst].
  - apply (unparsable_batch_is_rejected IsoDate.parse
             (ingest_request (run42 [s_unparsable; s_unconvertible]))
             (run42 [s_unparsable; s_unconvertible])
             [s_unparsable; s_unconvertible] busy).
    + reflexivity.
    + reflexivity.
    + reflexivity.
    + discriminate.
    + repeat constructor.
  - apply (unparsable_batch_is_rejected IsoDate.parse
             (ingest_request (run42 [s_unparsable; s_unconvertible]))
             (run42 [s_unparsable; s_unconvertible])
             [s_unparsable; s_unconvertible] busy).
    + reflexivity.
    + reflexivity.
    + reflexivity.
    + discriminate.
    + repeat constructor.
    + apply Exists_cons_tl. apply Exists_cons_hd. reflexivity.
Defined.

(** C5: the [received] field of every success response is the number of
    samples of the batch whose capture time parses to a finite value, which
    is the number of samples the ingest appended to the buffer before
    pruning; and a request that passes validation does get that
    response. *)
Theorem received_counts_parsed_samples (Date_parse : value -> number) :
  (forall request st resp st',
      handleIngest Date_parse request st = (Ok resp, st') ->
      status resp = 200%Z ->
      exists batch items L,
        json_body request = Some batch
        /\ iterate (get_opt (Some batch) "samples") = Ok items
        /\ body resp = Received (List.length (valid_samples Date_parse items))
        /\ List.length (newly_buffered Date_parse items)
           = List.length (valid_samples Date_parse items)
        /\ buffer (room st')
           = filter (fun s => geb (t_ms s) (Int (L - WINDOW_MS)))
               (buffer (room st) ++ newly_buffered Date_parse items))
  /\ (forall request batch items st,
        accepted Date_parse request batch items ->
        fst (handleIngest Date_parse request st)
        = Ok (ok_response (List.length (valid_samples Date_parse items)))).
Proof.
  split.
  - intros request st resp st' Hrun Hstatus.
    destruct (handleIngest_success_inv Date_parse request st st' resp Hrun Hstatus)
      as (batch & items & L & Hacc & _ & -> & ->).
    destruct Hacc as (_ & Hb & _ & Hit & _ & _).
    exists batch, items, L. repeat split; try assumption.
    apply newly_buffered_length.
  - intros request batch items st Hacc.
    destruct (handleIngest_accepted Date_parse request batch items st Hacc)
      as (L & _ & ->).
    reflexivity.
Qed.

Lemma received_counts_parsed_samples_witness :
  (exists batch items L,
      json_body (ingest_request (run42 [s1000; s_unparsable; s2000])) = Some batch
      /\ iterate (get_opt (Some batch) "samples") = Ok items
      /\ body (ok_response 2)
         = Received (List.length (valid_samples IsoDate.parse items))
      /\ List.length (newly_buffered IsoDate.parse items)
         = List.length (valid_samples IsoDate.parse items)
      /\ buffer (room (snd (handleIngest IsoDate.parse
                              (ingest_request (run42 [s1000; s_unparsable; s2000]))
                              busy)))
         = filter (fun s => geb (t_ms s) (Int (L - WINDOW_MS)))
             (buffer (room busy) ++ newly_buffered IsoDate.parse items))
  /\ fst (handleIngest IsoDate.parse
            (ingest_request (run42 [s1000; s_unparsable; s2000])) busy)
     = Ok (ok_response 2).
Proof.
  split.
  - apply (proj1 (received_counts_parsed_samples IsoDate.parse)
             (ingest_request (run42 [s1000; s_unparsable; s2000])) busy
             (ok_response 2)
             (snd (handleIngest IsoDate.parse
                     (ingest_request (run42 [s1000; s_unparsable; s2000])) busy))).
    + reflexivity.
    + reflexivity.
  - apply (proj2 (received_counts_parsed_samples IsoDate.parse)
             (ingest_request (run42 [s1000; s_unparsable; s2000]))
             (run42 [s1000; s_unparsable; s2000])
             [s1000; s_unparsable; s2000] busy).
    repeat split; try reflexivity.
    + repeat constructor; discriminate.
    + discriminate.
Defined.

(** Bodies the type cast lets through: a [null] sample makes the loop
    throw, an object posing as [samples] cannot be iterated, a string is
    iterated character by character.  Nothing is mutated in any of them. *)
Example untyped_bodies :
  handleIngest IsoDate.parse
    (ingest_request (JObj [("samples", JArr [s1000; JNull])])) busy
  = (Thrown (TypeError "Cannot read properties of null"), busy)
  /\ handleIngest IsoDate.parse
       (ingest_request (JObj [("samples", JObj [("length", JNum (double 1 0))])]))
       busy
     = (Thrown (TypeError "not iterable"), busy)
  /\ handleIngest IsoDate.parse
       (ingest_request (JObj [("samples", JStr "abc")])) busy
     = (Ok (text_response "No valid timestamps" 400), busy)
  /\ handleIngest IsoDate.parse
       (ingest_request (JObj [("samples", JArr [])])) busy
     = (Ok (text_response "Missing samples" 400), busy).
Proof. repeat split; reflexivity. Qed.

(** C8 as stated fails: a body that is JSON but not a batch is not answered
    Bad JSON.  An empty object gets Missing samples; an object with a
    parsable sample and no identifiers is ingested and the buffer grows. *)
Lemma shapeless_json_is_not_rejected :
  is_TelemetryBatch (JObj []) = false
  /\ handleIngest IsoDate.parse (ingest_request (JObj [])) busy
     = (Ok (text_response "Missing samples" 400), busy)
  /\ is_TelemetryBatch shapeless_body = false
  /\ fst (handleIngest IsoDate.parse (ingest_request shapeless_body) cold_start)
     = Ok (ok_response 1)
  /\ buffer (room (snd (handleIngest IsoDate.parse
                          (ingest_request shapeless_body) cold_start)))
     = [mkBuffered [("t_gps_utc", JStr "1970-01-01T00:00:01.000Z")] (Int 1000)]
  /\ ~ shape_checked_decode.
Proof.
  assert (H : handleIngest IsoDate.parse (ingest_request (JObj [])) busy
              = (Ok (text_response "Missing samples" 400), busy))
    by reflexivity.
  repeat split; try reflexivity.
  intros Hclaim.
  specialize (Hclaim IsoDate.parse (ingest_request (JObj [])) busy eq_refl).
  rewrite Hclaim in H.
  - discriminate H.
  - intros batch [= <-]. reflexivity.
Qed.

(** C8, amended: a POST whose body is not JSON is answered 400 Bad JSON and
    nothing is mutated; a POST whose body is JSON is never answered Bad
    JSON, whatever its shape. *)
Theorem bad_json_iff_body_is_not_json
    (Date_parse : value -> number) (request : Request) (st : Sys) :
  method request = "POST" ->
  (json_body request = None ->
   handleIngest Date_parse request st = (Ok (text_response "Bad JSON" 400), st))
  /\ (forall batch,
        json_body request = Some batch ->
        fst (handleIngest Date_parse request st)
        <> Ok (text_response "Bad JSON" 400)).
Proof.
  intros Hm. split.
  - intros Hb. now rewrite handleIngest_unfold, Hm, String.eqb_refl, Hb.
  - intros batch Hb.
    rewrite handleIngest_unfold, Hm, String.eqb_refl, Hb. cbn [negb].
    destruct (negb (length_truthy (get_opt (Some batch) "samples")));
      [discriminate|].
    destruct (iterate (get_opt (Some batch) "samples")) as [items|e];
      [|discriminate].
    destruct (parse_loop Date_parse items NegInfinity []) as [[latest nb]|e];
      [|discriminate].
    destruct (Nat.eqb (List.length nb) 0); discriminate.
Qed.

Lemma bad_json_iff_body_is_not_json_witness :
  handleIngest IsoDate.parse (mkRequest "POST" "/ingest" None None) busy
  = (Ok (text_response "Bad JSON" 400), busy)
  /\ fst (handleIngest IsoDate.parse (ingest_request shapeless_body) busy)
     <> Ok (text_response "Bad JSON" 400).
Proof.
  split.
  - apply (proj1 (bad_json_iff_body_is_not_json IsoDate.parse
                    (mkRequest "POST" "/ingest" None None) busy eq_refl)).
    reflexivity.
  - apply (proj2 (bad_json_iff_body_is_not_json IsoDate.parse
                    (ingest_request shapeless_body) busy eq_refl)
             shapeless_body).
    reflexivity.
Defined.

(** *** Batches in which every sample parses *)

Section AllValid.

Variable Date_parse : value -> number.

Lemma all_valid_samples (items : list json) (times : list Z) :
  Forall2 (parses_to Date_parse) items times ->
  valid_samples Date_parse items = items
  /\ valid_times Date_parse items = times
  /\ newly_buffered Date_parse items
     = map (fun st => spread (fst st) (Int (snd st))) (combine items times)
  /\ Forall (fun s => readable s = true) items.
Proof.
  unfold newly_buffered, valid_samples, parses_to.
  induction 1 as [|s t items times Hs _ (IH1 & IH2 & IH3 & IH4)].
  - repeat split; auto.
  - rewrite valid_times_cons. cbn [filter combine map]. rewrite Hs.
    cbn [Number_isFinite time_of app].
    rewrite IH1 in *. cbn [map]. rewrite Hs, IH2, IH3.
    repeat split; auto. constructor; [|assumption].
    exact (finite_is_readable Date_parse s t Hs).
Qed.

(** The buffer after the gateway forwards a batch of parsable samples. *)
Lemma ingest_step (sid did : json) (items : list json) (times : list Z)
    (L : Z) (st : Sys) :
  Forall2 (parses_to Date_parse) items times ->
  In L times -> (forall t, In t times -> (t <= L)%Z) ->
  buffer (room (snd (dispatch Date_parse
                       (Fetch (ingest_request (batch_json sid did items))) st)))
  = filter (fun b => geb (t_ms b) (Int (L - WINDOW_MS)))
      (buffer (room st)
       ++ map (fun st => spread (fst st) (Int (snd st))) (combine items times)).
Proof.
  intros Hparse Hin Hmax.
  destruct (all_valid_samples items times Hparse) as (Hv & Ht & Hnb & Hnn).
  assert (Hacc : accepted Date_parse (ingest_request (batch_json sid did items))
                   (batch_json sid did items) items).
  { repeat split; try reflexivity; try assumption.
    - cbn. destruct items; [|reflexivity]. inversion Hparse; subst. contradiction.
    - rewrite Hv. intros ->. inversion Hparse; subst. contradiction. }
  destruct (handleIngest_accepted Date_parse _ _ _ st Hacc) as (L' & HL' & Heq).
  assert (L' = L) as ->.
  { apply (latest_of_unique Date_parse items); [assumption|].
    unfold latest_of. rewrite Ht. auto. }
  rewrite dispatch_fetch, fetch_unfold.
  change (wants_websocket (header_Upgrade (ingest_request (batch_json sid did items))))
    with false.
  change (String.eqb (pathname (ingest_request (batch_json sid did items))) "/ingest")
    with true.
  cbv iota. rewrite Heq. cbn [snd ingested room buffer]. now rewrite Hnb.
Qed.

End AllValid.

(** C1: after every successful ingest, each sample left in the window
    buffer has a parsed capture time [>= L - 30000], where [L] is the
    maximum valid parsed timestamp of the batch just ingested (not of the
    buffer's history).  In particular, ingesting samples at 1000, 2000 and
    3000, then one at 3500, then one at 40000 into an empty buffer leaves
    exactly the sample at 40000. *)
Theorem buffer_within_window_of_batch (Date_parse : value -> number) :
  (forall request st resp st',
      handleIngest Date_parse request st = (Ok resp, st') ->
      status resp = 200%Z ->
      exists batch items L,
        json_body request = Some batch
        /\ iterate (get_opt (Some batch) "samples") = Ok items
        /\ latest_of Date_parse items L
        /\ forall b, In b (buffer (room st')) ->
                     geb (t_ms b) (Int (L - 30000)) = true)
  /\ (forall sid did a b c d e st,
        buffer (room st) = [] ->
        parsed_time Date_parse a = Int 1000 ->
        parsed_time Date_parse b = Int 2000 ->
        parsed_time Date_parse c = Int 3000 ->
        parsed_time Date_parse d = Int 3500 ->
        parsed_time Date_parse e = Int 40000 ->
        let first := Fetch (ingest_request (batch_json sid did [a; b; c])) in
        let second := Fetch (ingest_request (batch_json sid did [d])) in
        let third := Fetch (ingest_request (batch_json sid did [e])) in
        buffer (room (run Date_parse [first] st))
        = [spread a (Int 1000); spread b (Int 2000); spread c (Int 3000)]
        /\ buffer (room (run Date_parse [first; second] st))
           = [spread a (Int 1000); spread b (Int 2000); spread c (Int 3000);
              spread d (Int 3500)]
        /\ buffer (room (run Date_parse [first; second; third] st))
           = [spread e (Int 40000)]).
Proof.
  split.
  - intros request st resp st' Hrun Hstatus.
    destruct (handleIngest_success_inv Date_parse request st st' resp Hrun Hstatus)
      as (batch & items & L & Hacc & HL & _ & ->).
    destruct Hacc as (_ & Hb & _ & Hit & _ & _).
    exists batch, items, L. do 3 (split; [assumption|]).
    intros x Hx. cbn [ingested room buffer] in Hx.
    apply filter_In in Hx as [_ Hx]. exact Hx.
  - intros sid did a b c d e st Hempty Ha Hb Hc Hd He first second third.
    assert (H1 : buffer (room (run Date_parse [first] st))
                 = [spread a (Int 1000); spread b (Int 2000); spread c (Int 3000)]).
    { cbn [run]. unfold first.
      rewrite (ingest_step Date_parse sid did [a; b; c] [1000; 2000; 3000]%Z 3000 st).
      - rewrite Hempty. reflexivity.
      - repeat constructor; assumption.
      - cbn. auto.
      - cbn. intros t [<-|[<-|[<-|[]]]]; lia. }
    assert (H2 : buffer (room (run Date_parse [first; second] st))
                 = [spread a (Int 1000); spread b (Int 2000); spread c (Int 3000);
                    spread d (Int 3500)]).
    { cbn [run] in *. unfold second.
      rewrite (ingest_step Date_parse sid did [d] [3500]%Z 3500).
      - rewrite H1. reflexivity.
      - repeat constructor; assumption.
      - cbn. auto.
      - cbn. intros t [<-|[]]; lia. }
    repeat split; [exact H1|exact H2|].
    cbn [run] in *. unfold third.
    rewrite (ingest_step Date_parse sid did [e] [40000]%Z 40000).
    + rewrite H2. reflexivity.
    + repeat constructor; assumption.
    + cbn. auto.
    + cbn. intros t [<-|[]]; lia.
Qed.

Lemma buffer_within_window_of_batch_witness :
  (exists batch items L,
      json_body (ingest_request (run42 [s40000])) = Some batch
      /\ iterate (get_opt (Some batch) "samples") = Ok items
      /\ latest_of IsoDate.parse items L
      /\ forall b,
           In b (buffer (room (snd (handleIngest IsoDate.parse
                                      (ingest_request (run42 [s40000])) busy)))) ->
           geb (t_ms b) (Int (L - 30000)) = true)
  /\ buffer (room (run IsoDate.parse
                     [Fetch (ingest_request (run42 [s1000; s2000; s3000]));
                      Fetch (ingest_request (run42 [s3500]));
                      Fetch (ingest_request (run42 [s40000]))] cold_start))
     = [spread s40000 (Int 40000)].
Proof.
  split.
  - apply (proj1 (buffer_within_window_of_batch IsoDate.parse)
             (ingest_request (run42 [s40000])) busy (ok_response 1)
             (snd (handleIngest IsoDate.parse
                     (ingest_request (run42 [s40000])) busy))).
    + reflexivity.
    + reflexivity.
  - apply (proj2 (buffer_within_window_of_batch IsoDate.parse)
             (JStr "run-42") (JStr "imu-7") s1000 s2000 s3000 s3500 s40000
             cold_start);
      reflexivity.
Defined.

(** C2: on every successful ingest, what the broadcast puts on the wire is
    one message of type "samples" per socket that accepts a send, carrying
    the batch's [session_id] and [device_id] and, as samples, the samples
    this ingest appended, stripped of [t_ms], in batch order; the buffer
    that was there before does not appear in it.  For a batch of the
    declared wire type those are exactly the samples whose time parsed. *)
Theorem live_update_carries_new_samples
    (Date_parse : value -> number) (request : Request) (st st' : Sys)
    (resp : Response) :
  handleIngest Date_parse request st = (Ok resp, st') ->
  status resp = 200%Z ->
  exists batch items L,
    json_body request = Some batch
    /\ iterate (get_opt (Some batch) "samples") = Ok items
    /\ buffer (room st')
       = filter (fun s => geb (t_ms s) (Int (L - WINDOW_MS)))
           (buffer (room st) ++ newly_buffered Date_parse items)
    /\ wire (net st')
       = wire (net st)
         ++ deliveries st
              (Samples (get_opt (Some batch) "session_id")
                 (get_opt (Some batch) "device_id")
                 (map strip (newly_buffered Date_parse items)))
    /\ map strip (newly_buffered Date_parse items)
       = map (fun s => JObj (remove_key "t_ms" (own_props s)))
           (valid_samples Date_parse items)
    /\ (is_TelemetryBatch batch = true ->
        map strip (newly_buffered Date_parse items)
        = valid_samples Date_parse items).
Proof.
  intros Hrun Hstatus.
  destruct (handleIngest_success_inv Date_parse request st st' resp Hrun Hstatus)
    as (batch & items & L & Hacc & HL & _ & ->).
  destruct Hacc as (_ & Hb & _ & Hit & _ & _).
  exists batch, items, L. do 4 (split; [assumption || reflexivity|]).
  unfold newly_buffered. rewrite map_map. split; [reflexivity|].
  intros Htyped.
  pose proof (batch_samples_typed batch items Htyped Hit) as Hall.
  rewrite forallb_forall in Hall.
  rewrite <- (map_id (valid_samples Date_parse items)) at 2.
  apply map_ext_in. intros s Hs. apply strip_spread_sample, Hall.
  unfold valid_samples in Hs. now apply filter_In in Hs.
Qed.

Lemma live_update_carries_new_samples_witness :
  exists batch items L,
    json_body (ingest_request (run42 [s1000; s_unparsable; s2000])) = Some batch
    /\ iterate (get_opt (Some batch) "samples") = Ok items
    /\ buffer (room (snd (handleIngest IsoDate.parse
                            (ingest_request (run42 [s1000; s_unparsable; s2000]))
                            busy)))
       = filter (fun s => geb (t_ms s) (Int (L - WINDOW_MS)))
           (buffer (room busy) ++ newly_buffered IsoDate.parse items)
    /\ wire (net (snd (handleIngest IsoDate.parse
                          (ingest_request (run42 [s1000; s_unparsable; s2000]))
                          busy)))
       = wire (net busy)
         ++ deliveries busy
              (Samples (get_opt (Some batch) "session_id")
                 (get_opt (Some batch) "device_id")
                 (map strip (newly_buffered IsoDate.parse items)))
    /\ map strip (newly_buffered IsoDate.parse items)
       = map (fun s => JObj (remove_key "t_ms" (own_props s)))
           (valid_samples IsoDate.parse items)
    /\ (is_TelemetryBatch batch = true ->
        map strip (newly_buffered IsoDate.parse items)
        = valid_samples IsoDate.parse items).
Proof.
  apply (live_update_carries_new_samples IsoDate.parse
           (ingest_request (run42 [s1000; s_unparsable; s2000])) busy
           (snd (handleIngest IsoDate.parse
                   (ingest_request (run42 [s1000; s_unparsable; s2000])) busy))
           (ok_response 2)).
  - reflexivity.
  - reflexivity.
Defined.

(** The same ingest, evaluated: the viewer whose transport is gone gets
    nothing, the other gets the two parsable samples and not the sample
    that was already buffered. *)
Example live_update_on_busy_room :
  wire (net (snd (handleIngest IsoDate.parse
                    (ingest_request (run42 [s1000; s_unparsable; s2000])) busy)))
  = wire (net busy)
    ++ [(3%nat, Samples (Some (JStr "run-42")) (Some (JStr "imu-7")) [s1000; s2000])].
Proof. reflexivity. Qed.

(** A batch spanning more than the window: its old sample is appended,
    pruned in the same ingest, and still part of the live update. *)
Example wide_batch_on_cold_start :
  map t_ms
    (buffer (room (snd (handleIngest IsoDate.parse
                          (ingest_request (run42 [s1000; s40000])) cold_start))))
  = [Int 40000]
  /\ fst (handleIngest IsoDate.parse
            (ingest_request (run42 [s1000; s40000])) cold_start)
     = Ok (ok_response 2)
  /\ deliveries busy
       (Samples (Some (JStr "run-42")) (Some (JStr "imu-7"))
          (map strip (newly_buffered IsoDate.parse [s1000; s40000])))
     = [(3%nat, Samples (Some (JStr "run-42")) (Some (JStr "imu-7"))
                 [s1000; s40000])].
Proof. repeat split; reflexivity. Qed.

(** ** The subscribe protocol and the hub *)

(** C3: every request classified as a stream upgrade is answered 101 with
    the client end of a new pair; the server end is in the socket set
    afterwards, the buffer is untouched, and exactly one frame is added to
    the wire: a replay for the server end, with window 30000 and one sample
    per buffered sample of that moment, in buffer order, each of them the
    object made of the properties the buffered sample copied from the wire,
    that is, all of the buffered sample but its [t_ms].  With an empty
    buffer the replay carries an empty list; and in every state the
    instance can reach from a cold start no replayed sample has a [t_ms]
    property. *)
Theorem subscribe_registers_and_replays
    (Date_parse : value -> number) (request : Request) (st : Sys) :
  wants_websocket (header_Upgrade request) = true ->
  fetch Date_parse request st
  = (Ok (mkResponse NoBody 101 None (Some (List.length (endpoints (net st))))),
     mkSys
       (mkRoom (buffer (room st))
          (set_add (S (List.length (endpoints (net st)))) (sockets (room st))))
       (mkRuntime
          (endpoints (net st) ++ [mkEndpoint OPEN false; mkEndpoint OPEN true])
          (wire (net st)
           ++ [(S (List.length (endpoints (net st))),
                Replay 30000
                  (map (fun b => JObj (rest b)) (buffer (room st))))])))
  /\ In (S (List.length (endpoints (net st))))
        (sockets (room (snd (fetch Date_parse request st))))
  /\ (buffer (room st) = [] ->
      wire (net (snd (fetch Date_parse request st)))
      = wire (net st) ++ [(S (List.length (endpoints (net st))), Replay 30000 [])])
  /\ (forall evs s,
        st = run Date_parse evs cold_start ->
        In s (map (fun b => JObj (rest b)) (buffer (room st))) ->
        get_opt (Some s) "t_ms" = None).
Proof.
  intros Hup.
  assert (Hfetch : fetch Date_parse request st = acceptViewerWebSocket st)
    by now rewrite fetch_unfold, Hup.
  rewrite Hfetch, acceptViewerWebSocket_spec. cbn [snd room net sockets wire].
  split; [reflexivity|]. split; [apply set_add_In|]. split.
  - intros ->. reflexivity.
  - intros evs s -> Hs.
    apply in_map_iff in Hs as (b & <- & Hb).
    assert (Hinv : no_internal_field (run Date_parse evs cold_start))
      by (apply run_no_internal_field; constructor).
    unfold no_internal_field in Hinv. rewrite Forall_forall in Hinv.
    exact (Hinv b Hb).
Qed.

Lemma subscribe_registers_and_replays_witness :
  fetch IsoDate.parse (mkRequest "GET" "/" (Some "WebSocket") None) cold_start
  = (Ok (mkResponse NoBody 101 None (Some 0%nat)),
     mkSys (mkRoom [] [1%nat])
       (mkRuntime [mkEndpoint OPEN false; mkEndpoint OPEN true]
          [(1%nat, Replay 30000 [])]))
  /\ fetch IsoDate.parse (mkRequest "GET" "/" (Some "websocket") None) busy
     = (Ok (mkResponse NoBody 101 None (Some 4%nat)),
        mkSys (mkRoom (buffer (room busy)) [1%nat; 3%nat; 5%nat])
          (mkRuntime
             (endpoints (net busy)
              ++ [mkEndpoint OPEN false; mkEndpoint OPEN true])
             (wire (net busy) ++ [(5%nat, Replay 30000 [s5000])])))
  /\ wire (net (snd (fetch IsoDate.parse
                       (mkRequest "GET" "/" (Some "WebSocket") None) cold_start)))
     = wire (net cold_start) ++ [(1%nat, Replay 30000 [])]
  /\ get_opt (Some s1000) "t_ms" = None.
Proof.
  split; [|split; [|split]].
  - apply (proj1 (subscribe_registers_and_replays IsoDate.parse
                    (mkRequest "GET" "/" (Some "WebSocket") None) cold_start
                    eq_refl)).
  - apply (proj1 (subscribe_registers_and_replays IsoDate.parse
                    (mkRequest "GET" "/" (Some "websocket") None) busy
                    eq_refl)).
  - apply (proj1 (proj2 (proj2 (subscribe_registers_and_replays IsoDate.parse
                    (mkRequest "GET" "/" (Some "WebSocket") None) cold_start
                    eq_refl)))).
    reflexivity.
  - apply (proj2 (proj2 (proj2 (subscribe_registers_and_replays IsoDate.parse
                    (mkRequest "GET" "/" (Some "WebSocket") None)
                    (run IsoDate.parse
                       [Fetch (ingest_request (run42 [s1000]))] cold_start)
                    eq_refl)))
             [Fetch (ingest_request (run42 [s1000]))] s1000 eq_refl).
    left. reflexivity.
Defined.

(** A viewer joining the busy room is replayed the buffered sample as the
    producer sent it. *)
Example replay_on_busy_room :
  wire (net (snd (fetch IsoDate.parse
                    (mkRequest "GET" "/" (Some "websocket") None) busy)))
  = wire (net busy) ++ [(5%nat, Replay 30000 [s5000])].
Proof. reflexivity. Qed.

(** C6: a broadcast always returns normally, leaves the room (buffer and
    socket set) as it was, and delivers the message to every registered
    socket that accepts a send, in set order, whatever happens on the
    others; a socket leaves the set in a turn only if that turn delivers
    its own close or error signal. *)
Theorem send_failures_are_swallowed
    (Date_parse : value -> number) (obj : message) (st : Sys) :
  broadcast obj st
  = (Ok tt,
     mkSys (room st)
       (mkRuntime (endpoints (net st)) (wire (net st) ++ deliveries st obj)))
  /\ (forall ws,
        In ws (sockets (room st)) -> deliverable (net st) ws = true ->
        In (ws, obj) (wire (net (snd (broadcast obj st)))))
  /\ (forall ev ws,
        In ws (sockets (room st)) ->
        ~ In ws (sockets (room (snd (dispatch Date_parse ev st)))) ->
        ev = CloseEvent ws \/ ev = ErrorEvent ws).
Proof.
  split; [apply broadcast_spec|]. split.
  - intros ws Hin Hopen. rewrite broadcast_spec. cbn [snd net wire].
    apply in_or_app. right. unfold deliveries.
    apply in_map_iff. exists ws. split; [reflexivity|].
    apply filter_In. auto.
  - intros ev ws Hin Hgone.
    assert (Hdec : forall e1 e2 : event,
               (exists x, e1 = CloseEvent x) \/ (exists x, e1 = ErrorEvent x) ->
               e1 = e2 \/ e1 <> e2).
    { intros e1 e2 [(x & ->)|(x & ->)]; destruct e2 as [r|y|y|y d|y];
        try (right; discriminate);
        destruct (Nat.eq_dec x y) as [->|Hne];
        try (now left); right; congruence. }
    destruct (Hdec (CloseEvent ws) ev) as [<-|Hc]; [left; eauto|now left|].
    destruct (Hdec (ErrorEvent ws) ev) as [<-|He]; [right; eauto|now right|].
    elim Hgone. apply dispatch_keeps_socket; [assumption| |]; congruence.
Qed.

Lemma send_failures_are_swallowed_witness :
  In (3%nat, Replay 30000 []) (wire (net (snd (broadcast (Replay 30000 []) busy))))
  /\ (CloseEvent 1%nat = CloseEvent 1%nat \/ CloseEvent 1%nat = ErrorEvent 1%nat).
Proof.
  split.
  - apply (proj1 (proj2 (send_failures_are_swallowed IsoDate.parse
                           (Replay 30000 []) busy)) 3%nat).
    + cbn. auto.
    + reflexivity.
  - apply (proj2 (proj2 (send_failures_are_swallowed IsoDate.parse
                           (Replay 30000 []) busy)) (CloseEvent 1%nat) 1%nat).
    + cbn. auto.
    + cbn. intros [H|[]]. discriminate H.
Defined.

(** In the busy room the first viewer's send throws, the broadcast still
    returns and reaches the second viewer, and both stay registered; the
    close signal of the first is what removes it. *)
Example broadcast_on_busy_room :
  ws_send 1%nat (Samples None None []) busy = (Thrown SendError, busy)
  /\ broadcast (Samples None None []) busy
     = (Ok tt,
        mkSys (room busy)
          (mkRuntime (endpoints (net busy))
             (wire (net busy) ++ [(3%nat, Samples None None [])])))
  /\ sockets (room (snd (dispatch IsoDate.parse (CloseEvent 1%nat) busy)))
     = [3%nat].
Proof. repeat split; reflexivity. Qed.

(** ** Out-of-order batches *)

Lemma ingested_keeps_recent (Date_parse : value -> number) (batch : json)
    (items : list json) (L : Z) (st : Sys) (b : BufferedSample) :
  In b (buffer (room st)) ->
  geb (t_ms b) (Int (L - WINDOW_MS)) = true ->
  In b (buffer (room (ingested Date_parse batch items L st))).
Proof.
  intros Hin Hge. cbn [ingested room buffer].
  apply filter_In. split; [|exact Hge]. apply in_or_app. now left.
Qed.

(** C7 as stated fails: no successful ingest evicts a resident sample that
    is strictly newer than every valid sample of the incoming batch. *)
Lemma no_stale_batch_evicts_newer : ~ stale_batch_evicts_newer.
Proof.
  intros (Date_parse & request & st & st' & resp & batch & items & L & b & t
          & Hrun & Hstatus & Hb & Hit & HL & _ & Hin & Ht & Hnewer & Hgone).
  destruct (handleIngest_success_inv Date_parse request st st' resp Hrun Hstatus)
    as (batch' & items' & L' & Hacc & HL' & _ & ->).
  destruct Hacc as (_ & Hb' & _ & Hit' & _ & _).
  rewrite Hb in Hb'. injection Hb' as <-.
  rewrite Hit in Hit'. injection Hit' as <-.
  apply Hgone, ingested_keeps_recent; [assumption|].
  rewrite Ht. cbn [geb]. destruct HL' as [HinL _].
  apply Hnewer in HinL. unfold WINDOW_MS. apply Z.geb_le. lia.
Qed.

(** C7, amended: a successful ingest keeps every resident sample whose time
    is at least the batch's latest minus 30000, hence every resident sample
    newer than the whole batch; and there is a buffer and a delayed batch,
    its latest timestamp below a resident one, after whose ingest the buffer
    holds a sample more than 30000 ms older than that resident sample. *)
Theorem stale_batch_prunes_less :
  (forall (Date_parse : value -> number) request st resp st',
      handleIngest Date_parse request st = (Ok resp, st') ->
      status resp = 200%Z ->
      exists batch items L,
        json_body request = Some batch
        /\ iterate (get_opt (Some batch) "samples") = Ok items
        /\ latest_of Date_parse items L
        /\ (forall b, In b (buffer (room st)) ->
                      geb (t_ms b) (Int (L - 30000)) = true ->
                      In b (buffer (room st')))
        /\ (forall b t, In b (buffer (room st)) -> t_ms b = Int t ->
                        (forall u, In u (valid_times Date_parse items) -> (u < t)%Z) ->
                        In b (buffer (room st'))))
  /\ (exists (st st' : Sys) (items : list json) (L u v : Z)
             (resident stale : BufferedSample),
        handleIngest IsoDate.parse (ingest_request (run42 items)) st
        = (Ok (ok_response 1), st')
        /\ latest_of IsoDate.parse items L
        /\ In resident (buffer (room st)) /\ t_ms resident = Int u /\ (L < u)%Z
        /\ In resident (buffer (room st'))
        /\ In stale (buffer (room st')) /\ t_ms stale = Int v
        /\ (v < u - 30000)%Z).
Proof.
  split.
  - intros Date_parse request st resp st' Hrun Hstatus.
    destruct (handleIngest_success_inv Date_parse request st st' resp Hrun Hstatus)
      as (batch & items & L & Hacc & HL & _ & ->).
    destruct Hacc as (_ & Hb & _ & Hit & _ & _).
    exists batch, items, L. do 3 (split; [assumption|]).
    split; [intros b; apply ingested_keeps_recent|].
    intros b t Hin Ht Hnewer. apply ingested_keeps_recent; [assumption|].
    rewrite Ht. cbn [geb]. destruct HL as [HinL _].
    apply Hnewer in HinL. unfold WINDOW_MS. apply Z.geb_le. lia.
  - exists (mkSys (mkRoom [spread s40000 (Int 40000)] []) (mkRuntime [] [])).
    exists (mkSys (mkRoom [spread s40000 (Int 40000); spread s1000 (Int 1000)] [])
              (mkRuntime [] [])).
    exists [s1000], 1000%Z, 40000%Z, 1000%Z.
    exists (spread s40000 (Int 40000)), (spread s1000 (Int 1000)).
    split; [reflexivity|]. split.
    { split; [now left|]. intros t Ht. vm_compute in Ht.
      destruct Ht as [<-|[]]. lia. }
    cbn [room buffer t_ms spread In].
    split; [now left|]. split; [reflexivity|]. split; [lia|].
    split; [now left|]. split; [right; now left|]. split; [reflexivity|lia].
Qed.

Lemma stale_batch_prunes_less_witness :
  exists batch items L,
    json_body (ingest_request (run42 [s1000])) = Some batch
    /\ iterate (get_opt (Some batch) "samples") = Ok items
    /\ latest_of IsoDate.parse items L
    /\ (forall b, In b (buffer (room busy)) ->
                  geb (t_ms b) (Int (L - 30000)) = true ->
                  In b (buffer (room (snd (handleIngest IsoDate.parse
                                             (ingest_request (run42 [s1000]))
                                             busy)))))
    /\ (forall b t, In b (buffer (room busy)) -> t_ms b = Int t ->
                    (forall u, In u (valid_times IsoDate.parse items) -> (u < t)%Z) ->
                    In b (buffer (room (snd (handleIngest IsoDate.parse
                                               (ingest_request (run42 [s1000]))
                                               busy))))).
Proof.
  apply (proj1 stale_batch_prunes_less IsoDate.parse
           (ingest_request (run42 [s1000])) busy (ok_response 1)
           (snd (handleIngest IsoDate.parse (ingest_request (run42 [s1000])) busy))).
  - reflexivity.
  - reflexivity.
Defined.

(** A delayed batch at 1000 arriving after the sample at 40000: the newer
    sample stays, and the old one is kept next to it. *)
Example delayed_batch_after_scenario :
  map t_ms
    (buffer (room (run IsoDate.parse
                     [Fetch (ingest_request (run42 [s40000]));
                      Fetch (ingest_request (run42 [s1000]))] cold_start)))
  = [Int 40000; Int 1000].
Proof. reflexivity. Qed.

(** ** Request dispatch *)

(** C10: a request whose Upgrade header equals "websocket" up to letter case
    is handled by the viewer subscription whatever its path and method: the
    answer is 101 and the buffer is untouched, even for a POST to /ingest.
    Only a request without such a header reaches the path check, where
    /ingest goes to the ingest handler and anything else is 404.  The case
    the room ignores is the one [toLowerCase] knows: a header that spells
    the word with the Kelvin sign for its [k] is a subscription as well, and
    it is a header equal to "websocket" in neither sense that is certain to
    reach the path check. *)
Theorem upgrade_header_selects_subscribe
    (Date_parse : value -> number) (request : Request) (st : Sys) :
  (forall u,
      header_Upgrade request = Some u -> eq_ignoring_case u "websocket" ->
      fetch Date_parse request st = acceptViewerWebSocket st
      /\ fst (fetch Date_parse request st)
         = Ok (mkResponse NoBody 101 None (Some (List.length (endpoints (net st)))))
      /\ buffer (room (snd (fetch Date_parse request st))) = buffer (room st))
  /\ ((forall u, header_Upgrade request = Some u ->
                 ~ eq_ignoring_js_case u "websocket") ->
      fetch Date_parse request st
      = if String.eqb (pathname request) "/ingest"
        then handleIngest Date_parse request st
        else (Ok (text_response "Not Found" 404), st))
  /\ (forall u,
        header_Upgrade request = Some u -> eq_ignoring_js_case u "websocket" ->
        fetch Date_parse request st = acceptViewerWebSocket st).
Proof.
  split; [|split].
  - intros u Hu Heq. apply eq_ignoring_case_js, wants_websocket_iff in Heq.
    rewrite fetch_unfold, Hu, Heq, acceptViewerWebSocket_spec. auto.
  - intros Hno. rewrite fetch_unfold.
    destruct (wants_websocket (header_Upgrade request)) eqn:Hw; [|reflexivity].
    destruct (header_Upgrade request) as [u|]; [|discriminate Hw].
    apply wants_websocket_iff in Hw. now elim (Hno u eq_refl).
  - intros u Hu Heq. apply wants_websocket_iff in Heq.
    now rewrite fetch_unfold, Hu, Heq.
Qed.

Lemma upgrade_header_selects_subscribe_witness :
  (fetch IsoDate.parse
     (mkRequest "POST" "/ingest" (Some "WebSocket") (Some (run42 [s1000]))) busy
   = acceptViewerWebSocket busy
   /\ fst (fetch IsoDate.parse
             (mkRequest "POST" "/ingest" (Some "WebSocket") (Some (run42 [s1000])))
             busy)
      = Ok (mkResponse NoBody 101 None (Some 4%nat))
   /\ buffer (room (snd (fetch IsoDate.parse
                           (mkRequest "POST" "/ingest" (Some "WebSocket")
                              (Some (run42 [s1000]))) busy)))
      = buffer (room busy))
  /\ fetch IsoDate.parse (ingest_request (run42 [s1000])) busy
     = handleIngest IsoDate.parse (ingest_request (run42 [s1000])) busy
  /\ fetch IsoDate.parse
       (mkRequest "POST" "/ingest" (Some websocket_in_kelvin) (Some (run42 [s1000])))
       busy
     = acceptViewerWebSocket busy.
Proof.
  split; [|split].
  - apply (proj1 (upgrade_header_selects_subscribe IsoDate.parse
                    (mkRequest "POST" "/ingest" (Some "WebSocket")
                       (Some (run42 [s1000]))) busy) "WebSocket" eq_refl).
    apply eq_ignoring_case_by_chars. reflexivity.
  - apply (proj1 (proj2 (upgrade_header_selects_subscribe IsoDate.parse
                           (ingest_request (run42 [s1000])) busy))).
    intros u Hu. discriminate Hu.
  - apply (proj2 (proj2 (upgrade_header_selects_subscribe IsoDate.parse
                           (mkRequest "POST" "/ingest" (Some websocket_in_kelvin)
                              (Some (run42 [s1000]))) busy))
             websocket_in_kelvin eq_refl).
    apply wants_websocket_iff. reflexivity.
Defined.

(** A header that spells the word with the Kelvin sign is not "websocket"
    up to ASCII letter case, and is a subscription all the same. *)
Example kelvin_header_subscribes :
  ~ eq_ignoring_case websocket_in_kelvin "websocket"
  /\ wants_websocket (Some websocket_in_kelvin) = true.
Proof.
  split; [|reflexivity].
  intros H. apply eq_ignoring_case_length in H. discriminate H.
Qed.

(** ** [escapeHtmlTS] *)

Lemma needs_escape_cases (c : ascii) :
  needs_escape c = true ->
  c = "&"%char \/ c = "<"%char \/ c = ">"%char \/ c = dquote \/ c = "'"%char.
Proof.
  unfold needs_escape. rewrite !orb_true_iff, !Ascii.eqb_eq. tauto.
Qed.

Lemma chars_append (a b : string) :
  list_ascii_of_string (String.append a b)
  = list_ascii_of_string a ++ list_ascii_of_string b.
Proof. induction a as [|c a IH]; cbn; congruence. Qed.

Lemma entity_has_no_markup (c x : ascii) :
  needs_escape c = true -> In x (list_ascii_of_string (entity c)) ->
  ~ markup_char x.
Proof.
  intros Hc Hx Hm.
  destruct (needs_escape_cases c Hc) as [-> | [-> | [-> | [-> | ->]]]];
    cbn in Hx;
    repeat (destruct Hx as [<-|Hx];
            [destruct Hm as [H|[H|[H|H]]]; discriminate H|]);
    exact Hx.
Qed.

(** X1: Whatever the input, the output holds none of the characters [<], [>],
    the double quote and the apostrophe. *)
Theorem escapeHtmlTS_output_has_no_markup (str : string) (x : ascii) :
  In x (list_ascii_of_string (escapeHtmlTS str)) -> ~ markup_char x.
Proof.
  induction str as [|c str IH]; cbn [escapeHtmlTS]; [intros []|].
  rewrite chars_append. intros Hx. apply in_app_or in Hx as [Hx|Hx]; [|auto].
  destruct (needs_escape c) eqn:Hc.
  - now apply (entity_has_no_markup c).
  - destruct Hx as [<-|[]]. intros Hm. unfold needs_escape in Hc.
    rewrite !orb_false_iff, !Ascii.eqb_neq in Hc.
    destruct Hm as [H|[H|[H|H]]]; tauto.
Qed.

Lemma escapeHtmlTS_output_has_no_markup_witness :
  ~ markup_char "l".
Proof.
  apply (escapeHtmlTS_output_has_no_markup "<b>" "l").
  cbn. auto.
Defined.

Lemma entity_shape (c : ascii) :
  needs_escape c = true ->
  exists second rest, entity c = String "&" (String second rest).
Proof.
  intros Hc.
  destruct (needs_escape_cases c Hc) as [-> | [-> | [-> | [-> | ->]]]];
    cbn; eexists; eexists; reflexivity.
Qed.

Lemma escape_nonempty (c : ascii) (more : string) :
  escapeHtmlTS (String c more) <> EmptyString.
Proof.
  cbn [escapeHtmlTS]. destruct (needs_escape c) eqn:Hc; [|discriminate].
  destruct (entity_shape c Hc) as (x & r & ->). discriminate.
Qed.

Lemma entity_second_char (c d : ascii) (second : ascii) (r1 r2 : string) :
  needs_escape c = true -> needs_escape d = true ->
  entity c = String "&" (String second r1) ->
  entity d = String "&" (String second r2) ->
  c = d.
Proof.
  intros Hc Hd.
  destruct (needs_escape_cases c Hc) as [-> | [-> | [-> | [-> | ->]]]];
    destruct (needs_escape_cases d Hd) as [-> | [-> | [-> | [-> | ->]]]];
    cbn; intros H1 H2; try reflexivity;
    injection H1 as <- _; discriminate H2.
Qed.

Lemma length_append (a b : string) :
  String.length (String.append a b) = (String.length a + String.length b)%nat.
Proof. induction a as [|c a IH]; cbn; congruence. Qed.

Lemma append_cancel_l (p a b : string) :
  String.append p a = String.append p b -> a = b.
Proof. induction p as [|c p IH]; cbn; [auto|]. intros [= H]. auto. Qed.

(** X2: Distinct inputs have distinct outputs: nothing is lost by escaping. *)
Theorem escapeHtmlTS_injective (a b : string) :
  escapeHtmlTS a = escapeHtmlTS b -> a = b.
Proof.
  revert b. induction a as [|c a IH]; intros [|d b] H.
  - reflexivity.
  - symmetry in H. now apply escape_nonempty in H.
  - now apply escape_nonempty in H.
  - cbn [escapeHtmlTS] in H.
    destruct (needs_escape c) eqn:Hc, (needs_escape d) eqn:Hd.
    + assert (c = d) as <-.
      { destruct (entity_shape c Hc) as (s1 & r1 & G1).
        destruct (entity_shape d Hd) as (s2 & r2 & G2).
        rewrite G1, G2 in H. cbn [String.append] in H.
        injection H as Hs _. subst s2.
        exact (entity_second_char c d s1 r1 r2 Hc Hd G1 G2). }
      apply append_cancel_l in H. f_equal. now apply IH.
    + exfalso. destruct (entity_shape c Hc) as (s1 & r1 & G1).
      rewrite G1 in H. cbn in H. injection H as <- _. discriminate Hd.
    + exfalso. destruct (entity_shape d Hd) as (s2 & r2 & G2).
      rewrite G2 in H. cbn in H. injection H as -> _. discriminate Hc.
    + cbn in H. injection H as -> H. f_equal. now apply IH.
Qed.

Lemma escapeHtmlTS_injective_witness :
  "a<b" = "a<b".
Proof.
  apply (escapeHtmlTS_injective "a<b" "a<b"). reflexivity.
Defined.

(** X3: Escaping works piece by piece, copies a string that has none of the
    five characters unchanged, and never shortens. *)
Theorem escapeHtmlTS_piecewise (a b : string) :
  escapeHtmlTS (String.append a b)
  = String.append (escapeHtmlTS a) (escapeHtmlTS b)
  /\ (forallb (fun c => negb (needs_escape c)) (list_ascii_of_string a) = true ->
      escapeHtmlTS a = a)
  /\ (String.length a <= String.length (escapeHtmlTS a))%nat.
Proof.
  split; [|split].
  - induction a as [|c a IH]; [reflexivity|].
    cbn [String.append escapeHtmlTS]. rewrite IH.
    destruct (needs_escape c); [|reflexivity].
    generalize (entity c). intros e. induction e as [|x e IHe]; cbn; congruence.
  - induction a as [|c a IH]; [reflexivity|]. cbn. intros H.
    apply andb_true_iff in H as [Hc Ha]. apply negb_true_iff in Hc.
    rewrite Hc. cbn. now rewrite IH.
  - induction a as [|c a IH]; [auto|]. cbn [escapeHtmlTS String.length].
    rewrite length_append.
    destruct (needs_escape c) eqn:Hc; [|cbn; lia].
    destruct (needs_escape_cases c Hc) as [-> | [-> | [-> | [-> | ->]]]]; cbn; lia.
Qed.

Lemma escapeHtmlTS_piecewise_witness :
  escapeHtmlTS "run-42" = "run-42".
Proof.
  apply (proj1 (proj2 (escapeHtmlTS_piecewise "run-42" ""))). reflexivity.
Defined.

Example escapeHtmlTS_script_tag :
  escapeHtmlTS "<script>alert('x')&</script>"
  = "&lt;script&gt;alert(&#39;x&#39;)&amp;&lt;/script&gt;".
Proof. reflexivity. Qed.

(** ** The Worker *)

Lemma prefix_inv (p s : string) :
  String.prefix p s = true -> exists t, s = String.append p t.
Proof.
  revert s. induction p as [|a p IH]; intros s H.
  - exists s. reflexivity.
  - destruct s as [|b s]; [discriminate H|]. cbn in H.
    destruct (ascii_dec a b) as [->|]; [|discriminate H].
    destruct (IH s H) as (t & ->). exists t. reflexivity.
Qed.

Lemma bearerOk_iff (request : WorkerRequest) (token : string) :
  bearerOk request token = true
  <-> header_Authorization request = Some (String.append "Bearer " token).
Proof.
  unfold bearerOk. rewrite String.eqb_eq.
  destruct (header_Authorization request) as [a|].
  - destruct (String.eqb a "") eqn:E.
    + apply String.eqb_eq in E. subst a. split; intros H; discriminate H.
    + split; [intros ->; reflexivity|intros [= ->]; reflexivity].
  - split; intros H; discriminate H.
Qed.

Lemma set_room_same (name : string) (st : Sys) (rooms : Rooms) :
  set_room name st rooms name = st.
Proof. unfold set_room. now rewrite String.eqb_refl. Qed.

Lemma set_room_other (name n : string) (st : Sys) (rooms : Rooms) :
  n <> name -> set_room name st rooms n = rooms n.
Proof. unfold set_room. intros H. apply String.eqb_neq in H. now rewrite H. Qed.

Section WorkerFacts.

Variable Date_parse : value -> number.
Variable token : string.

(** Which of the three routes a path takes. *)
Lemma route_telemetry (path : string) :
  String.prefix "/telemetry/" path = true ->
  String.prefix "/__do_test/" path = false /\ String.prefix "/live/" path = false.
Proof. intros H. apply prefix_inv in H as (t & ->). split; reflexivity. Qed.

Lemma route_live (path : string) :
  String.prefix "/live/" path = true ->
  String.prefix "/__do_test/" path = false /\ String.eqb path "/ingest" = false.
Proof. intros H. apply prefix_inv in H as (t & ->). split; reflexivity. Qed.

(** Only the fetch of the addressed room runs, on that room's state. *)
Lemma worker_fetch_rooms (request : WorkerRequest) (rooms : Rooms) :
  snd (worker_fetch Date_parse token request rooms) = rooms
  \/ exists forwarded,
       snd (worker_fetch Date_parse token request rooms)
       = set_room (session_of (pathname (inner request)))
           (snd (fetch Date_parse forwarded
                   (rooms (session_of (pathname (inner request))))))
           rooms.
Proof.
  unfold worker_fetch, stub_fetch.
  destruct (String.prefix "/__do_test/" (pathname (inner request)));
    [right; eexists; reflexivity|].
  destruct (String.prefix "/live/" (pathname (inner request)));
    [right; eexists; reflexivity|].
  destruct (String.prefix "/telemetry/" (pathname (inner request)));
    [|now left].
  destruct (negb (bearerOk request token)); [now left|].
  right; eexists; reflexivity.
Qed.

End WorkerFacts.

(** X4: a request touches no room but the one its path names: the state of
    every other session is exactly what it was. *)
Theorem worker_sessions_are_isolated
    (Date_parse : value -> number) (token : string)
    (request : WorkerRequest) (rooms : Rooms) (name : string) :
  name <> session_of (pathname (inner request)) ->
  snd (worker_fetch Date_parse token request rooms) name = rooms name.
Proof.
  intros Hne.
  destruct (worker_fetch_rooms Date_parse token request rooms)
    as [->|(forwarded & ->)]; [reflexivity|].
  now apply set_room_other.
Qed.

Lemma worker_sessions_are_isolated_witness :
  snd (worker_fetch IsoDate.parse "s3cret"
         (mkWorkerRequest
            (mkRequest "POST" "/telemetry/run-42" None (Some (run42 [s1000])))
            (Some "Bearer s3cret"))
         (set_room "other" busy no_rooms)) "other"
  = busy
  /\ buffer (room (snd (worker_fetch IsoDate.parse "s3cret"
                          (mkWorkerRequest
                             (mkRequest "POST" "/telemetry/run-42" None
                                (Some (run42 [s1000])))
                             (Some "Bearer s3cret"))
                          (set_room "other" busy no_rooms)) "run-42"))
     = [spread s1000 (Int 1000)].
Proof.
  split; [|reflexivity].
  apply (worker_sessions_are_isolated IsoDate.parse "s3cret"
           (mkWorkerRequest
              (mkRequest "POST" "/telemetry/run-42" None (Some (run42 [s1000])))
              (Some "Bearer s3cret"))
           (set_room "other" busy no_rooms) "other").
  cbn. discriminate.
Defined.

(** X5: a telemetry request whose Authorization header is not exactly
    [Bearer <token>] (or is missing) is answered 401 by the Worker itself and
    no room runs. *)
Theorem telemetry_without_bearer_is_refused
    (Date_parse : value -> number) (token : string)
    (request : WorkerRequest) (rooms : Rooms) :
  String.prefix "/telemetry/" (pathname (inner request)) = true ->
  header_Authorization request <> Some (String.append "Bearer " token) ->
  worker_fetch Date_parse token request rooms
  = (Own (text_response "Unauthorized" 401), rooms).
Proof.
  intros Hroute Hauth. unfold worker_fetch.
  destruct (route_telemetry _ Hroute) as [-> ->]. rewrite Hroute.
  destruct (bearerOk request token) eqn:Hb; [|reflexivity].
  apply bearerOk_iff in Hb. contradiction.
Qed.

Lemma telemetry_without_bearer_is_refused_witness :
  worker_fetch IsoDate.parse ""
    (mkWorkerRequest
       (mkRequest "POST" "/telemetry/run-42" None (Some (run42 [s1000]))) None)
    no_rooms
  = (Own (text_response "Unauthorized" 401), no_rooms).
Proof.
  apply (telemetry_without_bearer_is_refused IsoDate.parse ""
           (mkWorkerRequest
              (mkRequest "POST" "/telemetry/run-42" None (Some (run42 [s1000])))
              None)
           no_rooms).
  - reflexivity.
  - discriminate.
Defined.

(** X6: an authorised telemetry request is handed to the room as a POST to
    /ingest without an Upgrade header, whatever method and headers it came
    with: the answer and the new state of the room are those of
    [handleIngest] on its body. *)
Theorem telemetry_is_forwarded_as_post
    (Date_parse : value -> number) (token : string)
    (request : WorkerRequest) (rooms : Rooms) :
  String.prefix "/telemetry/" (pathname (inner request)) = true ->
  header_Authorization request = Some (String.append "Bearer " token) ->
  let sid := session_of (pathname (inner request)) in
  let r := handleIngest Date_parse
             (mkRequest "POST" "/ingest" None (json_body (inner request)))
             (rooms sid) in
  worker_fetch Date_parse token request rooms
  = (FromRoom (fst r), set_room sid (snd r) rooms).
Proof.
  intros Hroute Hauth sid r. unfold worker_fetch, stub_fetch.
  destruct (route_telemetry _ Hroute) as [-> ->]. rewrite Hroute.
  apply bearerOk_iff in Hauth. rewrite Hauth. cbn [negb].
  rewrite fetch_unfold. reflexivity.
Qed.

Lemma telemetry_is_forwarded_as_post_witness :
  worker_fetch IsoDate.parse "s3cret"
    (mkWorkerRequest
       (mkRequest "PUT" "/telemetry/run-42" (Some "websocket")
          (Some (run42 [s1000])))
       (Some "Bearer s3cret"))
    no_rooms
  = (FromRoom (Ok (ok_response 1)),
     set_room "run-42"
       (snd (handleIngest IsoDate.parse (ingest_request (run42 [s1000]))
               cold_start))
       no_rooms).
Proof.
  apply (telemetry_is_forwarded_as_post IsoDate.parse "s3cret"
           (mkWorkerRequest
              (mkRequest "PUT" "/telemetry/run-42" (Some "websocket")
                 (Some (run42 [s1000])))
              (Some "Bearer s3cret"))
           no_rooms); reflexivity.
Defined.

Lemma handleIngest_post_is_never_405
    (Date_parse : value -> number) (body : option json) (st : Sys) :
  fst (handleIngest Date_parse (mkRequest "POST" "/ingest" None body) st)
  <> Ok (text_response "Method Not Allowed" 405).
Proof.
  rewrite handleIngest_unfold. cbn [method json_body negb].
  change (String.eqb "POST" "POST") with true. cbn [negb].
  destruct body as [batch|]; [|discriminate].
  destruct (negb (length_truthy (get_opt (Some batch) "samples")));
    [discriminate|].
  destruct (iterate (get_opt (Some batch) "samples")) as [items|e];
    [|discriminate].
  destruct (parse_loop Date_parse items NegInfinity []) as [[latest nb]|e];
    [|discriminate].
  destruct (Nat.eqb (List.length nb) 0); discriminate.
Qed.

(** X7: behind the Worker the room's 405 is unreachable: whatever the
    request, the answer is never Method Not Allowed. *)
Theorem worker_never_answers_405
    (Date_parse : value -> number) (token : string)
    (request : WorkerRequest) (rooms : Rooms) :
  fst (worker_fetch Date_parse token request rooms)
  <> FromRoom (Ok (text_response "Method Not Allowed" 405)).
Proof.
  unfold worker_fetch, stub_fetch.
  destruct (String.prefix "/__do_test/" (pathname (inner request))).
  { rewrite fetch_unfold. cbn. discriminate. }
  destruct (String.prefix "/live/" (pathname (inner request))) eqn:Hlive.
  { destruct (route_live _ Hlive) as [_ Hpath].
    rewrite fetch_unfold, Hpath.
    destruct (wants_websocket (header_Upgrade (inner request))).
    - rewrite acceptViewerWebSocket_spec. cbn. discriminate.
    - cbn. discriminate. }
  destruct (String.prefix "/telemetry/" (pathname (inner request)));
    [|cbn; discriminate].
  destruct (negb (bearerOk request token)); [cbn; discriminate|].
  rewrite fetch_unfold. cbn [fst wants_websocket header_Upgrade pathname].
  change (String.eqb "/ingest" "/ingest") with true. cbv iota.
  intros [= H]. revert H. apply handleIngest_post_is_never_405.
Qed.

(** X8: no buffer changes without the bearer token: unless the path starts
    with /telemetry/ and the Authorization header is [Bearer <token>], the
    window buffer of every room is what it was, whatever the method, the
    body and the other headers. *)
Theorem buffers_change_only_with_bearer
    (Date_parse : value -> number) (token : string)
    (request : WorkerRequest) (rooms : Rooms) (name : string) :
  String.prefix "/telemetry/" (pathname (inner request)) = false
  \/ header_Authorization request <> Some (String.append "Bearer " token) ->
  buffer (room (snd (worker_fetch Date_parse token request rooms) name))
  = buffer (room (rooms name)).
Proof.
  intros Hno. unfold worker_fetch, stub_fetch.
  assert (Hset : forall sid st,
             buffer (room st) = buffer (room (rooms sid)) ->
             buffer (room (set_room sid st rooms name))
             = buffer (room (rooms name))).
  { intros sid st Hst. unfold set_room.
    destruct (String.eqb name sid) eqn:E; [|reflexivity].
    apply String.eqb_eq in E. now subst. }
  destruct (String.prefix "/__do_test/" (pathname (inner request))).
  { cbn [snd]. apply Hset. rewrite fetch_unfold. reflexivity. }
  destruct (String.prefix "/live/" (pathname (inner request))) eqn:Hlive.
  { cbn [snd]. apply Hset. destruct (route_live _ Hlive) as [_ Hpath].
    rewrite fetch_unfold, Hpath.
    destruct (wants_websocket (header_Upgrade (inner request)));
      [rewrite acceptViewerWebSocket_spec|]; reflexivity. }
  destruct (String.prefix "/telemetry/" (pathname (inner request)));
    [|reflexivity].
  destruct (bearerOk request token) eqn:Hb; [|reflexivity].
  apply bearerOk_iff in Hb. destruct Hno as [Hno|Hno]; [discriminate|contradiction].
Qed.

Lemma buffers_change_only_with_bearer_witness :
  buffer (room (snd (worker_fetch IsoDate.parse "s3cret"
                       (mkWorkerRequest
                          (mkRequest "POST" "/live/run-42" None
                             (Some (run42 [s1000])))
                          (Some "Bearer s3cret"))
                       no_rooms) "run-42"))
  = buffer (room (no_rooms "run-42")).
Proof.
  apply (buffers_change_only_with_bearer IsoDate.parse "s3cret"
           (mkWorkerRequest
              (mkRequest "POST" "/live/run-42" None (Some (run42 [s1000])))
              (Some "Bearer s3cret"))
           no_rooms "run-42").
  left. reflexivity.
Defined.

Lemma split_nonempty (sep : ascii) (s : string) : split sep s <> [].
Proof.
  destruct s as [|c s]; cbn; [discriminate|].
  destruct (split sep s); [discriminate|].
  destruct (Ascii.eqb c sep); discriminate.
Qed.

Lemma split_sep (sep : ascii) (s : string) :
  split sep (String sep s) = EmptyString :: split sep s.
Proof.
  cbn [split]. destruct (split sep s) eqn:E.
  - now apply split_nonempty in E.
  - now rewrite Ascii.eqb_refl.
Qed.

Lemma split_piece (sep : ascii) (a b : string) :
  ~ In sep (list_ascii_of_string a) ->
  split sep (String.append a (String sep b)) = a :: split sep b
  /\ split sep a = [a].
Proof.
  induction a as [|c a IH]; intros Hno.
  - cbn [String.append]. split; [apply split_sep|reflexivity].
  - cbn [list_ascii_of_string In] in Hno.
    assert (Hc : Ascii.eqb c sep = false) by (apply Ascii.eqb_neq; intuition).
    destruct IH as [IH1 IH2]; [intuition|].
    cbn [String.append split]. rewrite IH1, IH2, Hc. auto.
Qed.

(** X9: the room is named by the third piece of the path alone: what follows
    a further slash is ignored, and an empty piece names "demo-session". *)
Theorem session_is_named_by_third_piece (route sid tail : string) :
  ~ In "/"%char (list_ascii_of_string route) ->
  ~ In "/"%char (list_ascii_of_string sid) ->
  let named := if String.eqb sid "" then "demo-session" else sid in
  session_of (String "/" (String.append route (String "/" sid))) = named
  /\ session_of
       (String "/" (String.append route
                      (String "/" (String.append sid (String "/" tail)))))
     = named.
Proof.
  intros Hroute Hsid named. unfold session_of.
  rewrite !split_sep.
  destruct (split_piece "/" route sid Hroute) as [-> _].
  destruct (split_piece "/" route (String.append sid (String "/" tail)) Hroute)
    as [-> _].
  destruct (split_piece "/" sid tail Hsid) as [-> ->].
  split; reflexivity.
Qed.

Lemma session_is_named_by_third_piece_witness :
  session_of "/live/run-42" = "run-42"
  /\ session_of "/live/run-42/anything/else" = "run-42".
Proof.
  apply (session_is_named_by_third_piece "live" "run-42" "anything/else").
  - cbn. intros [H|[H|[H|[H|[]]]]]; discriminate H.
  - cbn. intros [H|[H|[H|[H|[H|[H|[]]]]]]]; discriminate H.
Defined.

Example sessions_of_paths :
  session_of "/live/" = "demo-session"
  /\ session_of "/live" = "demo-session"
  /\ session_of "/telemetry//x" = "demo-session"
  /\ session_of "/telemetry/a%2Fb" = "a%2Fb".
Proof. repeat split; reflexivity. Qed.

(** ** Invariants of the room *)

Lemma has_listeners_update (f : Endpoint -> Endpoint) (eps : list Endpoint)
    (w : list (WebSocket * message)) :
  (forall e, listened (f e) = listened e) ->
  forall i x w',
    has_listeners x (mkRuntime (update_at i f eps) w')
    = has_listeners x (mkRuntime eps w).
Proof.
  intros Hf. unfold has_listeners. cbn [endpoints].
  induction eps as [|e eps IH]; intros i x w'.
  - destruct i; reflexivity.
  - destruct i as [|i], x as [|x]; cbn [update_at nth_error]; auto.
Qed.

Lemma has_listeners_bound (x : WebSocket) (rt : Runtime) :
  has_listeners x rt = true -> (x < List.length (endpoints rt))%nat.
Proof.
  unfold has_listeners. intros H. apply nth_error_Some.
  destruct (nth_error (endpoints rt) x); [discriminate|discriminate H].
Qed.

Lemma has_listeners_grow (x : WebSocket) (eps more : list Endpoint)
    (w w' : list (WebSocket * message)) :
  has_listeners x (mkRuntime eps w) = true ->
  has_listeners x (mkRuntime (eps ++ more) w') = true.
Proof.
  intros H. pose proof (has_listeners_bound _ _ H) as Hlt.
  unfold has_listeners in *. cbn [endpoints] in *.
  now rewrite nth_error_app1.
Qed.

Section RoomInvariants.

Variable Date_parse : value -> number.

(** The three things a fetch can do to the system. *)
Lemma fetch_state (request : Request) (st : Sys) :
  snd (fetch Date_parse request st) = st
  \/ snd (fetch Date_parse request st)
     = mkSys
         (mkRoom (buffer (room st))
            (set_add (S (List.length (endpoints (net st)))) (sockets (room st))))
         (mkRuntime
            (endpoints (net st) ++ [mkEndpoint OPEN false; mkEndpoint OPEN true])
            (wire (net st)
             ++ [(S (List.length (endpoints (net st))),
                  Replay WINDOW_MS (map strip (buffer (room st))))]))
  \/ (exists batch items L resp,
        accepted Date_parse request batch items
        /\ latest_of Date_parse items L
        /\ fetch Date_parse request st = (Ok resp, ingested Date_parse batch items L st)
        /\ status resp = 200%Z).
Proof.
  rewrite fetch_unfold.
  destruct (wants_websocket (header_Upgrade request)).
  - right; left. now rewrite acceptViewerWebSocket_spec.
  - destruct (String.eqb (pathname request) "/ingest"); [|now left].
    destruct (handleIngest_rejects_or_accepts Date_parse request st)
      as [(batch & items & Hacc)|[Hst _]]; [|now left].
    right; right.
    destruct (handleIngest_accepted Date_parse request batch items st Hacc)
      as (L & HL & Heq).
    exists batch, items, L. eexists. rewrite Heq. auto.
Qed.

Lemma newly_buffered_finite (items : list json) (b : BufferedSample) :
  In b (newly_buffered Date_parse items) -> exists t, t_ms b = Int t.
Proof.
  unfold newly_buffered, valid_samples. intros H.
  apply in_map_iff in H as (s & <- & Hs). apply filter_In in Hs as [_ Hs].
  cbn [spread t_ms]. destruct (parsed_time Date_parse s); try discriminate Hs.
  eauto.
Qed.

Lemma signal_listeners (ev : event) (st : Sys) (x : WebSocket) :
  (forall request, ev <> Fetch request) ->
  has_listeners x (net (snd (dispatch Date_parse ev st)))
  = has_listeners x (net st).
Proof.
  intros Hev. destruct ev as [request|ws|ws|ws data|ws];
    [now elim (Hev request)| | | |].
  - cbv beta iota delta [dispatch bind mark_closed modify_net when_listened gets
      on_close sockets_delete modify_room ret].
    cbn [room net].
    match goal with |- context [if ?c then _ else _] => destruct c end;
      cbn [snd net]; destruct (net st) as [eps w];
      now apply has_listeners_update.
  - cbv beta iota delta [dispatch bind when_listened gets on_error sockets_delete
      modify_room try_ignore ws_close ret].
    destruct (has_listeners ws (net st)); [|reflexivity].
    cbn [room net].
    destruct (ready_of ws (net st)) as [[|]|]; cbn [snd net]; try reflexivity.
    destruct (net st) as [eps w]. now apply has_listeners_update.
  - cbv beta iota delta [dispatch bind when_listened gets on_message ret].
    destruct (has_listeners ws (net st)); reflexivity.
  - cbn. destruct (net st) as [eps w]. now apply has_listeners_update.
Qed.

Lemma set_delete_NoDup (ws : WebSocket) (s : list WebSocket) :
  NoDup s -> NoDup (set_delete ws s).
Proof. apply NoDup_filter. Qed.

Lemma set_delete_In (ws x : WebSocket) (s : list WebSocket) :
  In x (set_delete ws s) <-> In x s /\ x <> ws.
Proof.
  unfold set_delete. rewrite filter_In, negb_true_iff, Nat.eqb_neq.
  intuition congruence.
Qed.

Lemma dispatch_well_formed (ev : event) (st : Sys) :
  well_formed st -> well_formed (snd (dispatch Date_parse ev st)).
Proof.
  intros (Hnd & Hls & Hfin).
  destruct ev as [request|ws|ws|ws data|ws].
  - rewrite dispatch_fetch.
    destruct (fetch_state request st)
      as [->|[->|(batch & items & L & resp & _ & _ & -> & _)]].
    + repeat split; assumption.
    + assert (Hfresh : ~ In (S (List.length (endpoints (net st))))
                         (sockets (room st))).
      { intros Hin. apply Hls, has_listeners_bound in Hin. lia. }
      unfold set_add, set_has.
      destruct (existsb (Nat.eqb (S (List.length (endpoints (net st)))))
                  (sockets (room st))) eqn:E.
      { apply existsb_exists in E as (y & Hy & Heq).
        apply Nat.eqb_eq in Heq. subst y. contradiction. }
      cbn [room net sockets buffer]. repeat split.
      * apply NoDup_app; [assumption|repeat constructor; intros []|].
        intros y Hy [<-|[]]. contradiction.
      * intros y Hy. apply in_app_or in Hy as [Hy|[<-|[]]].
        -- destruct (net st) as [eps w]. eapply has_listeners_grow. now apply Hls.
        -- unfold has_listeners. cbn [net endpoints].
           now rewrite nth_error_past_end.
      * assumption.
    + cbn [snd ingested room net sockets buffer]. repeat split.
      * assumption.
      * intros y Hy. exact (Hls y Hy).
      * intros b Hb. apply filter_In in Hb as [Hb _].
        apply in_app_or in Hb as [Hb|Hb]; [auto|].
        now apply newly_buffered_finite in Hb.
  - destruct (dispatch_close_room Date_parse ws st) as [Hb Hs].
    unfold well_formed. rewrite Hb. repeat split; [| |assumption].
    + destruct Hs as [-> | ->]; [assumption|now apply set_delete_NoDup].
    + intros y Hy. rewrite signal_listeners by discriminate.
      apply Hls. destruct Hs as [Hs|Hs]; rewrite Hs in Hy; [assumption|].
      now apply set_delete_In in Hy.
  - destruct (dispatch_error_room Date_parse ws st) as [Hb Hs].
    unfold well_formed. rewrite Hb. repeat split; [| |assumption].
    + destruct Hs as [-> | ->]; [assumption|now apply set_delete_NoDup].
    + intros y Hy. rewrite signal_listeners by discriminate.
      apply Hls. destruct Hs as [Hs|Hs]; rewrite Hs in Hy; [assumption|].
      now apply set_delete_In in Hy.
  - unfold well_formed.
    rewrite dispatch_quiet_room by (left; eauto). repeat split; try assumption.
    intros y Hy. rewrite signal_listeners by discriminate. now apply Hls.
  - unfold well_formed.
    rewrite dispatch_quiet_room by (right; eauto). repeat split; try assumption.
    intros y Hy. rewrite signal_listeners by discriminate. now apply Hls.
Qed.

End RoomInvariants.

(** X10: well-formedness survives every sequence of requests, socket signals
    and transport losses, and a cold room is well formed: in every reachable
    state no socket is registered twice, every registered socket is an end
    the room listens on, and every buffered sample has a finite time. *)
Theorem reachable_rooms_are_well_formed
    (Date_parse : value -> number) (evs : list event) :
  (forall st, well_formed st -> well_formed (run Date_parse evs st))
  /\ well_formed (run Date_parse evs cold_start).
Proof.
  assert (H : forall st, well_formed st -> well_formed (run Date_parse evs st)).
  { induction evs as [|ev evs IH]; intros st H; [exact H|].
    cbn [run]. apply IH. now apply dispatch_well_formed. }
  split; [exact H|]. apply H.
  repeat split; [constructor|intros ws []|intros b []].
Qed.

Lemma reachable_rooms_are_well_formed_witness :
  well_formed (run IsoDate.parse [CloseEvent 1%nat; ErrorEvent 3%nat] busy).
Proof.
  apply (proj1 (reachable_rooms_are_well_formed IsoDate.parse
                  [CloseEvent 1%nat; ErrorEvent 3%nat]) busy).
  repeat split.
  - repeat constructor; cbn; intuition discriminate.
  - intros ws [<-|[<-|[]]]; reflexivity.
  - intros b [<-|[]]. eexists. reflexivity.
Defined.

Lemma frames_for_deliveries (msg : message) (p : WebSocket -> bool)
    (ws : WebSocket) (l : list WebSocket) :
  NoDup l ->
  frames_for ws (map (fun x => (x, msg)) (filter p l))
  = if set_has ws l && p ws then [msg] else [].
Proof.
  unfold frames_for, set_has.
  induction 1 as [|a l Ha _ IH]; [reflexivity|].
  cbn [filter existsb].
  destruct (Nat.eqb ws a) eqn:E.
  - apply Nat.eqb_eq in E. subst a.
    assert (Hno : existsb (Nat.eqb ws) l = false).
    { destruct (existsb (Nat.eqb ws) l) eqn:E'; [|reflexivity].
      apply existsb_exists in E' as (y & Hy & Heq).
      apply Nat.eqb_eq in Heq. subst y. contradiction. }
    rewrite Hno in IH. cbn [andb orb] in *.
    destruct (p ws); [|exact IH].
    cbn [map filter fst]. rewrite Nat.eqb_refl. cbn [map snd]. now rewrite IH.
  - cbn [orb]. destruct (p a); [|exact IH].
    cbn [map filter fst]. rewrite Nat.eqb_sym, E. exact IH.
Qed.

(** X11: in a well-formed room a successful ingest puts its live update on
    the wire exactly once for every registered socket that accepts a send,
    and nothing for any other socket; the live update is the message of
    type samples with the identifiers of the ingested batch and, in batch
    order, the samples of the batch whose time is finite, each without a
    [t_ms] property. *)
Theorem live_update_is_delivered_once
    (Date_parse : value -> number) (request : Request) (st st' : Sys)
    (resp : Response) (ws : WebSocket) :
  well_formed st ->
  handleIngest Date_parse request st = (Ok resp, st') ->
  status resp = 200%Z ->
  exists batch items,
    json_body request = Some batch
    /\ iterate (get_opt (Some batch) "samples") = Ok items
    /\ let msg :=
         Samples (get_opt (Some batch) "session_id")
           (get_opt (Some batch) "device_id")
           (map (fun s => JObj (remove_key "t_ms" (own_props s)))
              (valid_samples Date_parse items)) in
       wire (net st') = wire (net st) ++ deliveries st msg
       /\ frames_for ws (deliveries st msg)
          = (if set_has ws (sockets (room st)) && deliverable (net st) ws
             then [msg] else [])
       /\ frames_for ws (wire (net st'))
          = frames_for ws (wire (net st))
            ++ (if set_has ws (sockets (room st)) && deliverable (net st) ws
                then [msg] else []).
Proof.
  intros (Hnd & _ & _) Hrun Hstatus.
  destruct (handleIngest_success_inv Date_parse request st st' resp Hrun Hstatus)
    as (batch & items & L & Hacc & _ & _ & ->).
  destruct Hacc as (_ & Hb & _ & Hit & _ & _).
  exists batch, items. split; [exact Hb|]. split; [exact Hit|].
  intros msg.
  assert (Hwire : wire (net (ingested Date_parse batch items L st))
                  = wire (net st) ++ deliveries st msg).
  { cbn [ingested net wire]. unfold msg, newly_buffered.
    now rewrite map_map. }
  assert (Hframes : frames_for ws (deliveries st msg)
                    = (if set_has ws (sockets (room st)) && deliverable (net st) ws
                       then [msg] else [])).
  { unfold deliveries. now apply frames_for_deliveries. }
  split; [exact Hwire|]. split; [exact Hframes|].
  rewrite Hwire. unfold frames_for at 1 2.
  rewrite filter_app, map_app. f_equal. exact Hframes.
Qed.

Lemma live_update_is_delivered_once_witness :
  exists batch items,
    json_body (ingest_request (run42 [s1000; s_unparsable])) = Some batch
    /\ iterate (get_opt (Some batch) "samples") = Ok items
    /\ let msg :=
         Samples (get_opt (Some batch) "session_id")
           (get_opt (Some batch) "device_id")
           (map (fun s => JObj (remove_key "t_ms" (own_props s)))
              (valid_samples IsoDate.parse items)) in
       wire (net (snd (handleIngest IsoDate.parse
                         (ingest_request (run42 [s1000; s_unparsable])) busy)))
       = wire (net busy) ++ deliveries busy msg
       /\ frames_for 3%nat (deliveries busy msg)
          = (if set_has 3%nat (sockets (room busy)) && deliverable (net busy) 3%nat
             then [msg] else [])
       /\ frames_for 3%nat
            (wire (net (snd (handleIngest IsoDate.parse
                               (ingest_request (run42 [s1000; s_unparsable]))
                               busy))))
          = frames_for 3%nat (wire (net busy))
            ++ (if set_has 3%nat (sockets (room busy))
                   && deliverable (net busy) 3%nat
                then [msg] else []).
Proof.
  apply (live_update_is_delivered_once IsoDate.parse
           (ingest_request (run42 [s1000; s_unparsable])) busy
           (snd (handleIngest IsoDate.parse
                   (ingest_request (run42 [s1000; s_unparsable])) busy))
           (ok_response 1) 3%nat).
  - repeat split.
    + repeat constructor; cbn; intuition discriminate.
    + intros ws [<-|[<-|[]]]; reflexivity.
    + intros b [<-|[]]. eexists. reflexivity.
  - reflexivity.
  - reflexivity.
Defined.

(** In the busy room the live update of a batch with one parsable sample
    reaches the second viewer once, with that sample alone. *)
Example frames_per_viewer_on_busy_room :
  frames_for 3%nat
    (wire (net (snd (handleIngest IsoDate.parse
                       (ingest_request (run42 [s1000; s_unparsable])) busy))))
  = [Replay 30000 [];
     Samples (Some (JStr "run-42")) (Some (JStr "imu-7")) [s1000]]
  /\ frames_for 1%nat
       (wire (net (snd (handleIngest IsoDate.parse
                          (ingest_request (run42 [s1000; s_unparsable])) busy))))
     = [Replay 30000 []].
Proof. split; reflexivity. Qed.

Section Signals.

Variable Date_parse : value -> number.

Lemma dispatch_close_sockets (ws : WebSocket) (st : Sys) :
  room (snd (dispatch Date_parse (CloseEvent ws) st))
  = if has_listeners ws (net st)
    then mkRoom (buffer (room st)) (set_delete ws (sockets (room st)))
    else room st.
Proof.
  cbv beta iota delta [dispatch bind mark_closed modify_net when_listened gets
    on_close sockets_delete modify_room ret].
  cbn [room net].
  replace (has_listeners ws
             (mkRuntime
                (update_at ws (fun e => mkEndpoint CLOSED (listened e))
                   (endpoints (net st)))
                (wire (net st))))
    with (has_listeners ws (net st)).
  - destruct (has_listeners ws (net st)); reflexivity.
  - destruct (net st) as [eps w]. symmetry. now apply has_listeners_update.
Qed.

Lemma dispatch_error_sockets (ws : WebSocket) (st : Sys) :
  room (snd (dispatch Date_parse (ErrorEvent ws) st))
  = if has_listeners ws (net st)
    then mkRoom (buffer (room st)) (set_delete ws (sockets (room st)))
    else room st.
Proof.
  cbv beta iota delta [dispatch bind when_listened gets on_error sockets_delete
    modify_room try_ignore ws_close ret].
  destruct (has_listeners ws (net st)); [|reflexivity].
  cbn [room net].
  destruct (ready_of ws (net st)) as [[|]|]; reflexivity.
Qed.

Lemma set_delete_twice (ws : WebSocket) (s : list WebSocket) :
  set_delete ws (set_delete ws s) = set_delete ws s.
Proof.
  unfold set_delete. induction s as [|a s IH]; [reflexivity|].
  cbn [filter]. destruct (negb (Nat.eqb ws a)) eqn:E; [|exact IH].
  cbn [filter]. now rewrite E, IH.
Qed.

Lemma signal_unregisters (ev : event) (ws : WebSocket) (st : Sys) :
  ev = CloseEvent ws \/ ev = ErrorEvent ws ->
  room (snd (dispatch Date_parse ev st))
  = (if has_listeners ws (net st)
     then mkRoom (buffer (room st)) (set_delete ws (sockets (room st)))
     else room st).
Proof.
  intros [-> | ->]; [apply dispatch_close_sockets|apply dispatch_error_sockets].
Qed.

End Signals.

(** X12: the close or error signal of a registered socket of a well-formed
    room removes that socket and no other, leaves the buffer alone, and
    later broadcasts address it no more; delivering the same signal again
    changes nothing in the room. *)
Theorem signal_unregisters_exactly_its_socket
    (Date_parse : value -> number) (ev : event) (ws : WebSocket) (st : Sys) :
  well_formed st ->
  In ws (sockets (room st)) ->
  ev = CloseEvent ws \/ ev = ErrorEvent ws ->
  let st' := snd (dispatch Date_parse ev st) in
  room st' = mkRoom (buffer (room st)) (set_delete ws (sockets (room st)))
  /\ ~ In ws (sockets (room st'))
  /\ (forall x, x <> ws -> In x (sockets (room st)) -> In x (sockets (room st')))
  /\ (forall msg, frames_for ws (deliveries st' msg) = [])
  /\ room (snd (dispatch Date_parse ev st')) = room st'.
Proof.
  intros Hwf Hin Hev st'.
  pose proof (dispatch_well_formed Date_parse ev st Hwf) as Hrun.
  fold st' in Hrun.
  destruct Hwf as (Hnd & Hls & _).
  assert (Hroom : room st'
                  = mkRoom (buffer (room st)) (set_delete ws (sockets (room st)))).
  { unfold st'. rewrite (signal_unregisters Date_parse ev ws st Hev).
    now rewrite (Hls ws Hin). }
  assert (Hgone : ~ In ws (sockets (room st'))).
  { rewrite Hroom. cbn [sockets]. rewrite set_delete_In. tauto. }
  split; [exact Hroom|]. split; [exact Hgone|]. split; [|split].
  - intros x Hx Hxin. rewrite Hroom. cbn [sockets]. now apply set_delete_In.
  - intros msg. unfold deliveries.
    rewrite frames_for_deliveries by apply Hrun.
    replace (set_has ws (sockets (room st'))) with false; [reflexivity|].
    symmetry. unfold set_has.
    destruct (existsb (Nat.eqb ws) (sockets (room st'))) eqn:E; [|reflexivity].
    apply existsb_exists in E as (y & Hy & Heq).
    apply Nat.eqb_eq in Heq. subst y. contradiction.
  - rewrite (signal_unregisters Date_parse ev ws st' Hev).
    destruct (has_listeners ws (net st')); [|reflexivity].
    rewrite Hroom. cbn [buffer sockets]. now rewrite set_delete_twice.
Qed.

Lemma signal_unregisters_exactly_its_socket_witness :
  room (snd (dispatch IsoDate.parse (ErrorEvent 3%nat) busy))
  = mkRoom (buffer (room busy)) (set_delete 3%nat (sockets (room busy))).
Proof.
  apply (signal_unregisters_exactly_its_socket IsoDate.parse
           (ErrorEvent 3%nat) 3%nat busy).
  - repeat split.
    + repeat constructor; cbn; intuition discriminate.
    + intros ws [<-|[<-|[]]]; reflexivity.
    + intros b [<-|[]]. eexists. reflexivity.
  - cbn. auto.
  - now right.
Defined.

(** X13: the buffer is changed by nothing but an ingest that is answered 200:
    a subscription, a socket signal, a transport loss, a rejected ingest and
    an ingest that throws all leave it as it is; there is no expiry between
    ingests. *)
Theorem buffer_changes_only_on_successful_ingest
    (Date_parse : value -> number) (ev : event) (st : Sys) :
  buffer (room (snd (dispatch Date_parse ev st))) = buffer (room st)
  \/ exists request resp,
       ev = Fetch request
       /\ method request = "POST"
       /\ fst (dispatch Date_parse ev st) = Ok (Some resp)
       /\ status resp = 200%Z.
Proof.
  destruct ev as [request|ws|ws|ws data|ws].
  - destruct (fetch_state Date_parse request st)
      as [H|[H|(batch & items & L & resp & Hacc & _ & Heq & Hst)]].
    + left. now rewrite dispatch_fetch, H.
    + left. now rewrite dispatch_fetch, H.
    + right. exists request, resp. split; [reflexivity|].
      split; [apply Hacc|]. split; [|exact Hst].
      cbn [dispatch]. unfold bind. now rewrite Heq.
  - left. apply dispatch_close_room.
  - left. apply dispatch_error_room.
  - left. rewrite dispatch_quiet_room; [reflexivity|left; eauto].
  - left. rewrite dispatch_quiet_room; [reflexivity|right; eauto].
Qed.

Lemma parse_loop_null (Date_parse : value -> number) (items : list json) :
  In JNull items ->
  forall latest acc,
    exists what,
      parse_loop Date_parse items latest acc = Thrown (TypeError what)
      /\ (Forall (fun s => s = JNull \/ readable s = true) items ->
          what = "Cannot read properties of null").
Proof.
  induction items as [|s items IH]; intros Hin latest acc; [now elim Hin|].
  cbn [parse_loop]. destruct (readable s) eqn:Hs.
  - destruct (readable_get Date_parse s Hs) as (v & Hget & Hv). rewrite Hget, Hv.
    destruct Hin as [->|Hin]; [discriminate Hs|].
    assert (Hstep : forall l a,
               exists what,
                 parse_loop Date_parse items l a = Thrown (TypeError what)
                 /\ (Forall (fun s => s = JNull \/ readable s = true) (s :: items) ->
                     what = "Cannot read properties of null")).
    { intros l a. destruct (IH Hin l a) as (what & Hthrow & Hwhat).
      exists what. split; [exact Hthrow|].
      intros HF. apply Forall_cons_iff in HF as [_ HF]. auto. }
    destruct (negb (Number_isFinite (parsed_time Date_parse s))); apply Hstep.
  - destruct (unreadable_get Date_parse s Hs)
      as [_ (what & [[Hget Hnull]|(v & Hget & Hcall & Hnn)])];
      exists what; rewrite Hget; [|rewrite Hcall];
      (split; [reflexivity|]); intros HF;
      apply Forall_cons_iff in HF as [[->|Hr] _]; auto; congruence.
Qed.

(** X14: one [null] entry in the samples array makes the whole ingest throw
    a TypeError: no response is produced, and nothing is appended, pruned or
    broadcast, even when the other samples are valid.  The error is the one
    of reading a property of [null] when every other sample can be read. *)
Theorem null_sample_poisons_the_batch
    (Date_parse : value -> number) (request : Request) (batch : json)
    (items : list json) (st : Sys) :
  method request = "POST" ->
  json_body request = Some batch ->
  get_opt (Some batch) "samples" = Some (JArr items) ->
  In JNull items ->
  (exists what,
      handleIngest Date_parse request st = (Thrown (TypeError what), st))
  /\ (Forall (fun s => s = JNull \/ readable s = true) items ->
      handleIngest Date_parse request st
      = (Thrown (TypeError "Cannot read properties of null"), st)).
Proof.
  intros Hm Hb Hs Hnull.
  rewrite handleIngest_unfold, Hm, String.eqb_refl, Hb, Hs.
  cbn [negb length_truthy iterate].
  destruct items as [|s0 more] eqn:E; [now elim Hnull|].
  cbn [List.length Nat.eqb negb]. rewrite <- E in *.
  destruct (parse_loop_null Date_parse items Hnull NegInfinity [])
    as (what & -> & Hwhat).
  split; [now exists what|]. intros HF. now rewrite (Hwhat HF).
Qed.

Lemma null_sample_poisons_the_batch_witness :
  handleIngest IsoDate.parse (ingest_request (run42 [s1000; JNull; s2000])) busy
  = (Thrown (TypeError "Cannot read properties of null"), busy).
Proof.
  apply (null_sample_poisons_the_batch IsoDate.parse
           (ingest_request (run42 [s1000; JNull; s2000]))
           (run42 [s1000; JNull; s2000]) [s1000; JNull; s2000] busy);
    try reflexivity.
  - cbn. auto.
  - constructor; [right; reflexivity|].
    constructor; [left; reflexivity|].
    constructor; [right; reflexivity|constructor].
Defined.

(** X15: when no resident sample is newer than the batch's latest timestamp
    [L], every sample left after the ingest has its time in
    [L - 30000, L]: for batches arriving in order the buffer never spans
    more than the window. *)
Theorem in_order_ingest_keeps_a_true_window
    (Date_parse : value -> number) (request : Request) (st st' : Sys)
    (resp : Response) :
  handleIngest Date_parse request st = (Ok resp, st') ->
  status resp = 200%Z ->
  exists batch items L,
    json_body request = Some batch
    /\ iterate (get_opt (Some batch) "samples") = Ok items
    /\ latest_of Date_parse items L
    /\ ((forall b, In b (buffer (room st)) ->
                   exists t, t_ms b = Int t /\ (t <= L)%Z) ->
        forall b, In b (buffer (room st')) ->
                  exists t, t_ms b = Int t /\ (L - 30000 <= t <= L)%Z).
Proof.
  intros Hrun Hstatus.
  destruct (handleIngest_success_inv Date_parse request st st' resp Hrun Hstatus)
    as (batch & items & L & Hacc & HL & _ & ->).
  destruct Hacc as (_ & Hb & _ & Hit & _ & _).
  exists batch, items, L. do 3 (split; [assumption|]).
  intros Hres b Hin. cbn [ingested room buffer] in Hin.
  apply filter_In in Hin as [Hin Hge].
  assert (Ht : exists t, t_ms b = Int t /\ (t <= L)%Z).
  { apply in_app_or in Hin as [Hin|Hin]; [auto|].
    unfold newly_buffered in Hin. apply in_map_iff in Hin as (s & <- & Hs).
    pose proof Hs as Hfin. unfold valid_samples in Hfin.
    apply filter_In in Hfin as [_ Hfin]. cbn [spread t_ms].
    destruct (parsed_time Date_parse s) as [| | |t] eqn:Et; try discriminate Hfin.
    exists t. split; [reflexivity|]. apply HL.
    apply valid_times_of_valid_samples. eauto. }
  destruct Ht as (t & Ht & Hle). exists t. split; [exact Ht|].
  rewrite Ht in Hge. cbn [geb] in Hge. apply Z.geb_le in Hge.
  unfold WINDOW_MS in Hge. lia.
Qed.

Lemma in_order_ingest_keeps_a_true_window_witness :
  exists batch items L,
    json_body (ingest_request (run42 [s40000])) = Some batch
    /\ iterate (get_opt (Some batch) "samples") = Ok items
    /\ latest_of IsoDate.parse items L
    /\ ((forall b, In b (buffer (room busy)) ->
                   exists t, t_ms b = Int t /\ (t <= L)%Z) ->
        forall b,
          In b (buffer (room (snd (handleIngest IsoDate.parse
                                     (ingest_request (run42 [s40000])) busy)))) ->
          exists t, t_ms b = Int t /\ (L - 30000 <= t <= L)%Z).
Proof.
  apply (in_order_ingest_keeps_a_true_window IsoDate.parse
           (ingest_request (run42 [s40000])) busy
           (snd (handleIngest IsoDate.parse (ingest_request (run42 [s40000])) busy))
           (ok_response 1)); reflexivity.
Defined.

Lemma filter_map_commute {A B : Type} (p : B -> bool) (f : A -> B) (l : list A) :
  filter p (map f l) = map f (filter (fun a => p (f a)) l).
Proof.
  induction l as [|a l IH]; [reflexivity|]. cbn [map filter].
  destruct (p (f a)); cbn [map]; now rewrite IH.
Qed.

Lemma strip_kept_samples (Date_parse : value -> number) (cutoff : number)
    (l : list json) :
  (forall s, In s l -> is_sample s = true) ->
  map strip
    (filter (fun b => geb (t_ms b) cutoff)
       (map (fun s => spread s (parsed_time Date_parse s)) l))
  = filter (fun s => geb (parsed_time Date_parse s) cutoff) l.
Proof.
  intros Hl. rewrite filter_map_commute, map_map. cbn [spread t_ms].
  induction l as [|s l IH]; [reflexivity|].
  cbn [filter].
  destruct (geb (parsed_time Date_parse s) cutoff).
  - cbn [map]. f_equal.
    + apply strip_spread_sample, Hl. now left.
    + apply IH. intros x Hx. apply Hl. now right.
  - apply IH. intros x Hx. apply Hl. now right.
Qed.

(** X16: ingest and subscribe compose: after a batch of the declared wire
    type is ingested into an empty buffer, the next viewer to subscribe is
    replayed the samples of that batch whose time is finite and at least the
    batch's latest minus 30000, as they were received and in batch order. *)
Theorem replay_after_first_ingest
    (Date_parse : value -> number) (request upgrade : Request)
    (batch : json) (items : list json) (st : Sys) :
  buffer (room st) = [] ->
  is_TelemetryBatch batch = true ->
  accepted Date_parse request batch items ->
  wants_websocket (header_Upgrade upgrade) = true ->
  exists L,
    latest_of Date_parse items L
    /\ let st1 := snd (handleIngest Date_parse request st) in
       wire (net (snd (fetch Date_parse upgrade st1)))
       = wire (net st1)
         ++ [(S (List.length (endpoints (net st1))),
              Replay 30000
                (filter (fun s => geb (parsed_time Date_parse s) (Int (L - 30000)))
                   (valid_samples Date_parse items)))].
Proof.
  intros Hempty Htyped Hacc Hup.
  destruct (handleIngest_accepted Date_parse request batch items st Hacc)
    as (L & HL & Heq).
  exists L. split; [exact HL|]. intros st1. unfold st1. rewrite Heq.
  rewrite fetch_unfold, Hup, acceptViewerWebSocket_spec.
  cbn [snd ingested net wire room buffer endpoints]. rewrite Hempty.
  cbn [app]. unfold newly_buffered.
  rewrite (strip_kept_samples Date_parse (Int (L - WINDOW_MS))); [reflexivity|].
  pose proof (batch_samples_typed batch items Htyped
                (proj1 (proj2 (proj2 (proj2 Hacc))))) as Hall.
  rewrite forallb_forall in Hall.
  intros s Hs. apply Hall. unfold valid_samples in Hs.
  now apply filter_In in Hs.
Qed.

Lemma replay_after_first_ingest_witness :
  exists L,
    latest_of IsoDate.parse [s1000; s_unparsable; s40000] L
    /\ let st1 := snd (handleIngest IsoDate.parse
                         (ingest_request (run42 [s1000; s_unparsable; s40000]))
                         cold_start) in
       wire (net (snd (fetch IsoDate.parse
                         (mkRequest "GET" "/" (Some "websocket") None) st1)))
       = wire (net st1)
         ++ [(S (List.length (endpoints (net st1))),
              Replay 30000
                (filter (fun s => geb (parsed_time IsoDate.parse s) (Int (L - 30000)))
                   (valid_samples IsoDate.parse [s1000; s_unparsable; s40000])))].
Proof.
  apply (replay_after_first_ingest IsoDate.parse
           (ingest_request (run42 [s1000; s_unparsable; s40000]))
           (mkRequest "GET" "/" (Some "websocket") None)
           (run42 [s1000; s_unparsable; s40000])
           [s1000; s_unparsable; s40000] cold_start); try reflexivity.
  repeat split; try reflexivity.
  - repeat constructor; discriminate.
  - discriminate.
Defined.

(** ** The viewer's script *)

Lemma insert_sample_perm (x : ViewerSample) (l : list ViewerSample) :
  Permutation (insert_sample x l) (x :: l).
Proof.
  induction l as [|y l IH]; cbn [insert_sample]; [reflexivity|].
  destruct (v_t_ms x <=? v_t_ms y)%Z; [reflexivity|].
  rewrite IH. apply perm_swap.
Qed.

Lemma sort_by_time_perm (l : list ViewerSample) :
  Permutation (sort_by_time l) l.
Proof.
  induction l as [|x l IH]; [reflexivity|].
  cbn [sort_by_time fold_right]. fold (sort_by_time l).
  rewrite insert_sample_perm. now constructor.
Qed.

Lemma insert_sample_sorted (x : ViewerSample) (l : list ViewerSample) :
  Sorted time_le l -> Sorted time_le (insert_sample x l).
Proof.
  induction 1 as [|y l Hs IH Hhd]; cbn [insert_sample]; [repeat constructor|].
  destruct (v_t_ms x <=? v_t_ms y)%Z eqn:E.
  - apply Z.leb_le in E. repeat constructor; assumption.
  - apply Z.leb_gt in E. constructor; [exact IH|].
    destruct l as [|z l]; cbn [insert_sample].
    + constructor. unfold time_le. lia.
    + destruct (v_t_ms x <=? v_t_ms z)%Z; constructor.
      * unfold time_le. lia.
      * now inversion Hhd.
Qed.

Lemma sort_by_time_sorted (l : list ViewerSample) :
  Sorted time_le (sort_by_time l).
Proof.
  induction l as [|x l IH]; [constructor|].
  cbn [sort_by_time fold_right]. now apply insert_sample_sorted.
Qed.

(** Samples of equal time keep their order. *)
Lemma sort_by_time_stable (t : Z) (l : list ViewerSample) :
  filter (fun s => Z.eqb (v_t_ms s) t) (sort_by_time l)
  = filter (fun s => Z.eqb (v_t_ms s) t) l.
Proof.
  assert (Hins : forall x l,
             filter (fun s => Z.eqb (v_t_ms s) t) (insert_sample x l)
             = filter (fun s => Z.eqb (v_t_ms s) t) (x :: l)).
  { intros x l0. induction l0 as [|y l0 IH]; [reflexivity|].
    cbn [insert_sample].
    destruct (v_t_ms x <=? v_t_ms y)%Z eqn:E; [reflexivity|].
    apply Z.leb_gt in E. cbn [filter] in *. rewrite IH.
    destruct (Z.eqb (v_t_ms x) t) eqn:Ex, (Z.eqb (v_t_ms y) t) eqn:Ey;
      try reflexivity.
    apply Z.eqb_eq in Ex, Ey. lia. }
  induction l as [|x l IH]; [reflexivity|].
  cbn [sort_by_time fold_right]. fold (sort_by_time l).
  rewrite Hins. cbn [filter]. now rewrite IH.
Qed.

Lemma filter_sorted (p : ViewerSample -> bool) (l : list ViewerSample) :
  Sorted time_le l -> Sorted time_le (filter p l).
Proof.
  intros H. apply Sorted_StronglySorted in H.
  2:{ intros a b c. unfold time_le. lia. }
  apply StronglySorted_Sorted.
  induction H as [|x l Hs IH Hall]; cbn [filter]; [constructor|].
  destruct (p x); [|exact IH]. constructor; [exact IH|].
  rewrite Forall_forall in *. intros y Hy. apply Hall.
  now apply filter_In in Hy.
Qed.

Lemma filter_perm {A : Type} (p : A -> bool) (l l' : list A) :
  Permutation l l' -> Permutation (filter p l) (filter p l').
Proof.
  induction 1 as [|x l l' _ IH|x y l|l l' l'' _ IH1 _ IH2]; cbn [filter].
  - constructor.
  - destruct (p x); [now constructor|exact IH].
  - destruct (p x), (p y); try reflexivity. apply perm_swap.
  - now transitivity (filter p l').
Qed.

Lemma fold_bump_from_int (times : list Z) :
  forall L0 : Z,
    exists L : Z,
      fold_left bump times (Int L0) = Int L
      /\ (L0 <= L)%Z
      /\ (forall t, In t times -> (t <= L)%Z)
      /\ (L = L0 \/ In L times).
Proof.
  induction times as [|t times IH]; intros L0.
  - exists L0. cbn. repeat split; auto; try lia; intros t [].
  - cbn [fold_left]. unfold bump at 2. cbn [newer].
    destruct (Z.gtb t L0) eqn:E.
    + apply Z.gtb_lt in E.
      destruct (IH t) as (L & HL & Hge & Hmax & Hin).
      exists L. split; [exact HL|]. split; [lia|]. split.
      * intros x [<-|Hx]; [lia|auto].
      * right. destruct Hin as [->|Hin]; [now left|now right].
    + assert (t <= L0)%Z by (rewrite Z.gtb_ltb in E; apply Z.ltb_ge in E; lia).
      destruct (IH L0) as (L & HL & Hge & Hmax & Hin).
      exists L. split; [exact HL|]. split; [lia|]. split.
      * intros x [<-|Hx]; [lia|auto].
      * destruct Hin as [->|Hin]; [now left|right; now right].
Qed.

(** The latest time after a frame is the one before it or a time of the
    frame. *)
Lemma fold_bump_cases (times : list Z) :
  forall l0 : number,
    fold_left bump times l0 = l0
    \/ exists t, In t times /\ fold_left bump times l0 = Int t.
Proof.
  induction times as [|t times IH]; intros l0; [now left|].
  cbn [fold_left].
  destruct (IH (bump l0 t)) as [->|(u & Hu & ->)].
  - unfold bump. destruct (newer t l0); [right; exists t; split; [now left|]|now left].
    reflexivity.
  - right. exists u. split; [now right|reflexivity].
Qed.

Section ViewerFacts.

Variable Date_parse : value -> number.

Lemma viewer_new_cons (s : json) (l : list json) :
  viewer_new Date_parse (s :: l)
  = match parsed_time Date_parse s with
    | Int t => [mkViewerSample (remove_key "t_ms" (own_props s)) t]
    | _ => []
    end ++ viewer_new Date_parse l.
Proof. reflexivity. Qed.

(** The loop processes a prefix of samples it can read and stops either at
    the end or at the first sample it cannot read; the elements are
    unchanged. *)
Lemma append_loop_spec (samples : list json) :
  forall (v : Viewer) (r : result unit) (v' : Viewer),
    append_loop Date_parse samples v = (r, v') ->
    exists done rest q,
      samples = done ++ rest
      /\ Forall (fun s => readable s = true) done
      /\ ((r = Ok tt /\ rest = [])
          \/ (exists what x post,
                r = Thrown (TypeError what)
                /\ rest = x :: post
                /\ readable x = false
                /\ (x = JNull -> what = "Cannot read properties of null")))
      /\ v' = mkViewer (v_buffer v ++ viewer_new Date_parse done)
                (fold_left bump (valid_times Date_parse done) (latestReceivedMs v))
                q (latestTimeEl v) (latestSeqEl v).
Proof.
  induction samples as [|s samples IH]; intros v r v' H.
  - cbn in H. injection H as <- <-. exists [], [], (latestSeq v).
    cbn. rewrite app_nil_r. destruct v; auto 6.
  - cbn [append_loop] in H. destruct (readable s) eqn:Hs.
    + destruct (readable_get Date_parse s Hs) as (val & Hget & Hval).
      rewrite Hget, Hval in H.
      destruct (parsed_time Date_parse s) as [| | |t] eqn:Et;
        try (destruct (IH _ _ _ H) as (done & rest & q & -> & Hnn & Hr & ->);
             exists (s :: done), rest, q;
             rewrite viewer_new_cons, valid_times_cons, Et;
             cbn [app time_of]; repeat split; auto; fail).
      destruct (IH _ _ _ H) as (done & rest & q & -> & Hnn & Hr & ->).
      exists (s :: done), rest, q.
      rewrite viewer_new_cons, valid_times_cons, Et.
      cbn [app time_of fold_left v_buffer latestReceivedMs latestTimeEl latestSeqEl].
      rewrite <- app_assoc. repeat split; auto.
    + destruct (unreadable_get Date_parse s Hs)
        as [_ (what & [[Hget Hnull]|(val & Hget & Hcall & Hnn)])];
        rewrite Hget in H; [|rewrite Hcall in H];
        injection H as <- <-; exists [], (s :: samples), (latestSeq v);
        cbn; rewrite app_nil_r; destruct v;
        (split; [reflexivity|]); (split; [constructor|]);
        (split; [|reflexivity]); right; exists what, s, samples;
        repeat split; auto.
      intros ->. now elim Hnn.
Qed.

Lemma viewer_new_times (l : list json) :
  map v_t_ms (viewer_new Date_parse l) = valid_times Date_parse l.
Proof.
  induction l as [|s l IH]; [reflexivity|].
  rewrite viewer_new_cons, valid_times_cons, map_app, IH.
  destruct (parsed_time Date_parse s); reflexivity.
Qed.

(** After a prefix is processed the variables are in step again, and the
    latest time has not moved back. *)
Lemma loop_in_step (v : Viewer) (done : list json) (q : option json)
    (tt1 : TimeText) (st1 : SeqText) :
  in_step v ->
  let latest := fold_left bump (valid_times Date_parse done) (latestReceivedMs v) in
  in_step (mkViewer (v_buffer v ++ viewer_new Date_parse done) latest q tt1 st1)
  /\ (forall L0, latestReceivedMs v = Int L0 ->
                 exists L, latest = Int L /\ (L0 <= L)%Z)
  /\ (forall t, In t (valid_times Date_parse done) ->
                exists L, latest = Int L /\ (t <= L)%Z).
Proof.
  intros Hstep latest. unfold latest. clear latest.
  assert (Hint : forall L0 buf,
             (forall s, In s buf -> (v_t_ms s <= L0)%Z) ->
             let latest := fold_left bump (valid_times Date_parse done) (Int L0) in
             in_step (mkViewer (buf ++ viewer_new Date_parse done) latest q tt1 st1)
             /\ (exists L, latest = Int L /\ (L0 <= L)%Z)
             /\ (forall t, In t (valid_times Date_parse done) ->
                           exists L, latest = Int L /\ (t <= L)%Z)).
  { intros L0 buf Hbuf latest. unfold latest.
    destruct (fold_bump_from_int (valid_times Date_parse done) L0)
      as (L & -> & Hge & Hmax & _).
    split; [|split; eauto].
    right. exists L. split; [reflexivity|]. cbn [v_buffer].
    intros s Hs. apply in_app_or in Hs as [Hs|Hs].
    - apply Hbuf in Hs. lia.
    - apply Hmax. rewrite <- viewer_new_times. now apply in_map. }
  destruct Hstep as [[Hl Hb]|(L0 & Hl & Hb)]; rewrite Hl.
  - rewrite Hb. cbn [app].
    destruct (valid_times Date_parse done) as [|t times] eqn:Et.
    + assert (Hnew : viewer_new Date_parse done = []).
      { apply map_eq_nil with (f := v_t_ms). now rewrite viewer_new_times. }
      rewrite Hnew. cbn. split; [now left|]. split; [discriminate|intros t []].
    + cbn [fold_left]. unfold bump at 2. cbn [newer].
      destruct (fold_bump_from_int times t) as (L & HL & Hge & Hmax & _).
      rewrite HL. split; [|split; [discriminate|]].
      * right. exists L. split; [reflexivity|]. cbn [v_buffer].
        intros s Hs. apply (in_map v_t_ms) in Hs.
        rewrite viewer_new_times, Et in Hs.
        destruct Hs as [<-|Hs]; [lia|auto].
      * intros x [<-|Hx]; exists L; split; auto; lia.
  - destruct (Hint L0 (v_buffer v) Hb) as (H1 & (L & HL & Hge) & H3).
    split; [exact H1|]. split; [|exact H3].
    intros L1 [= <-]. eauto.
Qed.

End ViewerFacts.

Lemma append_loop_app (Date_parse : value -> number) (done : list json) :
  Forall (fun s => readable s = true) done ->
  forall (v : Viewer) (rest : list json),
    exists q,
      append_loop Date_parse (done ++ rest) v
      = append_loop Date_parse rest
          (mkViewer (v_buffer v ++ viewer_new Date_parse done)
             (fold_left bump (valid_times Date_parse done) (latestReceivedMs v))
             q (latestTimeEl v) (latestSeqEl v)).
Proof.
  induction 1 as [|s done Hs _ IH]; intros v rest.
  - exists (latestSeq v). cbn. rewrite app_nil_r. now destruct v.
  - cbn [app append_loop].
    destruct (readable_get Date_parse s Hs) as (val & Hget & Hval).
    rewrite Hget, Hval, viewer_new_cons, valid_times_cons.
    destruct (parsed_time Date_parse s) as [| | |t]; try apply IH.
    match goal with |- context [append_loop _ _ ?w] =>
      destruct (IH w rest) as (q & ->) end.
    exists q. cbn [app time_of fold_left v_buffer latestReceivedMs latestTimeEl
                    latestSeqEl].
    now rewrite <- app_assoc.
Qed.

(** X17: when [parseAndAppendSamples] returns, the viewer's buffer is in
    ascending time order, it holds exactly the old and the new parsable
    samples that lie within 30000 ms of the latest time ever received, and
    that latest time is the one before the frame or one of the frame's
    times, is at least every time of the frame and never moves back: it is
    the maximum of the two, so that, unlike the room, the viewer windows on
    a running maximum. *)
Theorem viewer_window_follows_newest
    (Date_parse : value -> number) (samples : list json) (v v' : Viewer) :
  in_step v ->
  parseAndAppendSamples Date_parse samples v = (Ok tt, v') ->
  Sorted time_le (v_buffer v')
  /\ Permutation (v_buffer v')
       (filter (fun s => geb (Int (v_t_ms s)) (minus (latestReceivedMs v') 30000))
          (v_buffer v ++ viewer_new Date_parse samples))
  /\ in_step v'
  /\ (forall s, In s (v_buffer v') ->
                exists L, latestReceivedMs v' = Int L
                          /\ (L - 30000 <= v_t_ms s <= L)%Z)
  /\ (forall t, In t (valid_times Date_parse samples) ->
                exists L, latestReceivedMs v' = Int L /\ (t <= L)%Z)
  /\ (forall L0, latestReceivedMs v = Int L0 ->
                 exists L, latestReceivedMs v' = Int L /\ (L0 <= L)%Z)
  /\ (latestReceivedMs v' = latestReceivedMs v
      \/ exists t, In t (valid_times Date_parse samples)
                   /\ latestReceivedMs v' = Int t).
Proof.
  intros Hstep Hrun. unfold parseAndAppendSamples in Hrun.
  destruct (append_loop Date_parse samples v) as [[[]|e] v1] eqn:Hloop;
    [|discriminate Hrun].
  destruct (append_loop_spec Date_parse samples v _ _ Hloop)
    as (done & rest & q & -> & _ & [[_ ->]|(what & x & post & Habs & _)] & ->);
    [|discriminate Habs].
  rewrite app_nil_r in *.
  injection Hrun as <-.
  cbn [v_buffer latestReceivedMs latestSeq latestTimeEl latestSeqEl].
  pose proof (fold_bump_cases (valid_times Date_parse done) (latestReceivedMs v))
    as Hcases.
  destruct (loop_in_step Date_parse v done q (latestTimeEl v) (latestSeqEl v) Hstep)
    as (Hstep1 & Hmono & Htimes).
  set (latest := fold_left bump (valid_times Date_parse done) (latestReceivedMs v)) in *.
  set (keep := fun s => geb (Int (v_t_ms s)) (minus latest 30000)).
  assert (Hin : forall s,
             In s (filter keep (sort_by_time (v_buffer v ++ viewer_new Date_parse done))) ->
             In s (v_buffer v ++ viewer_new Date_parse done) /\ keep s = true).
  { intros s Hs. apply filter_In in Hs as [Hs Hk]. split; [|exact Hk].
    eapply Permutation_in; [apply sort_by_time_perm|exact Hs]. }
  split; [apply filter_sorted, sort_by_time_sorted|].
  split; [apply filter_perm, sort_by_time_perm|].
  split; [|split; [|repeat split; assumption]].
  - destruct Hstep1 as [[Hl Hb]|(L & Hl & Hb)]; cbn [latestReceivedMs v_buffer] in *.
    + left. split; [exact Hl|]. cbn [v_buffer]. rewrite Hb. reflexivity.
    + right. exists L. split; [exact Hl|]. cbn [v_buffer].
      intros s Hs. apply Hb, Hin, Hs.
  - intros s Hs. destruct (Hin s Hs) as [Hmem Hk].
    destruct Hstep1 as [[Hl Hb]|(L & Hl & Hb)]; cbn [latestReceivedMs v_buffer] in *.
    + rewrite Hb in Hmem. destruct Hmem.
    + exists L. split; [exact Hl|]. unfold keep in Hk. rewrite Hl in Hk.
      cbn [minus geb] in Hk. apply Z.geb_le in Hk. specialize (Hb s Hmem). lia.
Qed.

Lemma viewer_window_follows_newest_witness :
  Sorted time_le
    (v_buffer (snd (parseAndAppendSamples IsoDate.parse [s40000; s1000; s3000]
                      viewer_start))).
Proof.
  apply (viewer_window_follows_newest IsoDate.parse [s40000; s1000; s3000]
           viewer_start
           (snd (parseAndAppendSamples IsoDate.parse [s40000; s1000; s3000]
                   viewer_start))).
  - left. split; reflexivity.
  - reflexivity.
Defined.

(** X18: a sample the script cannot read (a [null], or a capture time that
    cannot be converted to a string) makes the handler throw a TypeError
    after the samples before it were pushed, when those can be read: the
    buffer is left longer, neither sorted nor pruned, and the status
    elements are not refreshed, while the latest time still bounds every
    buffered sample.  For a [null] the error is the one of reading a
    property of [null]. *)
Theorem viewer_throws_midway_on_null
    (Date_parse : value -> number) (done post : list json) (x : json)
    (v : Viewer) :
  in_step v ->
  Forall (fun s => readable s = true) done ->
  readable x = false ->
  exists q what,
    parseAndAppendSamples Date_parse (done ++ x :: post) v
    = (Thrown (TypeError what),
       mkViewer (v_buffer v ++ viewer_new Date_parse done)
         (fold_left bump (valid_times Date_parse done) (latestReceivedMs v))
         q (latestTimeEl v) (latestSeqEl v))
    /\ (x = JNull -> what = "Cannot read properties of null")
    /\ in_step (snd (parseAndAppendSamples Date_parse (done ++ x :: post) v)).
Proof.
  intros Hstep Hdone Hx.
  destruct (append_loop_app Date_parse done Hdone v (x :: post)) as (q & Heq).
  assert (Hthrow : exists what,
             append_loop Date_parse (x :: post)
               (mkViewer (v_buffer v ++ viewer_new Date_parse done)
                  (fold_left bump (valid_times Date_parse done) (latestReceivedMs v))
                  q (latestTimeEl v) (latestSeqEl v))
             = (Thrown (TypeError what),
                mkViewer (v_buffer v ++ viewer_new Date_parse done)
                  (fold_left bump (valid_times Date_parse done) (latestReceivedMs v))
                  q (latestTimeEl v) (latestSeqEl v))
             /\ (x = JNull -> what = "Cannot read properties of null")).
  { cbn [append_loop].
    destruct (unreadable_get Date_parse x Hx)
      as [_ (what & [[Hget Hnull]|(val & Hget & Hcall & Hnn)])];
      exists what; rewrite Hget; [|rewrite Hcall]; (split; [reflexivity|]); auto.
    intros ->. now elim Hnn. }
  destruct Hthrow as (what & Hthrow & Hwhat).
  exists q, what. unfold parseAndAppendSamples. rewrite Heq, Hthrow. cbn [snd].
  split; [reflexivity|]. split; [exact Hwhat|].
  apply (loop_in_step Date_parse v done q (latestTimeEl v) (latestSeqEl v) Hstep).
Qed.

Lemma viewer_throws_midway_on_null_witness :
  (exists q what,
      parseAndAppendSamples IsoDate.parse ([s40000; s1000] ++ JNull :: [s3000])
        viewer_start
      = (Thrown (TypeError what),
         mkViewer (v_buffer viewer_start ++ viewer_new IsoDate.parse [s40000; s1000])
           (fold_left bump (valid_times IsoDate.parse [s40000; s1000])
              (latestReceivedMs viewer_start))
           q (latestTimeEl viewer_start) (latestSeqEl viewer_start))
      /\ (JNull = JNull -> what = "Cannot read properties of null")
      /\ in_step (snd (parseAndAppendSamples IsoDate.parse
                         ([s40000; s1000] ++ JNull :: [s3000]) viewer_start)))
  /\ (exists q what,
        parseAndAppendSamples IsoDate.parse ([s1000] ++ s_unconvertible :: [JNull])
          viewer_start
        = (Thrown (TypeError what),
           mkViewer (v_buffer viewer_start ++ viewer_new IsoDate.parse [s1000])
             (fold_left bump (valid_times IsoDate.parse [s1000])
                (latestReceivedMs viewer_start))
             q (latestTimeEl viewer_start) (latestSeqEl viewer_start))
        /\ (s_unconvertible = JNull -> what = "Cannot read properties of null")
        /\ in_step (snd (parseAndAppendSamples IsoDate.parse
                           ([s1000] ++ s_unconvertible :: [JNull]) viewer_start))).
Proof.
  split.
  - apply (viewer_throws_midway_on_null IsoDate.parse [s40000; s1000] [s3000]
             JNull viewer_start).
    + left. split; reflexivity.
    + repeat constructor.
    + reflexivity.
  - apply (viewer_throws_midway_on_null IsoDate.parse [s1000] [JNull]
             s_unconvertible viewer_start).
    + left. split; reflexivity.
    + repeat constructor.
    + reflexivity.
Defined.

(** The frame that the reading of [null] alone does not explain: the
    unconvertible capture time is met first. *)
Example viewer_throws_on_unconvertible_time :
  fst (parseAndAppendSamples IsoDate.parse [s1000; s_unconvertible; JNull]
         viewer_start)
  = Thrown (TypeError "Cannot convert object to primitive value").
Proof. reflexivity. Qed.

Lemma lookup_samples_field (sid did : value) (samples : list json) :
  lookup "samples"
    (field "session_id" sid ++ field "device_id" did
     ++ [("samples", JArr (map reparse samples))])
  = Some (JArr (map reparse samples)).
Proof. destruct sid, did; reflexivity. Qed.

Lemma append_loop_readable (Date_parse : value -> number) (samples : list json)
    (v : Viewer) :
  Forall (fun s => readable s = true) samples ->
  fst (append_loop Date_parse samples v) = Ok tt.
Proof.
  intros H. destruct (append_loop_app Date_parse samples H v []) as (q & Heq).
  rewrite app_nil_r in Heq. now rewrite Heq.
Qed.

Lemma onmessage_frame (Date_parse : value -> number) (m : message) (v : Viewer) :
  onmessage Date_parse (Some (frame_json m)) v
  = parseAndAppendSamples Date_parse (map reparse (samples_of m)) v.
Proof.
  destruct m as [w samples|sid did samples]; unfold onmessage; cbn [frame_json get].
  - cbn [lookup String.eqb Ascii.eqb Bool.eqb is_the_string get_opt andb
         Array_isArray elements samples_of].
    change (lookup "type" [("type", JStr "replay"); ("window_ms", JNum (double w 0));
                           ("samples", JArr (map reparse samples))])
      with (Some (JStr "replay")).
    change (get_opt (Some (JObj [("type", JStr "replay");
                                 ("window_ms", JNum (double w 0));
                                 ("samples", JArr (map reparse samples))]))
              "samples")
      with (Some (JArr (map reparse samples))).
    change (is_the_string (Some (JStr "replay")) "replay") with true.
    change (is_the_string (Some (JStr "replay")) "samples") with false.
    cbn [andb Array_isArray elements].
    destruct (parseAndAppendSamples Date_parse (map reparse samples) v)
      as [[[]|e] v1]; reflexivity.
  - change (lookup "type"
              ([("type", JStr "samples")] ++ field "session_id" sid
               ++ field "device_id" did
               ++ [("samples", JArr (map reparse samples))]))
      with (Some (JStr "samples")).
    change (is_the_string (Some (JStr "samples")) "replay") with false.
    change (is_the_string (Some (JStr "samples")) "samples") with true.
    cbn [andb get_opt app lookup].
    change (String.eqb "samples" "type") with false. cbv iota.
    rewrite lookup_samples_field. reflexivity.
Qed.

(** *** What the room sends can be read *)

Lemma index_key_is_not_a_name (i : nat) :
  String.eqb "t_gps_utc" (index_key i) = false.
Proof.
  unfold index_key. destruct (Nat.to_uint i); reflexivity.
Qed.

Lemma lookup_indexed (l : list json) :
  forall i, lookup "t_gps_utc" (indexed i l) = None.
Proof.
  induction l as [|x l IH]; intros i; [reflexivity|].
  cbn [indexed lookup]. now rewrite index_key_is_not_a_name.
Qed.

Lemma lookup_remove_other (k k' : string) (props : list (string * json)) :
  String.eqb k k' = false ->
  lookup k (remove_key k' props) = lookup k props.
Proof.
  intros Hk. unfold remove_key.
  induction props as [|[k0 x] props IH]; [reflexivity|].
  cbn [filter fst lookup]. destruct (String.eqb k' k0) eqn:E0; cbn [negb].
  - apply String.eqb_eq in E0. subst k0. now rewrite Hk.
  - cbn [lookup]. now rewrite IH.
Qed.

(** What the spread copies of a sample that was read can be read again. *)
Lemma spread_readable (s : json) (t : number) :
  readable s = true -> readable (JObj (rest (spread s t))) = true.
Proof.
  unfold readable. cbn [get spread rest].
  rewrite lookup_remove_other by reflexivity.
  destruct s as [| | |str|elems|props]; cbn [own_props get lookup];
    try reflexivity.
  - now rewrite lookup_indexed.
  - now rewrite lookup_indexed.
  - auto.
Qed.

Lemma existsb_map {A B : Type} (f : B -> bool) (g : A -> B) (l : list A) :
  existsb f (map g l) = existsb (fun x => f (g x)) l.
Proof.
  induction l as [|x l IH]; [reflexivity|]. cbn. now rewrite IH.
Qed.

(** Serialising and parsing again does not change whether a value can be
    converted to a string. *)
Lemma ToString_throws_reparse :
  forall j, ToString_throws (reparse j) = ToString_throws j.
Proof.
  fix IH 1. intros [|b|f|str|elems|props].
  - reflexivity.
  - reflexivity.
  - destruct f; reflexivity.
  - reflexivity.
  - cbn [reparse ToString_throws].
    induction elems as [|e elems IHl]; [reflexivity|].
    cbn [map existsb]. now rewrite IH, IHl.
  - cbn [reparse ToString_throws]. now rewrite existsb_map.
Qed.

Lemma readable_reparse (s : json) :
  is_object s = true -> readable (reparse s) = readable s.
Proof.
  destruct s as [| | | | |props]; try discriminate. intros _.
  unfold readable. cbn [reparse get].
  induction props as [|[k x] props IH]; [reflexivity|].
  cbn [map lookup fst snd].
  destruct (String.eqb "t_gps_utc" k); [|exact IH].
  now rewrite ToString_throws_reparse.
Qed.

Lemma signal_wire (Date_parse : value -> number) (ev : event) (st : Sys) :
  (forall request, ev <> Fetch request) ->
  wire (net (snd (dispatch Date_parse ev st))) = wire (net st).
Proof.
  intros Hev. destruct ev as [request|ws|ws|ws data|ws];
    [now elim (Hev request)| | | |].
  - cbv beta iota delta [dispatch bind mark_closed modify_net when_listened gets
      on_close sockets_delete modify_room ret].
    cbn [room net].
    match goal with |- context [if ?c then _ else _] => destruct c end;
      reflexivity.
  - cbv beta iota delta [dispatch bind when_listened gets on_error sockets_delete
      modify_room try_ignore ws_close ret].
    destruct (has_listeners ws (net st)); [|reflexivity].
    cbn [room net].
    destruct (ready_of ws (net st)) as [[|]|]; reflexivity.
  - cbv beta iota delta [dispatch bind when_listened gets on_message ret].
    destruct (has_listeners ws (net st)); reflexivity.
  - reflexivity.
Qed.


Section ReadableFrames.

Variable Date_parse : value -> number.

Lemma newly_buffered_readable (items : list json) :
  Forall (fun b => readable (JObj (rest b)) = true)
    (newly_buffered Date_parse items).
Proof.
  apply Forall_forall. intros b Hb. unfold newly_buffered in Hb.
  apply in_map_iff in Hb as (s & <- & Hs).
  unfold valid_samples in Hs. apply filter_In in Hs as [_ Hfin].
  apply spread_readable.
  destruct (parsed_time Date_parse s) as [| | |t] eqn:Et; try discriminate Hfin.
  exact (finite_is_readable Date_parse s t Et).
Qed.

Lemma stripped_can_be_read (bs : list BufferedSample) :
  Forall (fun b => readable (JObj (rest b)) = true) bs ->
  Forall (fun s => is_object s = true /\ readable s = true) (map strip bs).
Proof.
  intros H. apply Forall_forall. intros s Hs.
  apply in_map_iff in Hs as (b & <- & Hb).
  rewrite Forall_forall in H. split; [reflexivity|exact (H b Hb)].
Qed.

Lemma dispatch_sends_readable_frames (ev : event) (st : Sys) :
  sends_readable_frames st ->
  sends_readable_frames (snd (dispatch Date_parse ev st)).
Proof.
  intros [Hbuf Hwire]. unfold sends_readable_frames.
  assert (Hquiet : forall st',
             buffer (room st') = buffer (room st) ->
             wire (net st') = wire (net st) ->
             Forall (fun b => readable (JObj (rest b)) = true) (buffer (room st'))
             /\ Forall (fun f => viewer_can_read (snd f)) (wire (net st'))).
  { intros st' -> ->. now split. }
  destruct ev as [request|ws|ws|ws data|ws].
  - rewrite dispatch_fetch.
    destruct (fetch_state Date_parse request st)
      as [->|[->|(batch & items & L & resp & _ & _ & Heq & _)]].
    + now split.
    + cbn [room net buffer wire]. split; [exact Hbuf|].
      apply Forall_app. split; [exact Hwire|].
      constructor; [|constructor]. cbn [snd]. unfold viewer_can_read.
      cbn [samples_of]. now apply stripped_can_be_read.
    + rewrite Heq. cbn [snd ingested room net buffer wire].
      pose proof (newly_buffered_readable items) as Hnew.
      split.
      * apply Forall_forall. intros b Hb. apply filter_In in Hb as [Hb _].
        apply in_app_or in Hb as [Hb|Hb];
          [rewrite Forall_forall in Hbuf; now apply Hbuf
          |rewrite Forall_forall in Hnew; now apply Hnew].
      * apply Forall_app. split; [exact Hwire|].
        apply Forall_forall. intros f Hf. unfold deliveries in Hf.
        apply in_map_iff in Hf as (ws & <- & _). cbn [snd].
        unfold viewer_can_read. cbn [samples_of].
        now apply stripped_can_be_read.
  - apply Hquiet; [apply dispatch_close_room|apply signal_wire; discriminate].
  - apply Hquiet; [apply dispatch_error_room|apply signal_wire; discriminate].
  - apply Hquiet; [|apply signal_wire; discriminate].
    rewrite dispatch_quiet_room; [reflexivity|left; eauto].
  - apply Hquiet; [|apply signal_wire; discriminate].
    rewrite dispatch_quiet_room; [reflexivity|right; eauto].
Qed.

Lemma run_sends_readable_frames (evs : list event) :
  forall st, sends_readable_frames st ->
             sends_readable_frames (run Date_parse evs st).
Proof.
  induction evs as [|ev evs IH]; intros st Hinv; [exact Hinv|].
  cbn [run]. apply IH. now apply dispatch_sends_readable_frames.
Qed.

End ReadableFrames.

Lemma onmessage_readable (Date_parse : value -> number) (m : message) (v : Viewer) :
  viewer_can_read m ->
  fst (onmessage Date_parse (Some (frame_json m)) v) = Ok tt.
Proof.
  intros Hm. rewrite onmessage_frame. unfold parseAndAppendSamples.
  assert (Hr : Forall (fun s => readable s = true) (map reparse (samples_of m))).
  { apply Forall_forall. intros s Hs.
    apply in_map_iff in Hs as (x & <- & Hx).
    unfold viewer_can_read in Hm. rewrite Forall_forall in Hm.
    destruct (Hm x Hx) as [Hobj Hread]. now rewrite readable_reparse. }
  pose proof (append_loop_readable Date_parse _ v Hr) as Hok.
  destruct (append_loop Date_parse (map reparse (samples_of m)) v) as [r v1].
  cbn [fst] in Hok. subst r. reflexivity.
Qed.

(** X19: every message the room puts on the wire is read by the viewer's
    handler: a replay and a live update both reach [parseAndAppendSamples]
    with the message's samples; and on every frame a room sends in a run
    from a cold start, whatever its events and whatever the [Date.parse] of
    the room, the handler returns normally, because the room buffers and
    sends only objects made from samples its own loop could read. *)
Theorem room_frames_reach_the_viewer_buffer
    (Date_parse : value -> number) (m : message) (v : Viewer) :
  onmessage Date_parse (Some (frame_json m)) v
  = parseAndAppendSamples Date_parse (map reparse (samples_of m)) v
  /\ (forall (room_Date_parse : value -> number) (evs : list event)
             (ws : WebSocket),
        In (ws, m) (wire (net (run room_Date_parse evs cold_start))) ->
        fst (onmessage Date_parse (Some (frame_json m)) v) = Ok tt).
Proof.
  split; [apply onmessage_frame|].
  intros room_Date_parse evs ws Hin. apply onmessage_readable.
  assert (Hinv : sends_readable_frames (run room_Date_parse evs cold_start)).
  { apply run_sends_readable_frames. split; constructor. }
  destruct Hinv as [_ Hwire]. rewrite Forall_forall in Hwire.
  exact (Hwire (ws, m) Hin).
Qed.

Lemma room_frames_reach_the_viewer_buffer_witness :
  fst (onmessage IsoDate.parse
         (Some (frame_json (Samples (Some (JStr "run-42")) (Some (JStr "imu-7"))
                              [s1000; s2000])))
         viewer_start)
  = Ok tt.
Proof.
  apply (proj2 (room_frames_reach_the_viewer_buffer IsoDate.parse
                  (Samples (Some (JStr "run-42")) (Some (JStr "imu-7"))
                     [s1000; s2000])
                  viewer_start)
           IsoDate.parse
           [Fetch (mkRequest "GET" "/" (Some "websocket") None);
            Fetch (ingest_request (run42 [s1000; s_unparsable; s2000]))]
           1%nat).
  vm_compute. auto.
Defined.

(** A frame no room sends: the handler throws on a capture time that
    cannot be converted to a string. *)
Example unconvertible_frame_is_not_read :
  fst (onmessage IsoDate.parse
         (Some (frame_json (Replay 30000 [s_unconvertible]))) viewer_start)
  = Thrown (TypeError "Cannot convert object to primitive value").
Proof. reflexivity. Qed.

(** X20: the handler ignores what is not a frame of the protocol: data that
    is not JSON, and JSON other than [null] whose [type] is neither of the two
    strings or whose [samples] is not an array, leave the viewer as it is. *)
Theorem foreign_frames_are_ignored
    (Date_parse : value -> number) (v : Viewer) :
  onmessage Date_parse None v = (Ok tt, v)
  /\ (forall msg,
        msg <> JNull ->
        (is_the_string (get_opt (Some msg) "type") "replay" = false
         /\ is_the_string (get_opt (Some msg) "type") "samples" = false)
        \/ Array_isArray (get_opt (Some msg) "samples") = false ->
        onmessage Date_parse (Some msg) v = (Ok tt, v)).
Proof.
  split; [reflexivity|]. intros msg Hmsg Hforeign. unfold onmessage.
  assert (Hget : get msg "type" = Ok (get_opt (Some msg) "type"))
    by (destruct msg; try reflexivity; now elim Hmsg).
  rewrite Hget.
  destruct Hforeign as [[-> ->] | ->]; rewrite ?andb_false_r; reflexivity.
Qed.

Lemma foreign_frames_are_ignored_witness :
  onmessage IsoDate.parse
    (Some (JObj [("type", JStr "ping"); ("samples", JArr [s1000])])) viewer_start
  = (Ok tt, viewer_start).
Proof.
  apply (proj2 (foreign_frames_are_ignored IsoDate.parse viewer_start)
           (JObj [("type", JStr "ping"); ("samples", JArr [s1000])])).
  - discriminate.
  - left. split; reflexivity.
Defined.

Lemma lookup_reparse (k : string) (props : list (string * json)) :
  lookup k (map (fun p => (fst p, reparse (snd p))) props)
  = option_map reparse (lookup k props).
Proof.
  induction props as [|[k' x] props IH]; [reflexivity|].
  cbn [map lookup fst snd]. destruct (String.eqb k k'); [reflexivity|exact IH].
Qed.

Lemma parsed_time_reparse (Date_parse : value -> number) (s : json) :
  is_sample s = true ->
  parsed_time Date_parse (reparse s) = parsed_time Date_parse s.
Proof.
  destruct s as [| | | | |p]; try discriminate. unfold is_sample.
  rewrite !andb_true_iff. intros [[[[_ Ht] _] _] _].
  unfold parsed_time. cbn [reparse get]. rewrite lookup_reparse.
  destruct (lookup "t_gps_utc" p) as [[| | |x| |]|]; try discriminate Ht.
  reflexivity.
Qed.

(** X21: for a batch of the declared wire type, the times the viewer parses
    out of the live update are the times the room parsed when it ingested
    the batch, in the same order, provided both use the same [Date.parse]:
    stripping [t_ms], serialising and parsing again lose nothing the
    viewer's clock needs. *)
Theorem viewer_reparses_the_rooms_times
    (Date_parse : value -> number) (items : list json) :
  forallb is_sample items = true ->
  map v_t_ms
    (viewer_new Date_parse
       (map reparse (map strip (newly_buffered Date_parse items))))
  = valid_times Date_parse items
  /\ map t_ms (newly_buffered Date_parse items)
     = map Int (valid_times Date_parse items).
Proof.
  intros Htyped. rewrite viewer_new_times. rewrite forallb_forall in Htyped.
  unfold newly_buffered, valid_samples.
  induction items as [|s items IH]; [split; reflexivity|].
  destruct IH as [IH1 IH2]; [intros x Hx; apply Htyped; now right|].
  rewrite valid_times_cons. cbn [filter].
  destruct (parsed_time Date_parse s) as [| | |t] eqn:Et;
    cbn [Number_isFinite time_of app]; [split; assumption ..|].
  cbn [map]. rewrite valid_times_cons, strip_spread_sample by (apply Htyped; now left).
  rewrite parsed_time_reparse by (apply Htyped; now left).
  cbn [spread t_ms]. rewrite Et. cbn [time_of app]. rewrite IH1, IH2.
  split; reflexivity.
Qed.

Lemma viewer_reparses_the_rooms_times_witness :
  map v_t_ms
    (viewer_new IsoDate.parse
       (map reparse
          (map strip (newly_buffered IsoDate.parse [s1000; s_unparsable; s2000]))))
  = valid_times IsoDate.parse [s1000; s_unparsable; s2000]
  /\ map t_ms (newly_buffered IsoDate.parse [s1000; s_unparsable; s2000])
     = map Int (valid_times IsoDate.parse [s1000; s_unparsable; s2000]).
Proof.
  apply (viewer_reparses_the_rooms_times IsoDate.parse
           [s1000; s_unparsable; s2000]).
  reflexivity.
Defined.

(** What a delayed batch left in the room's buffer is not shown: the room
    replays the samples at 40000 and 1000, the viewer keeps the one at
    40000. *)
Example viewer_drops_what_the_room_kept :
  map t_ms
    (buffer (room (run IsoDate.parse
                     [Fetch (ingest_request (run42 [s40000]));
                      Fetch (ingest_request (run42 [s1000]))] cold_start)))
  = [Int 40000; Int 1000]
  /\ map v_t_ms
       (v_buffer
          (snd (onmessage IsoDate.parse
                  (Some (frame_json
                           (Replay 30000
                              (map strip
                                 (buffer
                                    (room (run IsoDate.parse
                                             [Fetch (ingest_request (run42 [s40000]));
                                              Fetch (ingest_request (run42 [s1000]))]
                                             cold_start)))))))
                  viewer_start)))
     = [40000%Z].
Proof. split; reflexivity. Qed.

(** ** More on the room and the Worker *)

(** X22: an ingest is all or nothing: either it is answered 200, or the
    whole system (buffer, socket set, socket ends, wire) is exactly what it
    was, whether the request was rejected or the handler threw. *)
Theorem ingest_is_all_or_nothing
    (Date_parse : value -> number) (request : Request) (st : Sys) :
  snd (handleIngest Date_parse request st) = st
  \/ exists received,
       fst (handleIngest Date_parse request st) = Ok (ok_response received)
       /\ (0 < received)%nat.
Proof.
  destruct (handleIngest_rejects_or_accepts Date_parse request st)
    as [(batch & items & Hacc)|[Hst _]]; [|now left].
  right.
  destruct (handleIngest_accepted Date_parse request batch items st Hacc)
    as (L & _ & ->).
  eexists. split; [reflexivity|].
  destruct Hacc as (_ & _ & _ & _ & _ & Hv).
  destruct (valid_samples Date_parse items); [now elim Hv|cbn; lia].
Qed.

(** X23: the wire only grows, and a turn sends frames to registered
    sockets only: whatever the event, the frames already sent stay in place
    and every frame added is addressed to a socket that is in the set after
    the turn. *)
Theorem frames_go_to_registered_sockets_only
    (Date_parse : value -> number) (ev : event) (st : Sys) :
  exists added,
    wire (net (snd (dispatch Date_parse ev st))) = wire (net st) ++ added
    /\ forall ws m, In (ws, m) added ->
                    In ws (sockets (room (snd (dispatch Date_parse ev st)))).
Proof.
  destruct ev as [request|ws|ws|ws data|ws];
    try (exists []; rewrite signal_wire by discriminate;
         rewrite app_nil_r; split; [reflexivity|intros ? ? []]).
  rewrite dispatch_fetch.
  destruct (fetch_state Date_parse request st)
    as [->|[->|(batch & items & L & resp & _ & _ & -> & _)]].
  - exists []. rewrite app_nil_r. split; [reflexivity|intros ? ? []].
  - eexists. split; [reflexivity|]. cbn [room sockets].
    intros ws m [[= <- _]|[]]. apply set_add_In.
  - eexists. split; [reflexivity|]. cbn [snd ingested room sockets].
    intros ws m Hin. unfold deliveries in Hin.
    apply in_map_iff in Hin as (x & [= <- _] & Hx).
    now apply filter_In in Hx.
Qed.

(** X24: the viewer route and the wiring-test route never reach the ingest
    handler.  On /live/ an Upgrade: websocket request is answered 101 by the
    named room, which registers a socket; any other request there, and every
    request on /__do_test/, is answered 404 Not Found and leaves the named
    room as it was. *)
Theorem read_only_routes
    (Date_parse : value -> number) (token : string)
    (request : WorkerRequest) (rooms : Rooms) :
  let sid := session_of (pathname (inner request)) in
  (String.prefix "/live/" (pathname (inner request)) = true ->
   wants_websocket (header_Upgrade (inner request)) = true ->
   worker_fetch Date_parse token request rooms
   = (FromRoom (fst (acceptViewerWebSocket (rooms sid))),
      set_room sid (snd (acceptViewerWebSocket (rooms sid))) rooms))
  /\ (String.prefix "/live/" (pathname (inner request)) = true ->
      wants_websocket (header_Upgrade (inner request)) = false ->
      fst (worker_fetch Date_parse token request rooms)
      = FromRoom (Ok (text_response "Not Found" 404))
      /\ snd (worker_fetch Date_parse token request rooms) sid = rooms sid)
  /\ (String.prefix "/__do_test/" (pathname (inner request)) = true ->
      fst (worker_fetch Date_parse token request rooms)
      = FromRoom (Ok (text_response "Not Found" 404))
      /\ snd (worker_fetch Date_parse token request rooms) sid = rooms sid).
Proof.
  intros sid. unfold worker_fetch, stub_fetch. fold sid. split; [|split].
  - intros Hlive Hup. destruct (route_live _ Hlive) as [-> _].
    now rewrite Hlive, fetch_unfold, Hup.
  - intros Hlive Hup. destruct (route_live _ Hlive) as [-> Hpath].
    rewrite Hlive, fetch_unfold, Hup, Hpath. cbn [fst snd].
    now rewrite set_room_same.
  - intros ->. rewrite fetch_unfold. cbn [fst snd]. cbn.
    now rewrite set_room_same.
Qed.

Lemma read_only_routes_witness :
  (fst (worker_fetch IsoDate.parse "s3cret"
          (mkWorkerRequest
             (mkRequest "POST" "/live/run-42" None (Some (run42 [s1000]))) None)
          no_rooms)
   = FromRoom (Ok (text_response "Not Found" 404))
   /\ snd (worker_fetch IsoDate.parse "s3cret"
             (mkWorkerRequest
                (mkRequest "POST" "/live/run-42" None (Some (run42 [s1000]))) None)
             no_rooms) "run-42"
      = no_rooms "run-42")
  /\ worker_fetch IsoDate.parse "s3cret"
       (mkWorkerRequest
          (mkRequest "GET" "/live/run-42" (Some websocket_in_kelvin) None) None)
       no_rooms
     = (FromRoom (fst (acceptViewerWebSocket (no_rooms "run-42"))),
        set_room "run-42" (snd (acceptViewerWebSocket (no_rooms "run-42")))
          no_rooms).
Proof.
  split.
  - apply (proj1 (proj2 (read_only_routes IsoDate.parse "s3cret"
                           (mkWorkerRequest
                              (mkRequest "POST" "/live/run-42" None
                                 (Some (run42 [s1000]))) None)
                           no_rooms))); reflexivity.
  - apply (proj1 (read_only_routes IsoDate.parse "s3cret"
                    (mkWorkerRequest
                       (mkRequest "GET" "/live/run-42" (Some websocket_in_kelvin)
                          None) None)
                    no_rooms)); reflexivity.
Defined.
